(** * Phishing-template generator: extraction pipeline, fallback synthesis,
      orchestration, history and rate limiting

    A shallow embedding of [utils.py], [prompts.py], [models.py] and
    [services.py], and the properties of the specification proved (or
    refuted) on it.

    Python values are modelled as follows.
    - [str] is the list of the string's Unicode code points, so that
      indexing, slicing, [\s], [.] and [[^...]] count code points as Python
      does.  Literals are written [py "..."], the UTF-8 decoding of the
      bytes between the quotes; the double quote character is spliced in
      as [dq].
    - a [dict] is a stdpp [gmap]; a [list] is a [list].
    - [time.time()] and [datetime.now()] are readings supplied by the
      environment, as integers (clock ticks).
    - a call that may raise returns a [result]: the exception's message or
      the value; state and exceptions are threaded by a small monad. *)

From Stdlib Require Import ZArith NArith Lia String Ascii.
From stdpp Require Import gmap strings list fin_maps.

Local Open Scope Z_scope.

(** ** Strings *)

Abbreviation str := (list N).

Fixpoint bytes_of (s : string) : list N :=
  match s with
  | EmptyString => []
  | String a s' => N_of_ascii a :: bytes_of s'
  end.

(** UTF-8 decoding of a byte sequence (well-formed input assumed: the
    literals of this file). *)
Fixpoint utf8_decode (bs : list N) : str :=
  match bs with
  | [] => []
  | b :: r =>
    if (b <? 128)%N then b :: utf8_decode r
    else if (b <? 224)%N then
      match r with
      | c1 :: r1 => ((b - 192) * 64 + (c1 - 128))%N :: utf8_decode r1
      | _ => []
      end
    else if (b <? 240)%N then
      match r with
      | c1 :: c2 :: r2 =>
        ((b - 224) * 4096 + (c1 - 128) * 64 + (c2 - 128))%N :: utf8_decode r2
      | _ => []
      end
    else
      match r with
      | c1 :: c2 :: c3 :: r3 =>
        ((b - 240) * 262144 + (c1 - 128) * 4096 + (c2 - 128) * 64 + (c3 - 128))%N
          :: utf8_decode r3
      | _ => []
      end
  end.

Definition py (s : string) : str := utf8_decode (bytes_of s).

(** The characters that a literal of this file cannot hold directly. *)
Definition dq : str := [34%N].
Definition nl : str := [10%N].

(** [len(s)] *)
Definition len {A : Type} (s : list A) : Z := Z.of_nat (length s).

(** [Py_UNICODE_ISSPACE]: the code points that [str.strip()], [str.split()]
    and the regular expression class [\s] treat as whitespace. *)
Definition isspace (c : N) : bool :=
  ((9 <=? c) && (c <=? 13) || (28 <=? c) && (c <=? 32)
   || (c =? 133) || (c =? 160) || (c =? 5760)
   || (8192 <=? c) && (c <=? 8202)
   || (c =? 8232) || (c =? 8233) || (c =? 8239) || (c =? 8287)
   || (c =? 12288))%N.

Fixpoint lstrip (s : str) : str :=
  match s with
  | c :: s' => if isspace c then lstrip s' else s
  | [] => []
  end.

Fixpoint rstrip (s : str) : str :=
  match s with
  | [] => []
  | c :: s' =>
    match rstrip s' with
    | [] => if isspace c then [] else [c]
    | r => c :: r
    end
  end.

(** [s.strip()] *)
Definition strip (s : str) : str := rstrip (lstrip s).

(** [s.startswith(p)] *)
Fixpoint startswith (p s : str) : bool :=
  match p, s with
  | [], _ => true
  | a :: p', b :: s' => (a =? b)%N && startswith p' s'
  | _ :: _, [] => false
  end.

(** [needle in s] *)
Fixpoint contains (needle s : str) : bool :=
  startswith needle s ||
  match s with
  | [] => false
  | _ :: s' => contains needle s'
  end.

Fixpoint find_from (needle s : str) (i : Z) : Z :=
  if startswith needle s then i
  else match s with
       | [] => -1
       | _ :: s' => find_from needle s' (i + 1)
       end.

(** [s.find(needle)]: the lowest index of an occurrence, or -1. *)
Definition find (needle s : str) : Z := find_from needle s 0.

Fixpoint rfind_from (needle s : str) (i last : Z) : Z :=
  let last' := if startswith needle s then i else last in
  match s with
  | [] => last'
  | _ :: s' => rfind_from needle s' (i + 1) last'
  end.

(** [s.rfind(needle)]: the highest index of an occurrence, or -1. *)
Definition rfind (needle s : str) : Z := rfind_from needle s 0 (-1).

(** [s[a:b]] for indices that are not negative. *)
Definition slice (s : str) (a b : Z) : str :=
  take (Z.to_nat b - Z.to_nat a)%nat (drop (Z.to_nat a) s).

(** [s.replace(' ', '')] *)
Definition remove_spaces (s : str) : str :=
  filter (fun c => c ≠ 32%N) s.

(** [len(s.split())]: the number of maximal runs of characters that are not
    whitespace. *)
Fixpoint count_words (inword : bool) (s : str) : nat :=
  match s with
  | [] => 0%nat
  | c :: s' =>
    if isspace c then count_words false s'
    else if inword then count_words true s' else S (count_words true s')
  end.

(** [str.lower()] depends on the Unicode case tables of the interpreter.
    The functions that call it take it through this class, and what is
    proved of them for every text holds for every instance. *)
Class PyLower := lower : str -> str.

Definition ascii_lower_char (c : N) : N :=
  if ((65 <=? c) && (c <=? 90))%N then (c + 32)%N else c.

(** On a text whose cased letters are all ASCII, [str.lower()] is this
    function; the evaluations of this file are on such texts. *)
Definition ascii_lower : PyLower := map ascii_lower_char.

(** ** Regular expressions

    The patterns of the source are sequences of literals, single character
    classes, starred classes (greedy or not) and capturing groups that do
    not nest.  The matcher is the backtracking matcher of [re]: every
    alternative is tried in priority order and the first complete match is
    the answer. *)

Inductive cls :=
| Dot                   (* [.] under DOTALL *)
| Space                 (* [\s] *)
| NoneOf (cs : str)     (* [[^...]] *)
| AnyOf (cs : str).     (* [[...]] *)

Definition inb (c : N) (cs : str) : bool := existsb (N.eqb c) cs.

Definition cls_match (k : cls) (c : N) : bool :=
  match k with
  | Dot => true
  | Space => isspace c
  | NoneOf cs => negb (inb c cs)
  | AnyOf cs => inb c cs
  end.

Inductive atom :=
| Lit (s : str)         (* a literal *)
| One (k : cls)         (* one character of the class *)
| Star (k : cls)        (* [k*], greedy *)
| LazyStar (k : cls)    (* [k*?] *)
| Open                  (* [(] *)
| Close.                (* [)] *)

Abbreviation pattern := (list atom).

(** [k+] *)
Definition Plus (k : cls) : pattern := [One k; Star k].

(** The simple lower-case mapping [sre] applies to the subject character
    under IGNORECASE, on the characters it sends to an ASCII letter. *)
Definition sre_lower (c : N) : N :=
  if ((65 <=? c) && (c <=? 90))%N then (c + 32)%N
  else if (c =? 304)%N then 105%N       (* U+0130 -> i *)
  else if (c =? 8490)%N then 107%N      (* U+212A -> k *)
  else c.

(** Does the literal character [p] accept [c]?  Under IGNORECASE the
    lowered [c] is compared with the lowered [p] and with the characters
    [sre_compile] lists as equivalent to it (U+0131 for [i], U+017F for
    [s]). *)
Definition lit_char (ic : bool) (p c : N) : bool :=
  if ic then
    let lo := sre_lower p in
    let c' := sre_lower c in
    ((c' =? lo) || (lo =? 105) && (c' =? 305) || (lo =? 115) && (c' =? 383))%N
  else (p =? c)%N.

(** Consume the literal [l] at the head of [s]. *)
Fixpoint eat (ic : bool) (l s : str) : option str :=
  match l, s with
  | [], _ => Some s
  | p :: l', c :: s' => if lit_char ic p c then eat ic l' s' else None
  | _ :: _, [] => None
  end.

Section backtrack.
Context {R : Type} (k : cls) (cont : str -> option R).

(** [k*] then [cont]: the longest run first. *)
Fixpoint greedy (s : str) : option R :=
  match s with
  | c :: s' =>
    if cls_match k c then
      match greedy s' with
      | Some r => Some r
      | None => cont s
      end
    else cont s
  | [] => cont []
  end.

(** [k*?] then [cont]: the shortest run first. *)
Fixpoint lazy (s : str) : option R :=
  match cont s with
  | Some r => Some r
  | None =>
    match s with
    | c :: s' => if cls_match k c then lazy s' else None
    | [] => None
    end
  end.
End backtrack.

(** Match [p] at the head of [s].  [opened] is the text that was left when
    the current group opened, [caps] the groups closed so far.  The result
    is the groups and the text left after the match. *)
Fixpoint re_match (ic : bool) (p : pattern) (opened : str) (caps : list str)
    (s : str) : option (list str * str) :=
  match p with
  | [] => Some (caps, s)
  | Lit l :: p' =>
    match eat ic l s with
    | Some s' => re_match ic p' opened caps s'
    | None => None
    end
  | One k :: p' =>
    match s with
    | c :: s' => if cls_match k c then re_match ic p' opened caps s' else None
    | [] => None
    end
  | Star k :: p' => greedy k (re_match ic p' opened caps) s
  | LazyStar k :: p' => lazy k (re_match ic p' opened caps) s
  | Open :: p' => re_match ic p' s caps s
  | Close :: p' =>
    re_match ic p' s
      (caps ++ [take (length opened - length s)%nat opened]) s
  end.

(** [re.search(p, s, flags)]: the groups of the leftmost match. *)
Fixpoint re_search (ic : bool) (p : pattern) (s : str) : option (list str) :=
  match re_match ic p s [] s with
  | Some (g, _) => Some g
  | None =>
    match s with
    | [] => None
    | _ :: s' => re_search ic p s'
    end
  end.

(** [match.group(n)] *)
Definition group (n : nat) (g : list str) : str := nth (n - 1) g [].

(** [re.findall(p, s, flags)] for a pattern with groups: the groups of the
    matches that do not overlap, from left to right.  [skip] counts the
    characters of the last match still to be passed over. *)
Fixpoint re_findall_from (ic : bool) (p : pattern) (skip : nat) (s : str)
    : list (list str) :=
  match skip with
  | S n =>
    match s with
    | [] => []
    | _ :: s' => re_findall_from ic p n s'
    end
  | O =>
    match re_match ic p s [] s with
    | Some (g, rest) =>
      g :: match s with
           | [] => []
           | _ :: s' =>
             re_findall_from ic p (length s - length rest - 1)%nat s'
           end
    | None =>
      match s with
      | [] => []
      | _ :: s' => re_findall_from ic p 0 s'
      end
    end
  end.

Definition re_findall (ic : bool) (p : pattern) (s : str) : list (list str) :=
  re_findall_from ic p 0 s.

(** [re.sub(p, repl, s)] for a pattern that matches no empty text. *)
Fixpoint re_sub_from (p : pattern) (repl : str) (skip : nat) (s : str) : str :=
  match skip with
  | S n =>
    match s with
    | [] => []
    | _ :: s' => re_sub_from p repl n s'
    end
  | O =>
    match s with
    | [] => []
    | c :: s' =>
      match re_match false p s [] s with
      | Some (_, rest) =>
        repl ++ re_sub_from p repl (length s - length rest - 1)%nat s'
      | None => c :: re_sub_from p repl 0 s'
      end
    end
  end.

Definition re_sub (p : pattern) (repl s : str) : str := re_sub_from p repl 0 s.

(** ** models.py *)

(** A [str]-valued enumeration: its members in declaration order and the
    value of each. *)
Class PyEnum (A : Type) := {
  members : list A;
  value : A -> str;
  enum_name : str
}.

Inductive ScenarioType :=
| PASSWORD_RESET | INVOICE_OVERDUE | ACCOUNT_LOCK | PRIZE_NOTIFICATION
| URGENT_DOCUMENT_REVIEW | SECURITY_ALERT | SYSTEM_MAINTENANCE | PAYMENT_FAILED.

Inductive TargetIndustry :=
| BANKING | ONLINE_RETAIL | CLOUD_SERVICE | SOCIAL_MEDIA | SHIPPING_COMPANY
| HEALTHCARE | GOVERNMENT | EDUCATION | TECHNOLOGY | INSURANCE | RETAIL.

Inductive UrgencyLevel := NORMAL | HIGH.

Inductive ToneStyle := FORMAL | CASUAL | URGENT | INFORMATIVE.

Inductive Language := ENGLISH | SPANISH | FRENCH | GERMAN | CHINESE | JAPANESE.

Inductive PhishingTactic :=
| CREDENTIAL_HARVESTING | INVOICE_FRAUD | ACCOUNT_TAKEOVER | PRIZE_SCAM
| TECH_SUPPORT | EXECUTIVE_IMPERSONATION.

#[export] Instance ScenarioType_enum : PyEnum ScenarioType := {|
  members := [PASSWORD_RESET; INVOICE_OVERDUE; ACCOUNT_LOCK; PRIZE_NOTIFICATION;
              URGENT_DOCUMENT_REVIEW; SECURITY_ALERT; SYSTEM_MAINTENANCE;
              PAYMENT_FAILED];
  value s :=
    match s with
    | PASSWORD_RESET => py "Password Reset"
    | INVOICE_OVERDUE => py "Invoice Overdue"
    | ACCOUNT_LOCK => py "Account Lock"
    | PRIZE_NOTIFICATION => py "Prize Notification"
    | URGENT_DOCUMENT_REVIEW => py "Urgent Document Review"
    | SECURITY_ALERT => py "Security Alert"
    | SYSTEM_MAINTENANCE => py "System Maintenance"
    | PAYMENT_FAILED => py "Payment Failed"
    end;
  enum_name := py "ScenarioType"
|}.

#[export] Instance TargetIndustry_enum : PyEnum TargetIndustry := {|
  members := [BANKING; ONLINE_RETAIL; CLOUD_SERVICE; SOCIAL_MEDIA;
              SHIPPING_COMPANY; HEALTHCARE; GOVERNMENT; EDUCATION; TECHNOLOGY;
              INSURANCE; RETAIL];
  value i :=
    match i with
    | BANKING => py "Banking"
    | ONLINE_RETAIL => py "Online Retail"
    | CLOUD_SERVICE => py "Cloud Service"
    | SOCIAL_MEDIA => py "Social Media"
    | SHIPPING_COMPANY => py "Shipping Company"
    | HEALTHCARE => py "Healthcare"
    | GOVERNMENT => py "Government"
    | EDUCATION => py "Education"
    | TECHNOLOGY => py "Technology"
    | INSURANCE => py "Insurance"
    | RETAIL => py "Retail"
    end;
  enum_name := py "TargetIndustry"
|}.

#[export] Instance UrgencyLevel_enum : PyEnum UrgencyLevel := {|
  members := [NORMAL; HIGH];
  value u := match u with NORMAL => py "Normal" | HIGH => py "High" end;
  enum_name := py "UrgencyLevel"
|}.

#[export] Instance ToneStyle_enum : PyEnum ToneStyle := {|
  members := [FORMAL; CASUAL; URGENT; INFORMATIVE];
  value t :=
    match t with
    | FORMAL => py "Formal"
    | CASUAL => py "Casual"
    | URGENT => py "Urgent"
    | INFORMATIVE => py "Informative"
    end;
  enum_name := py "ToneStyle"
|}.

#[export] Instance Language_enum : PyEnum Language := {|
  members := [ENGLISH; SPANISH; FRENCH; GERMAN; CHINESE; JAPANESE];
  value l :=
    match l with
    | ENGLISH => py "English"
    | SPANISH => py "Spanish"
    | FRENCH => py "French"
    | GERMAN => py "German"
    | CHINESE => py "Chinese"
    | JAPANESE => py "Japanese"
    end;
  enum_name := py "Language"
|}.

#[export] Instance PhishingTactic_enum : PyEnum PhishingTactic := {|
  members := [CREDENTIAL_HARVESTING; INVOICE_FRAUD; ACCOUNT_TAKEOVER; PRIZE_SCAM;
              TECH_SUPPORT; EXECUTIVE_IMPERSONATION];
  value t :=
    match t with
    | CREDENTIAL_HARVESTING => py "credential_harvesting"
    | INVOICE_FRAUD => py "invoice_fraud"
    | ACCOUNT_TAKEOVER => py "account_takeover"
    | PRIZE_SCAM => py "prize_scam"
    | TECH_SUPPORT => py "tech_support"
    | EXECUTIVE_IMPERSONATION => py "executive_impersonation"
    end;
  enum_name := py "PhishingTactic"
|}.

(** [E(v)]: the member whose value is [v], if there is one. *)
Definition of_value `{PyEnum A} (v : str) : option A :=
  List.find (fun m => bool_decide (value m = v)) members.

Module PhishingRequest.
Record t := {
  scenario_type : ScenarioType;
  target_industry : TargetIndustry;
  urgency_level : UrgencyLevel;
  tone_style : ToneStyle;
  language : Language;
  phishing_tactic : option PhishingTactic;
  advanced_mode : bool
}.
End PhishingRequest.

Module EmailTemplate.
Record t := {
  id : str;
  subject : str;
  sender_name : str;
  sender_email : str;
  html_content : str;
  scenario_type : str;
  target_industry : str;
  urgency_level : str;
  tone_style : str;
  language : str;
  created_at : Z;
  phishing_tactic : option str;
  advanced_mode : bool;
  generation_time : Z;
  word_count : nat
}.
End EmailTemplate.

Module GenerationResponse.
Record t := {
  success : bool;
  template : option EmailTemplate.t;
  error : option str;
  generation_time : Z
}.
End GenerationResponse.

Module GenerationHistoryEntry.
Record t := {
  timestamp : Z;
  request : PhishingRequest.t;       (* [request.dict()] *)
  template_id : option str;
  success : bool;
  error : option str;
  generation_time : Z
}.
End GenerationHistoryEntry.

(** ** prompts.py *)

Definition industry_senders : gmap str (str * str) :=
  list_to_map [
    (py "Banking", (py "Security Department", py "security@fake-firstnational-alerts.com"));
    (py "Healthcare", (py "Patient Services", py "admin@fake-healthpartners.org"));
    (py "Online Retail", (py "Customer Service", py "orders@fake-ecommerce-orders.com"));
    (py "Technology", (py "Account Security", py "noreply@fake-techsupport.com"));
    (py "Government", (py "Official Notice", py "notifications@fake-government-alerts.gov"));
    (py "Education", (py "IT Services", py "support@fake-university-systems.edu"));
    (py "Insurance", (py "Claims Department", py "claims@fake-insurance-services.com"));
    (py "Retail", (py "Customer Support", py "service@fake-retailsupport.net"));
    (py "Cloud Service", (py "Security Team", py "alerts@fake-cloudsecurity.org"));
    (py "Social Media", (py "Account Safety", py "security@fake-socialmedia.com"));
    (py "Shipping Company", (py "Delivery Notice", py "tracking@fake-shipping.com"))
  ].

Definition get_fallback_sender_info (industry : str) : str * str :=
  default (py "Support Team", py "support@fake-secureservices.net")
          (industry_senders !! industry).

(** ** utils.py: HTMLExtractor *)

Definition fence : str := py "```".

Definition patterns : list pattern := [
  [Lit (fence ++ py "html" ++ nl); Open; LazyStar Dot; Close; Lit (nl ++ fence)];
  [Lit (fence ++ py "html"); Open; LazyStar Dot; Close; Lit fence];
  [Lit (fence ++ nl); Open; Lit (py "<!DOCTYPE"); LazyStar Dot;
   Lit (py "</html>"); Close; Lit (nl ++ fence)];
  [Lit fence; Open; Lit (py "<!DOCTYPE"); LazyStar Dot; Lit (py "</html>");
   Close; Lit fence]
].

(** [for pattern in patterns: match = re.search(pattern, text, re.DOTALL);
    if match: return match.group(1).strip()] *)
Fixpoint first_pattern (ps : list pattern) (text : str) : option str :=
  match ps with
  | [] => None
  | p :: ps' =>
    match re_search false p text with
    | Some m => Some (strip (group 1 m))
    | None => first_pattern ps' text
    end
  end.

Definition start_markers : list str := [py "<!DOCTYPE"; py "<html"; py "<HTML"].
Definition end_markers : list str := [py "</html>"; py "</HTML>"].

(** One round of the loop over [start_markers]. *)
Definition start_step (text : str) (start_pos : Z) (marker : str) : Z :=
  let pos := find marker text in
  if negb (pos =? -1) && ((start_pos =? -1) || (pos <? start_pos))
  then pos else start_pos.

(** The loop over [end_markers], which stops at the first marker found. *)
Fixpoint end_loop (text : str) (markers : list str) : Z :=
  match markers with
  | [] => -1
  | marker :: markers' =>
    let pos := rfind marker text in
    if negb (pos =? -1) then pos + len marker else end_loop text markers'
  end.

Definition extract_html_from_response `{PyLower} (text : str) : option str :=
  match first_pattern patterns text with
  | Some html => Some html
  | None =>
    if contains (py "<!DOCTYPE") text || contains (py "<html") (lower text) then
      let start_pos := fold_left (start_step text) start_markers (-1) in
      if negb (start_pos =? -1) then
        let end_pos := end_loop text end_markers in
        if negb (end_pos =? -1)
        then Some (strip (slice text start_pos end_pos))
        else None
      else None
    else None
  end.

(** ** utils.py: EmailComponentExtractor *)

Definition quotes : str := py "'" ++ dq.

Definition tag_pattern : pattern :=
  [Lit (py "<")] ++ Plus (NoneOf (py ">")) ++ [Lit (py ">")].

Definition subject_patterns : list pattern := [
  [Lit (py "<title"); Star (NoneOf (py ">")); Lit (py ">"); Open; LazyStar Dot;
   Close; Lit (py "</title>")];
  [Lit (py "<!--"); Star Space; Lit (py "Subject:"); Star Space; Open]
    ++ Plus (NoneOf (py "-")) ++ [Close; Star Space; Lit (py "-->")];
  [Lit (py "<meta")] ++ Plus Space
    ++ [Lit (py "name="); One (AnyOf quotes); Lit (py "subject");
        One (AnyOf quotes); Star (NoneOf (py ">")); Lit (py "content=");
        One (AnyOf quotes); Open]
    ++ Plus (NoneOf quotes) ++ [Close; One (AnyOf quotes)]
].

Definition sender_patterns : list pattern := [
  [Lit (py "<!--"); Star Space; Lit (py "From:"); Star Space; Open]
    ++ Plus (NoneOf (py "<"))
    ++ [Close; Star Space; Lit (py "<"); Open] ++ Plus (NoneOf (py ">"))
    ++ [Close; Lit (py ">"); Star Space; Lit (py "-->")];
  [Lit (py "<!--"); Star Space; Lit (py "Sender:"); Star Space; Open]
    ++ Plus (NoneOf (py "<"))
    ++ [Close; Star Space; Lit (py "<"); Open] ++ Plus (NoneOf (py ">"))
    ++ [Close; Lit (py ">"); Star Space; Lit (py "-->")];
  [Lit (py "<!--"); Star Space; Lit (py "From:"); Star Space; Open]
    ++ Plus (NoneOf (py "<"))
    ++ [Close; Lit (py "<"); Open] ++ Plus (NoneOf (py ">"))
    ++ [Close; Lit (py ">"); Star Space; Lit (py "-->")];
  [Lit (py "From:"); Star Space; Open] ++ Plus (NoneOf (py "<"))
    ++ [Close; Star Space; Lit (py "<"); Open] ++ Plus (NoneOf (py ">"))
    ++ [Close; Lit (py ">")]
].

(** The first pattern of [ps] found in [text], with its groups. *)
Fixpoint first_search (ic : bool) (ps : list pattern) (text : str)
    : option (list str) :=
  match ps with
  | [] => None
  | p :: ps' =>
    match re_search ic p text with
    | Some m => Some m
    | None => first_search ic ps' text
    end
  end.

Definition industry_mappings : list (list str * str * str) := [
  ([py "bank"; py "account"; py "financial"; py "credit"],
   py "Security Department", py "security@fake-firstnational-bank.com");
  ([py "health"; py "medical"; py "patient"; py "clinic"],
   py "Patient Services", py "admin@fake-healthsystems.org");
  ([py "order"; py "shipping"; py "delivery"; py "purchase"],
   py "Customer Service", py "orders@fake-retailservices.com");
  ([py "microsoft"; py "google"; py "tech"; py "software"; py "cloud"],
   py "Account Security", py "noreply@fake-techsupport.com");
  ([py "government"; py "irs"; py "tax"; py "official"],
   py "Official Notice", py "notifications@fake-government-alerts.gov");
  ([py "education"; py "university"; py "student"; py "academic"],
   py "IT Services", py "support@fake-university-systems.edu");
  ([py "insurance"; py "policy"; py "claim"; py "premium"],
   py "Claims Department", py "claims@fake-insurance-services.com")
].

(** The [for ... else] loop over [industry_mappings]: the pair of the first
    group with a keyword in the text, or the generic pair. *)
Fixpoint pick_sender (mappings : list (list str * str * str))
    (content_lower : str) : str * str :=
  match mappings with
  | [] => (py "Support Team", py "support@fake-secureservices.net")
  | (keywords, name, email) :: mappings' =>
    if existsb (fun word => contains word content_lower) keywords
    then (name, email)
    else pick_sender mappings' content_lower
  end.

Definition _generate_realistic_sender `{PyLower} (html_content : str)
    (components : gmap string str) : gmap string str :=
  let content_lower := lower html_content in
  let '(name, email) := pick_sender industry_mappings content_lower in
  <["sender_email" := email]> (<["sender_name" := name]> components).

Definition extract_email_components `{PyLower} (html_content : str)
    : gmap string str :=
  let components : gmap string str :=
    {[ "subject" := py "Generated Phishing Email";
       "sender_name" := py "Security Team";
       "sender_email" := py "security@example.com" ]} in
  let components :=
    match first_search true subject_patterns html_content with
    | Some m =>
      let subject := strip (group 1 m) in
      let subject := re_sub tag_pattern [] subject in
      <["subject" := take 100 subject]> components
    | None => components
    end in
  let components :=
    match first_search false sender_patterns html_content with
    | Some m =>
      <["sender_email" := strip (group 2 m)]>
        (<["sender_name" := strip (group 1 m)]> components)
    | None => components
    end in
  if bool_decide (components !! "sender_email" = Some (py "security@example.com"))
  then _generate_realistic_sender html_content components
  else components.

(** ** utils.py: ContentAnalyzer *)

Definition calculate_word_count (html_content : str) : nat :=
  let text := re_sub tag_pattern (py " ") html_content in
  let text := strip (re_sub (Plus Space) (py " ") text) in
  count_words false text.

(** ** utils.py: RateLimiter *)

Record RateLimiter := {
  max_requests : Z;
  time_window : Z;
  requests : gmap str (list Z)
}.

(** [RateLimiter(max_requests, time_window)] *)
Definition RateLimiter_init (max_requests time_window : Z) : RateLimiter :=
  {| max_requests := max_requests; time_window := time_window; requests := ∅ |}.

(** [is_allowed], with the reading [now] of [time.time()]. *)
Definition is_allowed (now : Z) (client_id : str) (self : RateLimiter)
    : bool * RateLimiter :=
  let window_start := now - time_window self in
  let kept :=
    match requests self !! client_id with
    | Some times => List.filter (fun req_time => req_time >? window_start) times
    | None => []
    end in
  if len kept >=? max_requests self then
    (false, {| max_requests := max_requests self;
               time_window := time_window self;
               requests := <[client_id := kept]> (requests self) |})
  else
    (true, {| max_requests := max_requests self;
              time_window := time_window self;
              requests := <[client_id := kept ++ [now]]> (requests self) |}).

(** ** utils.py: TemplateGenerator *)

Definition create_fallback_template `{PyLower} (request_data : gmap string str)
    : str :=
  let '(sender_name, sender_email) :=
    get_fallback_sender_info
      (default (py "Technology") (request_data !! "target_industry")) in
  let scenario_type :=
    default (py "Security Alert") (request_data !! "scenario_type") in
  let target_industry :=
    default (py "Technology") (request_data !! "target_industry") in
  py "<!DOCTYPE html>
<html lang=" ++ dq ++ py "en" ++ dq ++ py ">
<head>
    <meta charset=" ++ dq ++ py "UTF-8" ++ dq ++ py ">
    <meta name=" ++ dq ++ py "viewport" ++ dq ++ py " content=" ++ dq ++ py "width=device-width, initial-scale=1.0" ++ dq ++ py ">
    <title>Urgent: " ++ scenario_type ++ py " Required</title>
    <style>
        body { 
            font-family: 'Segoe UI', Tahoma, Geneva, Verdana, sans-serif; 
            margin: 0; 
            padding: 20px; 
            background-color: #f5f5f5; 
            line-height: 1.6;
        }
        .container { 
            max-width: 600px; 
            margin: 0 auto; 
            background: white; 
            padding: 0; 
            border-radius: 8px; 
            box-shadow: 0 2px 10px rgba(0,0,0,0.1);
        }
        .header { 
            background: linear-gradient(135deg, #1f4e79 0%, #2c5aa0 100%); 
            color: white; 
            padding: 20px; 
            text-align: center; 
            border-radius: 8px 8px 0 0;
        }
        .content {
            padding: 30px;
        }
        .alert-box {
            background-color: #fff3cd;
            border-left: 4px solid #ffc107;
            padding: 15px;
            margin: 20px 0;
            border-radius: 4px;
        }
        .button { 
            display: inline-block;
            background: linear-gradient(135deg, #dc3545 0%, #c82333 100%); 
            color: white; 
            padding: 14px 28px; 
            text-decoration: none; 
            border-radius: 6px; 
            font-weight: bold;
            margin: 20px 0;
            box-shadow: 0 2px 4px rgba(0,0,0,0.2);
            transition: all 0.3s ease;
        }
        .button:hover {
            background: linear-gradient(135deg, #c82333 0%, #a71e2a 100%);
            transform: translateY(-2px);
        }
        .footer { 
            background-color: #f8f9fa;
            padding: 20px; 
            text-align: center; 
            font-size: 12px; 
            color: #6c757d;
            border-radius: 0 0 8px 8px;
            border-top: 1px solid #dee2e6;
        }
        .urgent {
            color: #dc3545;
            font-weight: bold;
        }
        .company-logo {
            font-size: 24px;
            font-weight: bold;
            margin-bottom: 5px;
        }
    </style>
</head>
<body>
    <!-- From: " ++ sender_name ++ py " <" ++ sender_email ++ py "> -->
    <!-- For training only – not a real phishing email -->
    
    <div class=" ++ dq ++ py "container" ++ dq ++ py ">
        <div class=" ++ dq ++ py "header" ++ dq ++ py ">
            <div class=" ++ dq ++ py "company-logo" ++ dq ++ py ">" ++ target_industry ++ py "</div>
            <p>Security & Compliance Department</p>
        </div>
        
        <div class=" ++ dq ++ py "content" ++ dq ++ py ">
            <h2 class=" ++ dq ++ py "urgent" ++ dq ++ py ">⚠️ Urgent: " ++ scenario_type ++ py " Required</h2>
            
            <p>Dear Valued Customer,</p>
            
            <p>We have detected unusual activity on your account that requires immediate verification. 
            To protect your account security and maintain compliance with our security policies, 
            please take action within the next <strong>24 hours</strong>.</p>
            
            <div class=" ++ dq ++ py "alert-box" ++ dq ++ py ">
                <strong>🔒 Security Notice:</strong> Your account access has been temporarily restricted 
                due to suspicious activity detected from an unrecognized device.
            </div>
            
            <p><strong>Action Required:</strong> Click the button below to verify your account information 
            and restore full access to your services.</p>
            
            <div style=" ++ dq ++ py "text-align: center;" ++ dq ++ py ">
                <a href=" ++ dq ++ py "http://fake-" ++ remove_spaces (lower target_industry) ++ py "-verification.com/verify" ++ dq ++ py " class=" ++ dq ++ py "button" ++ dq ++ py ">
                    🔐 Verify Account Now
                </a>
            </div>
            
            <p><strong class=" ++ dq ++ py "urgent" ++ dq ++ py ">Important:</strong> If you do not complete this verification 
            within 24 hours, your account may be permanently suspended for security reasons.</p>
            
            <p>This verification process is mandatory and must be completed to ensure the safety 
            of your personal information and account assets.</p>
            
            <p>Thank you for your immediate attention to this critical security matter.</p>
            
            <p>Best regards,<br>
            <strong>" ++ sender_name ++ py "</strong><br>
            " ++ target_industry ++ py " Security Team</p>
        </div>
        
        <div class=" ++ dq ++ py "footer" ++ dq ++ py ">
            <p>This is an automated security message. Please do not reply to this email.</p>
            <p>" ++ target_industry ++ py " | Security Department | Compliance Division</p>
            <p>© 2024 " ++ target_industry ++ py ". All rights reserved.</p>
            <hr style=" ++ dq ++ py "border: none; border-top: 1px solid #dee2e6; margin: 15px 0;" ++ dq ++ py ">
            <p><em><strong>Training Notice:</strong> This is a simulated phishing email for cybersecurity training purposes only.</em></p>
        </div>
    </div>
</body>
</html>".

(** ** utils.py: ValidationHelper *)

(** The entries of the issue list:
    - ["Missing training disclaimer"],
    - ["Contains potentially real URLs: [...]"] with the list of the URLs,
    - ["Contains reference to real company: c"]. *)
Inductive issue :=
| Missing_training_disclaimer
| Contains_potentially_real_URLs (real_domains : list str)
| Contains_reference_to_real_company (company : str).

Definition url_pattern : pattern :=
  [Lit (py "href="); One (AnyOf (dq ++ py "'")); Open]
    ++ Plus (NoneOf (dq ++ py "'")) ++ [Close; One (AnyOf (dq ++ py "'"))].

Definition fake_markers : list str :=
  [py "fake-"; py "phishing-"; py "test-"; py "training-"].

Definition real_companies : list str :=
  [py "microsoft.com"; py "google.com"; py "amazon.com"; py "apple.com";
   py "facebook.com"].

Definition validate_html_safety `{PyLower} (html_content : str)
    : bool * list issue :=
  let issues : list issue := [] in
  let issues :=
    if negb (contains (py "For training only") html_content)
    then issues ++ [Missing_training_disclaimer] else issues in
  let urls := map (group 1) (re_findall true url_pattern html_content) in
  let real_domains :=
    List.filter
      (fun url => negb (existsb (fun fake => contains fake (lower url)) fake_markers))
      urls in
  let issues :=
    match real_domains with
    | [] => issues
    | _ :: _ => issues ++ [Contains_potentially_real_URLs real_domains]
    end in
  let issues :=
    fold_left
      (fun issues company =>
         if contains company (lower html_content)
         then issues ++ [Contains_reference_to_real_company company]
         else issues)
      real_companies issues in
  (bool_decide (length issues = 0%nat), issues).

(** ** services.py *)

(** The outcome of a call that may raise: the exception's message
    ([str(e)]) or the value returned. *)
Inductive result (A : Type) :=
| Raise (msg : str)
| Return (a : A).
Arguments Raise {A} msg.
Arguments Return {A} a.

(** The text-generation client.  [client] is [None] when initialisation
    failed.  The prompt sent is a function of the request alone
    ([_create_prompt]), so the client is modelled on the request: it
    answers with the response text, or raises once all its candidate models
    have failed. *)
Record AnthropicService := {
  client : option (PhishingRequest.t -> result str)
}.

Definition is_available (self : AnthropicService) : bool :=
  match client self with
  | Some _ => true
  | None => false
  end.

Record TemplateService := {
  templates : gmap str EmailTemplate.t;
  generation_history : list GenerationHistoryEntry.t
}.

(** [TemplateService()] *)
Definition TemplateService_init : TemplateService :=
  {| templates := ∅; generation_history := [] |}.

(** The templates of the store (a [dict] lists them in insertion order,
    which the map does not keep; nothing below depends on the order). *)
Definition get_all_templates (self : TemplateService) : list EmailTemplate.t :=
  (map_to_list (templates self)).*2.

Definition get_template (template_id : str) (self : TemplateService)
    : option EmailTemplate.t :=
  templates self !! template_id.

Definition delete_template (template_id : str) (self : TemplateService)
    : bool * TemplateService :=
  match templates self !! template_id with
  | Some _ =>
    (true, {| templates := delete template_id (templates self);
              generation_history := generation_history self |})
  | None => (false, self)
  end.

(** The mutable state a generation attempt acts on: the template service,
    and a log of the requests for which the client was consulted. *)
Record World := {
  template_service : TemplateService;
  model_calls : list PhishingRequest.t
}.

(** What one attempt reads from outside: the client, the identifier drawn
    by [uuid.uuid4()], and the clock readings in the order they are taken. *)
Record Env := {
  anthropic_service : AnthropicService;
  uuid4 : str;
  start_clock : Z;      (* [time.time()] on entry *)
  end_clock : Z;        (* [time.time()] when the duration is computed *)
  created_now : Z;      (* [datetime.now()] for [created_at] *)
  history_now : Z       (* [datetime.now()] for the history entry *)
}.

(** State and exceptions: a computation runs on a world and ends with a
    value or an exception, and with the world as it left it. *)
Definition M (A : Type) : Type := World -> result A * World.

Definition ret {A : Type} (a : A) : M A := fun w => (Return a, w).

Definition raise {A : Type} (msg : str) : M A := fun w => (Raise msg, w).

Definition bind {A B : Type} (m : M A) (f : A -> M B) : M B :=
  fun w =>
    match m w with
    | (Return a, w') => f a w'
    | (Raise e, w') => (Raise e, w')
    end.

(** [try: body except Exception as e: handler(str(e))] *)
Definition try_except {A : Type} (body : M A) (handler : str -> M A) : M A :=
  fun w =>
    match body w with
    | (Return a, w') => (Return a, w')
    | (Raise e, w') => handler e w'
    end.

Notation "x <- m ;; k" := (bind m (fun x => k))
  (at level 100, m at next level, right associativity).

(** [d[key]], which raises [KeyError(key)] for a missing key. *)
Definition getitem (d : gmap string str) (key : string) : M str :=
  match d !! key with
  | Some v => ret v
  | None => raise (py "'" ++ py key ++ py "'")
  end.

(** [E(v)], which raises [ValueError] when no member has the value. *)
Definition parse `{PyEnum A} (v : str) : M A :=
  match of_value v with
  | Some m => ret m
  | None => raise (py "'" ++ v ++ py "' is not a valid " ++ enum_name)
  end.

(** The truth value of a string, and of a member of a [str] enumeration. *)
Definition truthy (s : str) : bool :=
  match s with
  | [] => false
  | _ :: _ => true
  end.

Definition generate_content (self : AnthropicService)
    (request : PhishingRequest.t) : M str :=
  match client self with
  | None => raise (py "Anthropic client not available")
  | Some complete =>
    fun w => (complete request,
              {| template_service := template_service w;
                 model_calls := model_calls w ++ [request] |})
  end.

Definition _validate_request (request : PhishingRequest.t) : M unit :=
  if negb (truthy (value (PhishingRequest.scenario_type request)))
     || negb (truthy (value (PhishingRequest.target_industry request)))
  then raise (py "Scenario type and target industry are required")
  else ret tt.

(** [self.template_service.templates[template_id] = template] *)
Definition store_template (template_id : str) (template : EmailTemplate.t)
    : M unit :=
  fun w =>
    (Return tt,
     {| template_service :=
          {| templates := <[template_id := template]> (templates (template_service w));
             generation_history := generation_history (template_service w) |};
        model_calls := model_calls w |}).

Definition max_history : Z := 1000.

Definition _record_generation_history (env : Env) (request : PhishingRequest.t)
    (template_id : option str) (success : bool) (error : option str)
    (generation_time : Z) : M unit :=
  fun w =>
    let history_entry :=
      {| GenerationHistoryEntry.timestamp := history_now env;
         GenerationHistoryEntry.request := request;
         GenerationHistoryEntry.template_id := template_id;
         GenerationHistoryEntry.success := success;
         GenerationHistoryEntry.error := error;
         GenerationHistoryEntry.generation_time := generation_time |} in
    let history := generation_history (template_service w) ++ [history_entry] in
    let history :=
      if len history >? max_history
      then drop (length history - Z.to_nat max_history)%nat history
      else history in
    (Return tt,
     {| template_service :=
          {| templates := templates (template_service w);
             generation_history := history |};
        model_calls := model_calls w |}).

(** The [EmailTemplate(...)] constructor call, which is the same in
    [generate_template] and in [_handle_fallback_generation]. *)
Definition make_template (env : Env) (request : PhishingRequest.t)
    (template_id : str) (components : gmap string str) (html_content : str)
    (generation_time : Z) (word_count : nat) : M EmailTemplate.t :=
  subject <- getitem components "subject" ;;
  sender_name <- getitem components "sender_name" ;;
  sender_email <- getitem components "sender_email" ;;
  ret {| EmailTemplate.id := template_id;
         EmailTemplate.subject := subject;
         EmailTemplate.sender_name := sender_name;
         EmailTemplate.sender_email := sender_email;
         EmailTemplate.html_content := html_content;
         EmailTemplate.scenario_type := value (PhishingRequest.scenario_type request);
         EmailTemplate.target_industry := value (PhishingRequest.target_industry request);
         EmailTemplate.urgency_level := value (PhishingRequest.urgency_level request);
         EmailTemplate.tone_style := value (PhishingRequest.tone_style request);
         EmailTemplate.language := value (PhishingRequest.language request);
         EmailTemplate.created_at := created_now env;
         EmailTemplate.phishing_tactic :=
           match PhishingRequest.phishing_tactic request with
           | Some tactic => if truthy (value tactic) then Some (value tactic) else None
           | None => None
           end;
         EmailTemplate.advanced_mode := PhishingRequest.advanced_mode request;
         EmailTemplate.generation_time := generation_time;
         EmailTemplate.word_count := word_count |}.

Definition success_response (template : EmailTemplate.t) (generation_time : Z)
    : GenerationResponse.t :=
  {| GenerationResponse.success := true;
     GenerationResponse.template := Some template;
     GenerationResponse.error := None;
     GenerationResponse.generation_time := generation_time |}.

Definition failure_response (error_msg : str) (generation_time : Z)
    : GenerationResponse.t :=
  {| GenerationResponse.success := false;
     GenerationResponse.template := None;
     GenerationResponse.error := Some error_msg;
     GenerationResponse.generation_time := generation_time |}.

Definition _handle_fallback_generation `{PyLower} (env : Env)
    (request : PhishingRequest.t) (template_id : str) (start_time : Z)
    : M GenerationResponse.t :=
  try_except
    (let request_dict : gmap string str :=
       {[ "scenario_type" := value (PhishingRequest.scenario_type request);
          "target_industry" := value (PhishingRequest.target_industry request);
          "urgency_level" := value (PhishingRequest.urgency_level request);
          "tone_style" := value (PhishingRequest.tone_style request) ]} in
     let html_content := create_fallback_template request_dict in
     let components := extract_email_components html_content in
     let generation_time := end_clock env - start_time in
     let word_count := calculate_word_count html_content in
     template <- make_template env request template_id components html_content
                   generation_time word_count ;;
     _ <- store_template template_id template ;;
     _ <- _record_generation_history env request (Some template_id) true None
            generation_time ;;
     ret (success_response template generation_time))
    (fun e =>
       let generation_time := end_clock env - start_time in
       let error_msg := py "Fallback generation failed: " ++ e in
       _ <- _record_generation_history env request None false (Some error_msg)
              generation_time ;;
       ret (failure_response error_msg generation_time)).

Definition generate_template `{PyLower} (env : Env) (request : PhishingRequest.t)
    : M GenerationResponse.t :=
  let start_time := start_clock env in
  let template_id := uuid4 env in
  try_except
    (_ <- _validate_request request ;;
     if negb (is_available (anthropic_service env)) then
       _handle_fallback_generation env request template_id start_time
     else
       response_text <- generate_content (anthropic_service env) request ;;
       match extract_html_from_response response_text with
       | None | Some [] =>
         _handle_fallback_generation env request template_id start_time
       | Some html_content =>
         let '(is_safe, safety_issues) := validate_html_safety html_content in
         let components := extract_email_components html_content in
         let generation_time := end_clock env - start_time in
         let word_count := calculate_word_count html_content in
         template <- make_template env request template_id components
                       html_content generation_time word_count ;;
         _ <- store_template template_id template ;;
         _ <- _record_generation_history env request (Some template_id) true
                None generation_time ;;
         ret (success_response template generation_time)
       end)
    (fun e =>
       let generation_time := end_clock env - start_time in
       let error_msg := py "Failed to generate template: " ++ e in
       _ <- _record_generation_history env request None false (Some error_msg)
              generation_time ;;
       ret (failure_response error_msg generation_time)).

Definition regenerate_template `{PyLower} (env : Env) (template_id : str)
    : M GenerationResponse.t :=
  fun w =>
    match get_template template_id (template_service w) with
    | None =>
      let error_msg := py "Template " ++ template_id ++ py " not found" in
      (Return (failure_response error_msg 0), w)
    | Some original_template =>
      try_except
        (scenario_type <- parse (EmailTemplate.scenario_type original_template) ;;
         target_industry <- parse (EmailTemplate.target_industry original_template) ;;
         urgency_level <- parse (EmailTemplate.urgency_level original_template) ;;
         tone_style <- parse (EmailTemplate.tone_style original_template) ;;
         language <- parse (EmailTemplate.language original_template) ;;
         phishing_tactic <-
           match EmailTemplate.phishing_tactic original_template with
           | Some tactic =>
             if truthy tactic then (t <- parse tactic ;; ret (Some t)) else ret None
           | None => ret None
           end ;;
         generate_template env
           {| PhishingRequest.scenario_type := scenario_type;
              PhishingRequest.target_industry := target_industry;
              PhishingRequest.urgency_level := urgency_level;
              PhishingRequest.tone_style := tone_style;
              PhishingRequest.language := language;
              PhishingRequest.phishing_tactic := phishing_tactic;
              PhishingRequest.advanced_mode :=
                EmailTemplate.advanced_mode original_template |})
        (fun e =>
           ret (failure_response (py "Error regenerating template: " ++ e) 0))
        w
    end.

(** ** Drivers and notions used by the statements below *)

Definition history_of (w : World) : list GenerationHistoryEntry.t :=
  generation_history (template_service w).

Definition store_of (w : World) : gmap str EmailTemplate.t :=
  templates (template_service w).

(** The arguments of one call of [_record_generation_history]. *)
Record attempt := {
  at_env : Env;
  at_request : PhishingRequest.t;
  at_template_id : option str;
  at_success : bool;
  at_error : option str;
  at_generation_time : Z
}.

(** The entry that the call builds. *)
Definition entry_of (a : attempt) : GenerationHistoryEntry.t :=
  {| GenerationHistoryEntry.timestamp := history_now (at_env a);
     GenerationHistoryEntry.request := at_request a;
     GenerationHistoryEntry.template_id := at_template_id a;
     GenerationHistoryEntry.success := at_success a;
     GenerationHistoryEntry.error := at_error a;
     GenerationHistoryEntry.generation_time := at_generation_time a |}.

(** A sequence of recordings, one after the other. *)
Fixpoint record_many (attempts : list attempt) (w : World) : World :=
  match attempts with
  | [] => w
  | a :: rest =>
    record_many rest
      (snd (_record_generation_history (at_env a) (at_request a)
              (at_template_id a) (at_success a) (at_error a)
              (at_generation_time a) w))
  end.

(** A sequence of admission checks of one client, at the given clock
    readings: the answers, and the limiter afterwards. *)
Fixpoint check_all (times : list Z) (client_id : str) (rl : RateLimiter)
    : list bool * RateLimiter :=
  match times with
  | [] => ([], rl)
  | now :: rest =>
    let '(ok, rl1) := is_allowed now client_id rl in
    let '(oks, rl2) := check_all rest client_id rl1 in
    (ok :: oks, rl2)
  end.

(** The timestamps recorded for a client ([[]] for a client never seen). *)
Definition recorded (client_id : str) (rl : RateLimiter) : list Z :=
  default [] (requests rl !! client_id).

(** What an attempt on [w] returns and leaves behind, for each of its two
    outcomes: a template stored under the fresh identifier and a success
    entry, or an untouched store and a failure entry.  In both the history
    is the old one with the entry appended, cut to its last 1000. *)
Inductive outcome (env : Env) (request : PhishingRequest.t) (w : World)
  : GenerationResponse.t -> World -> Prop :=
| outcome_success t gt calls :
    EmailTemplate.id t = uuid4 env ->
    EmailTemplate.scenario_type t = value (PhishingRequest.scenario_type request) ->
    EmailTemplate.target_industry t = value (PhishingRequest.target_industry request) ->
    EmailTemplate.urgency_level t = value (PhishingRequest.urgency_level request) ->
    EmailTemplate.tone_style t = value (PhishingRequest.tone_style request) ->
    EmailTemplate.language t = value (PhishingRequest.language request) ->
    EmailTemplate.phishing_tactic t = value <$> PhishingRequest.phishing_tactic request ->
    outcome env request w (success_response t gt)
      {| template_service :=
           {| templates := <[uuid4 env := t]> (store_of w);
              generation_history :=
                let h := history_of w ++
                  [{| GenerationHistoryEntry.timestamp := history_now env;
                      GenerationHistoryEntry.request := request;
                      GenerationHistoryEntry.template_id := Some (uuid4 env);
                      GenerationHistoryEntry.success := true;
                      GenerationHistoryEntry.error := None;
                      GenerationHistoryEntry.generation_time := gt |}] in
                drop (length h - 1000)%nat h |};
         model_calls := calls |}
| outcome_failure msg gt calls :
    msg ≠ [] ->
    outcome env request w (failure_response msg gt)
      {| template_service :=
           {| templates := store_of w;
              generation_history :=
                let h := history_of w ++
                  [{| GenerationHistoryEntry.timestamp := history_now env;
                      GenerationHistoryEntry.request := request;
                      GenerationHistoryEntry.template_id := None;
                      GenerationHistoryEntry.success := false;
                      GenerationHistoryEntry.error := Some msg;
                      GenerationHistoryEntry.generation_time := gt |}] in
                drop (length h - 1000)%nat h |};
         model_calls := calls |}.

(** [needle] occurs in [s] at index [i]. *)
Definition occurs_at (needle s : str) (i : nat) : Prop :=
  ∃ pre post, s = pre ++ needle ++ post ∧ length pre = i.

(** [i] is the lowest index at which one of [needles] occurs in [s]. *)
Definition earliest (needles : list str) (s : str) (i : nat) : Prop :=
  (∃ n, n ∈ needles ∧ occurs_at n s i) ∧
  ∀ n j, n ∈ needles → occurs_at n s j → (i ≤ j)%nat.

(** [i] is the highest index at which one of [needles] occurs in [s]. *)
Definition latest (needles : list str) (s : str) (i : nat) : Prop :=
  (∃ n, n ∈ needles ∧ occurs_at n s i) ∧
  ∀ n j, n ∈ needles → occurs_at n s j → (j ≤ i)%nat.

(** The form of the four fenced patterns: an opening fence, a captured
    text that begins with [sh_head] and ends with [sh_tail] (both empty for
    the first two patterns), and a closing fence. *)
Record shape := {
  sh_open : str;
  sh_head : str;
  sh_tail : str;
  sh_close : str
}.

Definition shape_of (p : pattern) : option shape :=
  match p with
  | [Lit a; Open; LazyStar Dot; Close; Lit d] =>
    Some {| sh_open := a; sh_head := []; sh_tail := []; sh_close := d |}
  | [Lit a; Open; Lit b; LazyStar Dot; Lit c; Close; Lit d] =>
    Some {| sh_open := a; sh_head := b; sh_tail := c; sh_close := d |}
  | _ => None
  end.

(** [text] holds a block of shape [sh] whose opening fence is at index [i]
    and whose captured text is [cap]. *)
Definition block (sh : shape) (text : str) (i : nat) (cap : str) : Prop :=
  ∃ pre x post,
    text = pre ++ sh_open sh ++ sh_head sh ++ x ++ sh_tail sh ++ sh_close sh ++ post
    ∧ length pre = i
    ∧ cap = sh_head sh ++ x ++ sh_tail sh.

(** The pattern of a shape, written out. *)
Definition shape_pattern (sh : shape) : pattern :=
  [Lit (sh_open sh); Open; Lit (sh_head sh); LazyStar Dot; Lit (sh_tail sh);
   Close; Lit (sh_close sh)].

(** The characters of the fallback template that are not ASCII: the
    copyright sign, the en dash, the warning sign with its variation
    selector and the two padlocks.  None of them has a case. *)
Definition uncased_symbols : str := [169; 8211; 9888; 65039; 128272; 128274]%N.

(** A text of ASCII characters and of these symbols. *)
Definition plainb (s : str) : bool :=
  forallb (λ c, (c <? 128)%N || inb c uncased_symbols) s.

(** What is assumed of [str.lower()] where a text is evaluated: on such a
    text it folds the ASCII letters and changes nothing else. *)
Definition folds_ascii (L : PyLower) : Prop :=
  ∀ s, plainb s = true → @lower L s = @lower ascii_lower s.

(** The URLs that [validate_html_safety] inspects. *)
Definition urls_of (html_content : str) : list str :=
  map (group 1) (re_findall true url_pattern html_content).

(** The round trip of the fallback document, as one decidable check, under
    ASCII folding: extraction returns the document, the components are the
    sender embedded in the [From] comment, validation finds no issue; and
    the texts that are lowered on the way are plain. *)
Definition round_trip_check (request_data : gmap string str) (industry : str)
    : bool :=
  let html := @create_fallback_template ascii_lower request_data in
  let sender := get_fallback_sender_info industry in
  let c := @extract_email_components ascii_lower html in
  bool_decide (@extract_html_from_response ascii_lower html = Some html)
  && contains (py "<!DOCTYPE") html
  && bool_decide (c !! "sender_name" = Some sender.1)
  && bool_decide (c !! "sender_email" = Some sender.2)
  && contains (py "<!-- From: " ++ sender.1 ++ py " <" ++ sender.2 ++ py "> -->") html
  && match @validate_html_safety ascii_lower html with
     | (true, []) => true
     | _ => false
     end
  && plainb html
  && forallb plainb (urls_of html)
  && plainb industry.

(** ** Sample data for the evaluations *)

Definition sample_request : PhishingRequest.t :=
  {| PhishingRequest.scenario_type := PASSWORD_RESET;
     PhishingRequest.target_industry := BANKING;
     PhishingRequest.urgency_level := HIGH;
     PhishingRequest.tone_style := URGENT;
     PhishingRequest.language := ENGLISH;
     PhishingRequest.phishing_tactic := Some CREDENTIAL_HARVESTING;
     PhishingRequest.advanced_mode := false |}.

(** An environment whose client is not available. *)
Definition sample_env : Env :=
  {| anthropic_service := {| client := None |};
     uuid4 := py "1b4e28ba-2fa1-41d2-883f-0016d3cca427";
     start_clock := 1000;
     end_clock := 1003;
     created_now := 1003;
     history_now := 1004 |}.

Definition empty_world : World :=
  {| template_service := TemplateService_init; model_calls := [] |}.

(** The [n]-th of a run of failed attempts, told apart by its duration. *)
Definition sample_attempt (n : nat) : attempt :=
  {| at_env := sample_env;
     at_request := sample_request;
     at_template_id := None;
     at_success := false;
     at_error := Some (py "Failed to generate template: timeout");
     at_generation_time := Z.of_nat n |}.

Definition sample_request_data : gmap string str :=
  {[ "scenario_type" := value PASSWORD_RESET;
     "target_industry" := value BANKING;
     "urgency_level" := value HIGH;
     "tone_style" := value URGENT ]}.

(** Two fenced blocks, one after the other. *)
Definition two_blocks : str :=
  fence ++ py "html" ++ nl ++ py "A" ++ nl ++ fence ++ nl
  ++ fence ++ py "html" ++ nl ++ py "B" ++ nl ++ fence.

(** A document closed in lower case and then again in upper case. *)
Definition mixed_closers : str := py "<html>a</html>b</HTML>".

(** A sender comment that carries the built-in default address. *)
Definition default_address_comment : str :=
  py "<!-- From: Jane Doe <security@example.com> -->".

(** ** Further notions for the service *)

(** The dictionary that [_handle_fallback_generation] hands to the
    synthesizer. *)
Definition request_dict (request : PhishingRequest.t) : gmap string str :=
  {[ "scenario_type" := value (PhishingRequest.scenario_type request);
     "target_industry" := value (PhishingRequest.target_industry request);
     "urgency_level" := value (PhishingRequest.urgency_level request);
     "tone_style" := value (PhishingRequest.tone_style request) ]}.

(** A template carries the parameters of a request: the five values, the
    tactic's value if there is one, and the advanced-mode flag. *)
Definition echoes (t : EmailTemplate.t) (r : PhishingRequest.t) : Prop :=
  EmailTemplate.scenario_type t = value (PhishingRequest.scenario_type r)
  ∧ EmailTemplate.target_industry t = value (PhishingRequest.target_industry r)
  ∧ EmailTemplate.urgency_level t = value (PhishingRequest.urgency_level r)
  ∧ EmailTemplate.tone_style t = value (PhishingRequest.tone_style r)
  ∧ EmailTemplate.language t = value (PhishingRequest.language r)
  ∧ EmailTemplate.phishing_tactic t = value <$> PhishingRequest.phishing_tactic r
  ∧ EmailTemplate.advanced_mode t = PhishingRequest.advanced_mode r.

(** The operations of the service that change its state, each with what it
    reads from outside. *)
Inductive operation :=
| Generate (env : Env) (request : PhishingRequest.t)
| Regenerate (env : Env) (template_id : str)
| Delete (template_id : str).

Definition run_operation `{PyLower} (o : operation) (w : World) : World :=
  match o with
  | Generate env request => snd (generate_template env request w)
  | Regenerate env template_id => snd (regenerate_template env template_id w)
  | Delete template_id =>
    {| template_service := snd (delete_template template_id (template_service w));
       model_calls := model_calls w |}
  end.

Definition run_operations `{PyLower} (os : list operation) (w : World) : World :=
  fold_left (fun w o => run_operation o w) os w.

(** The world once the client has been consulted for [request]. *)
Definition consulted (request : PhishingRequest.t) (w : World) : World :=
  {| template_service := template_service w;
     model_calls := model_calls w ++ [request] |}.

(** The history after one more entry, cut to its last 1000. *)
Definition appended (h : list GenerationHistoryEntry.t)
    (e : GenerationHistoryEntry.t) : list GenerationHistoryEntry.t :=
  drop (length (h ++ [e]) - 1000)%nat (h ++ [e]).

(** The world after a successful attempt on [w]: the template stored under
    the identifier drawn, and a success entry recorded. *)
Definition after_success (env : Env) (request : PhishingRequest.t)
    (t : EmailTemplate.t) (w : World) : World :=
  {| template_service :=
       {| templates := <[uuid4 env := t]> (store_of w);
          generation_history :=
            appended (history_of w)
              {| GenerationHistoryEntry.timestamp := history_now env;
                 GenerationHistoryEntry.request := request;
                 GenerationHistoryEntry.template_id := Some (uuid4 env);
                 GenerationHistoryEntry.success := true;
                 GenerationHistoryEntry.error := None;
                 GenerationHistoryEntry.generation_time :=
                   end_clock env - start_clock env |} |};
     model_calls := model_calls w |}.

(** The world after a failed attempt on [w]: only a failure entry
    recorded. *)
Definition after_failure (env : Env) (request : PhishingRequest.t)
    (error_msg : str) (w : World) : World :=
  {| template_service :=
       {| templates := store_of w;
          generation_history :=
            appended (history_of w)
              {| GenerationHistoryEntry.timestamp := history_now env;
                 GenerationHistoryEntry.request := request;
                 GenerationHistoryEntry.template_id := None;
                 GenerationHistoryEntry.success := false;
                 GenerationHistoryEntry.error := Some error_msg;
                 GenerationHistoryEntry.generation_time :=
                   end_clock env - start_clock env |} |};
     model_calls := model_calls w |}.

(** The template that an attempt builds from a document: the components
    extracted from it, the request's parameters, the identifier and the
    clock readings of the environment. *)
Definition built_from `{PyLower} (env : Env) (request : PhishingRequest.t)
    (html : str) (t : EmailTemplate.t) : Prop :=
  EmailTemplate.id t = uuid4 env
  ∧ EmailTemplate.html_content t = html
  ∧ extract_email_components html !! "subject" = Some (EmailTemplate.subject t)
  ∧ extract_email_components html !! "sender_name"
    = Some (EmailTemplate.sender_name t)
  ∧ extract_email_components html !! "sender_email"
    = Some (EmailTemplate.sender_email t)
  ∧ EmailTemplate.word_count t = calculate_word_count html
  ∧ EmailTemplate.created_at t = created_now env
  ∧ EmailTemplate.generation_time t = end_clock env - start_clock env
  ∧ echoes t request.

(** The states the service keeps: every stored template sits under its own
    identifier and carries the parameters of some request, and the history
    holds no more than its limit. *)
Definition well_formed (w : World) : Prop :=
  (∀ k t, store_of w !! k = Some t →
     EmailTemplate.id t = k ∧ ∃ r, echoes t r)
  ∧ (length (history_of w) ≤ 1000)%nat.

(** ** Further sample data *)

(** An environment whose client answers every request with [answer]. *)
Definition env_with (answer : result str) : Env :=
  {| anthropic_service := {| client := Some (fun _ => answer) |};
     uuid4 := py "6fa459ea-ee8a-3ca4-894e-db77e160355e";
     start_clock := 2000;
     end_clock := 2002;
     created_now := 2002;
     history_now := 2003 |}.

(** A document that links to a real company and has no disclaimer. *)
Definition unsafe_document : str :=
  py "<html><body><a href=" ++ dq ++ py "https://paypal.com/login" ++ dq
  ++ py ">Sign in</a></body></html>".



(** ** Further notions for the rate limiter *)

(** [check_rate_limit] of main.py: the client's address when the limiter
    admits it, the 429 error otherwise. *)
Definition check_rate_limit (now : Z) (client_ip : str) (rate_limiter : RateLimiter)
    : result str * RateLimiter :=
  let '(ok, rate_limiter) := is_allowed now client_ip rate_limiter in
  if negb ok
  then (Raise (py "Rate limit exceeded. Please try again later."), rate_limiter)
  else (Return client_ip, rate_limiter).

(** Checks of several clients, one after the other; each comes with the
    clock reading it meets. *)
Fixpoint serve (calls : list (Z * str)) (rl : RateLimiter)
    : list bool * RateLimiter :=
  match calls with
  | [] => ([], rl)
  | (now, client_id) :: rest =>
    let '(ok, rl1) := is_allowed now client_id rl in
    let '(oks, rl2) := serve rest rl1 in
    (ok :: oks, rl2)
  end.

(** The clock readings of one client's calls, and the answers it got. *)
Fixpoint times_for (client_id : str) (calls : list (Z * str)) : list Z :=
  match calls with
  | [] => []
  | (now, c) :: rest =>
    (if bool_decide (c = client_id) then [now] else [])
    ++ times_for client_id rest
  end.

Fixpoint answers_for (client_id : str) (calls : list (Z * str))
    (oks : list bool) : list bool :=
  match calls, oks with
  | (_, c) :: rest, ok :: oks' =>
    (if bool_decide (c = client_id) then [ok] else [])
    ++ answers_for client_id rest oks'
  | _, _ => []
  end.

(** The clock readings of the checks that were admitted. *)
Fixpoint accepted (times : list Z) (oks : list bool) : list Z :=
  match times, oks with
  | t :: times', ok :: oks' =>
    (if ok then [t] else []) ++ accepted times' oks'
  | _, _ => []
  end.

(** [t] lies in the window of length [tw] that ends at [x]. *)
Definition in_window (tw x t : Z) : bool := (x - tw <? t) && (t <=? x).

(** Clock readings that never go back. *)
Fixpoint nondecreasing (times : list Z) : Prop :=
  match times with
  | [] => True
  | t :: rest =>
    match rest with
    | [] => True
    | t' :: _ => t ≤ t'
    end ∧ nondecreasing rest
  end.

(** A template that carries the parameters of [sample_request], and a world
    that stores it. *)
Definition kept_template : EmailTemplate.t :=
  {| EmailTemplate.id := py "t2";
     EmailTemplate.subject := py "Password Reset Required";
     EmailTemplate.sender_name := py "Security Department";
     EmailTemplate.sender_email := py "security@fake-firstnational-alerts.com";
     EmailTemplate.html_content := py "<html></html>";
     EmailTemplate.scenario_type := py "Password Reset";
     EmailTemplate.target_industry := py "Banking";
     EmailTemplate.urgency_level := py "High";
     EmailTemplate.tone_style := py "Urgent";
     EmailTemplate.language := py "English";
     EmailTemplate.created_at := 0;
     EmailTemplate.phishing_tactic := Some (py "credential_harvesting");
     EmailTemplate.advanced_mode := false;
     EmailTemplate.generation_time := 0;
     EmailTemplate.word_count := 0%nat |}.

Definition kept_world : World :=
  {| template_service :=
       {| templates := {[ py "t2" := kept_template ]};
          generation_history := [] |};
     model_calls := [] |}.

Definition sample_operations : list operation :=
  [Generate sample_env sample_request;
   Regenerate (env_with (Return unsafe_document))
     (py "1b4e28ba-2fa1-41d2-883f-0016d3cca427");
   Delete (py "1b4e28ba-2fa1-41d2-883f-0016d3cca427")].

(** Checks of two clients, interleaved. *)
Definition sample_calls : list (Z * str) :=
  [(0, py "10.0.0.1"); (1, py "10.0.0.2"); (2, py "10.0.0.1");
   (3, py "10.0.0.1")].

(** ** utils.py: ValidationHelper (continued) *)

Definition alpha : str :=
  py "abcdefghijklmnopqrstuvwxyzABCDEFGHIJKLMNOPQRSTUVWXYZ".

Definition alnum : str := alpha ++ py "0123456789".

(** [[a-zA-Z0-9._%+-]] and [[a-zA-Z0-9.-]] *)
Definition local_chars : str := alnum ++ py "._%+-".
Definition domain_chars : str := alnum ++ py ".-".

(** [^[a-zA-Z0-9._%+-]+@[a-zA-Z0-9.-]+\.[a-zA-Z]{2,}], which [re.match]
    anchors at the start of the text. *)
Definition email_pattern : pattern :=
  Plus (AnyOf local_chars) ++ [Lit (py "@")] ++ Plus (AnyOf domain_chars)
  ++ [Lit (py "."); One (AnyOf alpha); One (AnyOf alpha); Star (AnyOf alpha)].

Definition validate_email_format (email : str) : bool :=
  match re_match false email_pattern email [] email with
  | Some _ => true
  | None => false
  end.

(** The five characters that the second substitution deletes: the angle
    brackets, the ampersand and the two quotes. *)
Definition special_chars : str := py "<>&" ++ dq ++ py "'".

(** [s[:n]], where a negative [n] counts from the end. *)
Definition prefix (s : str) (n : Z) : str :=
  if n <? 0 then take (length s - Z.to_nat (- n))%nat s
  else take (Z.to_nat n) s.

Definition sanitize_input (text : str) (max_length : Z) : str :=
  if negb (truthy text) then []
  else
    let text := re_sub tag_pattern [] text in
    let text := re_sub [One (AnyOf special_chars)] [] text in
    let text := prefix text max_length in
    strip text.

(** ** Made-up senders *)

(** What is asked of a made-up sender: its address holds the marker
    [fake-], is not the built-in default, and passes
    [validate_email_format]. *)
Definition made_up (sender : str * str) : bool :=
  contains (py "fake-") sender.2
  && negb (bool_decide (sender.2 = py "security@example.com"))
  && validate_email_format sender.2.

(** ** main.py: the client of a request *)

(** [s.split(",")[0]]: the text before the first comma. *)
Fixpoint before_comma (s : str) : str :=
  match s with
  | [] => []
  | c :: s' => if (c =? 44)%N then [] else c :: before_comma s'
  end.

(** [get_client_ip], on the [X-Forwarded-For] header of the request (if
    any) and the host of its peer (if any). *)
Definition get_client_ip (forwarded : option str) (client_host : option str)
    : str :=
  match forwarded with
  | Some (c :: f) => strip (before_comma (c :: f))
  | _ =>
    match client_host with
    | Some host => host
    | None => py "unknown"
    end
  end.

(** A client identifier longer than every identifier the limiter knows. *)
Definition unseen_client (rl : RateLimiter) : str :=
  replicate (S (map_fold (λ k _ n, Nat.max (length k) n) 0%nat (requests rl)))
    97%N.

(** ** services.py: the candidate models *)

Definition models_to_try : list str :=
  [py "claude-3-haiku-20240307"; py "claude-3-sonnet-20240229";
   py "claude-3-5-sonnet-20241022"].

(** The loop of [generate_content] over the candidate models.  [create]
    stands for [client.messages.create] followed by the reading of the
    text, which answers or raises for each model; [last_error] is the
    exception kept so far.  The result comes with the models that were
    asked, in order. *)
Fixpoint try_models (create : str -> result str) (models : list str)
    (last_error : option str) : result str * list str :=
  match models with
  | [] =>
    (Raise (py "All models failed. Last error: "
            ++ default (py "None") last_error), [])
  | model :: rest =>
    match create model with
    | Return response_text => (Return response_text, [model])
    | Raise e =>
      let '(r, asked) := try_models create rest (Some e) in
      (r, model :: asked)
    end
  end.

(** A client that runs the loop, for an interface that answers by model
    and request. *)
Definition looping_client (create : PhishingRequest.t -> str -> result str)
    : AnthropicService :=
  {| client := Some (fun request =>
                       fst (try_models (create request) models_to_try None)) |}.

(** ** utils.py: ContentAnalyzer (continued) *)

Definition urgency_words : list str :=
  [py "urgent"; py "immediate"; py "asap"; py "expires"; py "deadline";
   py "limited time"].

Definition authority_words : list str :=
  [py "security"; py "official"; py "verify"; py "confirm"; py "validate"].

Definition scarcity_words : list str :=
  [py "limited"; py "exclusive"; py "only"; py "last chance"; py "expires"].

(** [sum(1 for word in words if word in content)] *)
Definition count_present (words : list str) (content : str) : nat :=
  length (List.filter (fun word => contains word content) words).

Definition analyze_phishing_indicators `{PyLower} (html_content : str)
    : gmap string nat :=
  let content_lower := lower html_content in
  let links := map (group 1) (re_findall true url_pattern html_content) in
  {[ "urgency_words" := count_present urgency_words content_lower;
     "suspicious_links" :=
       length (List.filter
                 (fun link => contains (py "fake-") link
                              || contains (py "phishing-") link) links);
     "authority_claims" := count_present authority_words content_lower;
     "scarcity_language" := count_present scarcity_words content_lower ]}.

(** ** utils.py: PerformanceMonitor *)

(** [self.metrics]: for each operation a dictionary with the keys [start]
    and, once the timer was ended, [duration]. *)
Abbreviation Metrics := (gmap str (gmap string Z)).

(** [start_timer], with the reading [now] of [time.time()]. *)
Definition start_timer (now : Z) (operation : str) (metrics : Metrics)
    : Metrics :=
  <[operation := {[ "start" := now ]}]> metrics.

Definition end_timer (now : Z) (operation : str) (metrics : Metrics)
    : Z * Metrics :=
  match metrics !! operation with
  | Some data =>
    match data !! "start" with
    | Some start =>
      let duration := now - start in
      (duration, <[operation := <["duration" := duration]> data]> metrics)
    | None => (0, metrics)
    end
  | None => (0, metrics)
  end.

Definition get_metrics (metrics : Metrics) : gmap str Z :=
  (fun data : gmap string Z => default 0 (data !! "duration")) <$> metrics.

(** * Properties *)

(** The literals and the text-processing functions are kept folded while
    the orchestration is reasoned about. *)
Arguments py : simpl never.
Arguments value : simpl never.
Arguments create_fallback_template : simpl never.
Arguments extract_email_components : simpl never.
Arguments calculate_word_count : simpl never.
Arguments extract_html_from_response : simpl never.
Arguments validate_html_safety : simpl never.

(** ** The enumerations *)

Lemma truthy_value_scenario (s : ScenarioType) : truthy (value s) = true.
Proof. destruct s; reflexivity. Qed.

Lemma truthy_value_industry (i : TargetIndustry) : truthy (value i) = true.
Proof. destruct i; reflexivity. Qed.

Lemma truthy_value_tactic (t : PhishingTactic) : truthy (value t) = true.
Proof. destruct t; reflexivity. Qed.

(** ** The history cap *)

Lemma cap_drop {A : Type} (h : list A) :
  (if len h >? max_history
   then drop (length h - Z.to_nat max_history)%nat h else h)
  = drop (length h - 1000)%nat h.
Proof.
  unfold len, max_history.
  destruct (Z.gtb_spec (Z.of_nat (length h)) 1000) as [Hgt|Hle].
  - reflexivity.
  - replace (length h - 1000)%nat with 0%nat by lia. reflexivity.
Qed.

Lemma record_history env request template_id success error gt w :
  history_of (snd (_record_generation_history env request template_id success
                     error gt w))
  = let h := history_of w ++
       [{| GenerationHistoryEntry.timestamp := history_now env;
           GenerationHistoryEntry.request := request;
           GenerationHistoryEntry.template_id := template_id;
           GenerationHistoryEntry.success := success;
           GenerationHistoryEntry.error := error;
           GenerationHistoryEntry.generation_time := gt |}] in
    drop (length h - 1000)%nat h.
Proof.
  unfold _record_generation_history, history_of. cbv zeta.
  cbn [snd template_service generation_history]. apply cap_drop.
Qed.

Lemma record_many_history (attempts : list attempt) (w : World) :
  (length (history_of w) ≤ 1000)%nat →
  history_of (record_many attempts w)
  = drop (length (history_of w ++ map entry_of attempts) - 1000)%nat
         (history_of w ++ map entry_of attempts).
Proof.
  revert w. induction attempts as [|a rest IH]; intros w Hw.
  - cbn [record_many map]. rewrite app_nil_r.
    replace (length (history_of w) - 1000)%nat with 0%nat by lia. reflexivity.
  - cbn [record_many map].
    set (w1 := snd (_record_generation_history _ _ _ _ _ _ w)).
    assert (H1 : history_of w1
                 = drop (length (history_of w ++ [entry_of a]) - 1000)%nat
                        (history_of w ++ [entry_of a])).
    { unfold w1. rewrite record_history. reflexivity. }
    assert (Hlen : (length (history_of w1) ≤ 1000)%nat).
    { rewrite H1, length_drop, length_app. cbn [length]. lia. }
    rewrite (IH w1 Hlen), H1.
    set (k := (length (history_of w ++ [entry_of a]) - 1000)%nat).
    assert (Hk : (k ≤ length (history_of w ++ [entry_of a]))%nat) by (unfold k; lia).
    rewrite <- (drop_app_le _ (map entry_of rest) k Hk).
    rewrite drop_drop. rewrite <- app_assoc. cbn [app].
    f_equal.
    rewrite length_drop. unfold k.
    rewrite !length_app. cbn [length]. lia.
Qed.

(** C7.  Starting from a history within the cap, after any sequence of
    recordings the history is the last 1000 entries of the old history
    followed by the new entries, in the order they were recorded: it never
    exceeds 1000 entries, the oldest entries are the ones dropped and the
    survivors keep their order.  After 1001 recordings on an empty history
    the entries left are the second to the 1001st. *)
Theorem history_capped_fifo (attempts : list attempt) (w : World) :
  (length (history_of w) ≤ 1000)%nat →
  let h := history_of w ++ map entry_of attempts in
  let h' := history_of (record_many attempts w) in
  h' = drop (length h - 1000)%nat h
  ∧ (length h' ≤ 1000)%nat
  ∧ (history_of w = [] → length attempts = 1001%nat →
     h' = map entry_of (drop 1 attempts)).
Proof.
  intros Hw h h'.
  assert (E : h' = drop (length h - 1000)%nat h)
    by (apply record_many_history; exact Hw).
  split; [exact E|]. split.
  - rewrite E, length_drop. lia.
  - intros Hnil Hn. rewrite E. unfold h. rewrite Hnil. cbn [app].
    rewrite length_map, Hn. apply skipn_map.
Qed.

(** The statement at a run of 1001 recordings on the empty history. *)
Lemma history_capped_fifo_witness :
  let attempts := sample_attempt <$> seq 0 1001 in
  let h' := history_of (record_many attempts empty_world) in
  (length (history_of empty_world) ≤ 1000)%nat
  ∧ h' = entry_of <$> drop 1 attempts
  ∧ (length h' ≤ 1000)%nat.
Proof.
  intros attempts h'.
  assert (H0 : (length (history_of empty_world) ≤ 1000)%nat)
    by (vm_compute; lia).
  destruct (history_capped_fifo attempts empty_world H0) as (_ & Hlen & H1001).
  split; [exact H0|]. split; [apply H1001; reflexivity | exact Hlen].
Defined.

(** ** The components dictionary *)

Section orchestration.
Context `{L : PyLower}.

Lemma extract_email_components_dom (html : str) :
  dom (extract_email_components html)
  = ({["subject"; "sender_name"; "sender_email"]} : gset string).
Proof.
  unfold extract_email_components, _generate_realistic_sender.
  destruct (first_search true subject_patterns html);
    destruct (first_search false sender_patterns html);
    case_bool_decide; try destruct (pick_sender _ _) as [n e];
    rewrite ?dom_insert_L, ?dom_singleton_L; set_solver.
Qed.

Lemma extract_email_components_lookup (html : str) (key : string) :
  key ∈ ({["subject"; "sender_name"; "sender_email"]} : gset string) →
  is_Some (extract_email_components html !! key).
Proof.
  intros Hk. apply elem_of_dom. rewrite extract_email_components_dom. exact Hk.
Qed.

(** ** One generation attempt *)

(** The constructor call never meets a missing key on the dictionary of
    the extractor, and echoes the request. *)
Lemma make_template_extracted env request template_id html gt wc w :
  ∃ t,
    make_template env request template_id (extract_email_components html)
      html gt wc w = (Return t, w)
    ∧ EmailTemplate.id t = template_id
    ∧ EmailTemplate.html_content t = html
    ∧ EmailTemplate.scenario_type t = value (PhishingRequest.scenario_type request)
    ∧ EmailTemplate.target_industry t = value (PhishingRequest.target_industry request)
    ∧ EmailTemplate.urgency_level t = value (PhishingRequest.urgency_level request)
    ∧ EmailTemplate.tone_style t = value (PhishingRequest.tone_style request)
    ∧ EmailTemplate.language t = value (PhishingRequest.language request)
    ∧ EmailTemplate.phishing_tactic t
      = value <$> PhishingRequest.phishing_tactic request.
Proof.
  destruct (extract_email_components_lookup html "subject") as [s Hs];
    [set_solver|].
  destruct (extract_email_components_lookup html "sender_name") as [n Hn];
    [set_solver|].
  destruct (extract_email_components_lookup html "sender_email") as [e He];
    [set_solver|].
  unfold make_template, bind, getitem. rewrite Hs, Hn, He. unfold ret.
  eexists. split; [reflexivity|].
  repeat (split; [reflexivity|]).
  change (EmailTemplate.phishing_tactic _) with
    (match PhishingRequest.phishing_tactic request with
     | Some tactic => if truthy (value tactic) then Some (value tactic) else None
     | None => None
     end).
  destruct (PhishingRequest.phishing_tactic request) as [t|]; [|reflexivity].
  rewrite truthy_value_tactic. reflexivity.
Qed.

(** Building, storing and recording a template from an extracted document:
    the tail that both paths share. *)
Lemma built_template_outcome env request html w :
  ∃ resp w',
    (template <- make_template env request (uuid4 env)
                   (extract_email_components html) html
                   (end_clock env - start_clock env)
                   (calculate_word_count html) ;;
     _ <- store_template (uuid4 env) template ;;
     _ <- _record_generation_history env request (Some (uuid4 env)) true None
            (end_clock env - start_clock env) ;;
     ret (success_response template (end_clock env - start_clock env))) w
    = (Return resp, w')
    ∧ outcome env request w resp w'.
Proof.
  destruct (make_template_extracted env request (uuid4 env) html
              (end_clock env - start_clock env) (calculate_word_count html) w)
    as (t & Ht & Hid & _ & H1 & H2 & H3 & H4 & H5 & H6).
  unfold bind at 1. rewrite Ht.
  unfold bind, store_template, _record_generation_history, ret. cbn.
  rewrite cap_drop.
  eexists _, _. split; [reflexivity|].
  by apply outcome_success.
Qed.

Lemma _handle_fallback_generation_outcome env request w :
  ∃ resp w',
    _handle_fallback_generation env request (uuid4 env) (start_clock env) w
    = (Return resp, w')
    ∧ outcome env request w resp w'.
Proof.
  unfold _handle_fallback_generation, try_except.
  destruct (built_template_outcome env request
     (create_fallback_template
         {["scenario_type" := value (PhishingRequest.scenario_type request);
           "target_industry" := value (PhishingRequest.target_industry request);
           "urgency_level" := value (PhishingRequest.urgency_level request);
           "tone_style" := value (PhishingRequest.tone_style request)]}) w)
    as (resp & w' & Hrun & Hout).
  cbv zeta. rewrite Hrun. eauto.
Qed.

(** Every attempt returns, with one of the two outcomes. *)
Lemma generate_template_outcome env request w :
  ∃ resp w',
    generate_template env request w = (Return resp, w')
    ∧ outcome env request w resp w'.
Proof.
  unfold generate_template, try_except. cbv zeta.
  unfold bind at 1. unfold _validate_request.
  rewrite truthy_value_scenario, truthy_value_industry. cbn [negb orb ret].
  destruct (is_available (anthropic_service env)) eqn:Hav; cbn [negb].
  2:{ destruct (_handle_fallback_generation_outcome env request w)
        as (resp & w' & -> & Hout). eauto. }
  unfold bind at 1. unfold generate_content.
  unfold is_available in Hav.
  destruct (client (anthropic_service env)) as [complete|]; [|discriminate].
  destruct (complete request) as [e|response_text].
  - (* the client raised *)
    unfold bind, _record_generation_history, ret. cbn. rewrite cap_drop.
    eexists _, _. split; [reflexivity|].
    apply (outcome_failure env request w). discriminate.
  - set (w1 := {| template_service := template_service w;
                  model_calls := model_calls w ++ [request] |}).
    assert (Hw1 : ∀ resp w', outcome env request w1 resp w' →
                             outcome env request w resp w').
    { intros resp w' Ho. destruct Ho;
        [apply (outcome_success env request w)
        |apply (outcome_failure env request w)]; assumption. }
    destruct (extract_html_from_response response_text) as [[|c html]|].
    + destruct (_handle_fallback_generation_outcome env request w1)
        as (resp & w' & -> & Hout). eauto.
    + destruct (validate_html_safety (c :: html)) as [is_safe issues].
      destruct (built_template_outcome env request (c :: html) w1)
        as (resp & w' & Hrun & Hout).
      rewrite Hrun. eauto.
    + destruct (_handle_fallback_generation_outcome env request w1)
        as (resp & w' & -> & Hout). eauto.
Qed.

(** C1.  For every request (its fields are members of the enumerations by
    typing) and every environment and state, [generate_template] returns:
    either a success result carrying a template whose six echoed fields are
    the values of the request's fields, or a failure result carrying an
    error message that is not empty, with the store left as it was. *)
Theorem generate_template_success_or_failure
    (env : Env) (request : PhishingRequest.t) (w : World) :
  ∃ resp w',
    generate_template env request w = (Return resp, w') ∧
    ((GenerationResponse.success resp = true ∧
      ∃ t, GenerationResponse.template resp = Some t
        ∧ EmailTemplate.scenario_type t
          = value (PhishingRequest.scenario_type request)
        ∧ EmailTemplate.target_industry t
          = value (PhishingRequest.target_industry request)
        ∧ EmailTemplate.urgency_level t
          = value (PhishingRequest.urgency_level request)
        ∧ EmailTemplate.tone_style t
          = value (PhishingRequest.tone_style request)
        ∧ EmailTemplate.language t
          = value (PhishingRequest.language request)
        ∧ EmailTemplate.phishing_tactic t
          = value <$> PhishingRequest.phishing_tactic request)
     ∨
     (GenerationResponse.success resp = false ∧
      GenerationResponse.template resp = None ∧
      (∃ e, GenerationResponse.error resp = Some e ∧ e ≠ []) ∧
      store_of w' = store_of w)).
Proof.
  destruct (generate_template_outcome env request w) as (resp & w' & Hrun & Ho).
  exists resp, w'. split; [exact Hrun|].
  destruct Ho as [t gt calls Hid H1 H2 H3 H4 H5 H6 | msg gt calls Hmsg].
  - left. split; [reflexivity|]. exists t. repeat split; assumption.
  - right. repeat split. exists msg. split; [reflexivity | exact Hmsg].
Qed.

(** C6.  Every attempt appends exactly one entry to the history (which is
    then cut to its last 1000 entries): an entry with [success = true], no
    error and the new identifier when the attempt succeeds, through the
    model or through the fallback, and an entry with [success = false] and
    an error text that is not empty when it fails. *)
Theorem generate_template_records_one_entry
    (env : Env) (request : PhishingRequest.t) (w : World) :
  ∃ resp w' entry,
    generate_template env request w = (Return resp, w')
    ∧ history_of w'
      = drop (length (history_of w ++ [entry]) - 1000)%nat
             (history_of w ++ [entry])
    ∧ GenerationHistoryEntry.request entry = request
    ∧ GenerationHistoryEntry.success entry = GenerationResponse.success resp
    ∧ GenerationHistoryEntry.error entry = GenerationResponse.error resp
    ∧ (if GenerationResponse.success resp
       then GenerationHistoryEntry.error entry = None
            ∧ GenerationHistoryEntry.template_id entry = Some (uuid4 env)
       else GenerationHistoryEntry.template_id entry = None
            ∧ ∃ e, GenerationHistoryEntry.error entry = Some e ∧ e ≠ []).
Proof.
  destruct (generate_template_outcome env request w) as (resp & w' & Hrun & Ho).
  exists resp, w'.
  destruct Ho as [t gt calls Hid H1 H2 H3 H4 H5 H6 | msg gt calls Hmsg].
  - eexists. split; [exact Hrun|]. split; [reflexivity|].
    cbn [GenerationResponse.success GenerationResponse.error success_response
         GenerationHistoryEntry.request GenerationHistoryEntry.success
         GenerationHistoryEntry.error GenerationHistoryEntry.template_id].
    repeat split.
  - eexists. split; [exact Hrun|]. split; [reflexivity|].
    cbn [GenerationResponse.success GenerationResponse.error failure_response
         GenerationHistoryEntry.request GenerationHistoryEntry.success
         GenerationHistoryEntry.error GenerationHistoryEntry.template_id].
    repeat split. exists msg. split; [reflexivity | exact Hmsg].
Qed.

(** C9.  [regenerate_template] on an identifier that the store does not
    hold returns a failure result whose error text is
    ["Template <id> not found"], and leaves the world as it was: nothing is
    added to the store or to the history, and the client is not consulted. *)
Theorem regenerate_template_unknown_id
    (env : Env) (template_id : str) (w : World) :
  store_of w !! template_id = None →
  ∃ resp w',
    regenerate_template env template_id w = (Return resp, w')
    ∧ GenerationResponse.success resp = false
    ∧ GenerationResponse.template resp = None
    ∧ GenerationResponse.error resp
      = Some (py "Template " ++ template_id ++ py " not found")
    ∧ w' = w
    ∧ store_of w' = store_of w
    ∧ history_of w' = history_of w
    ∧ model_calls w' = model_calls w.
Proof.
  intros Hmiss. unfold regenerate_template, get_template.
  unfold store_of in Hmiss. rewrite Hmiss.
  eexists _, _. repeat split.
Qed.

End orchestration.

(** The statement at the empty store. *)
Lemma regenerate_template_unknown_id_witness :
  store_of empty_world !! py "no-such-id" = None
  ∧ ∃ resp w',
      @regenerate_template ascii_lower sample_env (py "no-such-id") empty_world
      = (Return resp, w')
      ∧ GenerationResponse.success resp = false
      ∧ GenerationResponse.template resp = None
      ∧ GenerationResponse.error resp
        = Some (py "Template " ++ py "no-such-id" ++ py " not found")
      ∧ w' = empty_world
      ∧ store_of w' = store_of empty_world
      ∧ history_of w' = history_of empty_world
      ∧ model_calls w' = model_calls empty_world.
Proof.
  split; [reflexivity|].
  apply (regenerate_template_unknown_id (L := ascii_lower)). reflexivity.
Defined.

(** An evaluation: with the client unavailable the attempt succeeds through
    the fallback, stores its template under the new identifier and records
    one success entry. *)
Example generate_template_fallback_run :
  let '(r, w) := @generate_template ascii_lower sample_env sample_request empty_world in
  (GenerationResponse.success <$> (match r with Return resp => Some resp | Raise _ => None end))
  = Some true
  ∧ (EmailTemplate.sender_name <$> store_of w !! uuid4 sample_env)
    = Some (py "Security Department")
  ∧ (GenerationHistoryEntry.success <$> history_of w) = [true]
  ∧ model_calls w = [].
Proof. vm_compute. repeat split. Qed.

(** ** The rate limiter *)

Lemma filter_all {A : Type} (p : A → bool) (l : list A) :
  Forall (λ x, p x = true) l → List.filter p l = l.
Proof.
  induction 1 as [|x l Hx _ IH]; [reflexivity|].
  cbn [List.filter]. rewrite Hx, IH. reflexivity.
Qed.

Lemma filter_none {A : Type} (p : A → bool) (l : list A) :
  Forall (λ x, p x = false) l → List.filter p l = [].
Proof.
  induction 1 as [|x l Hx _ IH]; [reflexivity|].
  cbn [List.filter]. rewrite Hx, IH. reflexivity.
Qed.

(** One check, in terms of the timestamps recorded for the client. *)
Lemma is_allowed_unfold (now : Z) (client_id : str) (rl : RateLimiter) :
  let kept :=
    List.filter (λ t, t >? now - time_window rl) (recorded client_id rl) in
  let ok := negb (len kept >=? max_requests rl) in
  is_allowed now client_id rl
  = (ok, {| max_requests := max_requests rl;
            time_window := time_window rl;
            requests := <[client_id := if ok then kept ++ [now] else kept]>
                          (requests rl) |}).
Proof.
  unfold is_allowed, recorded.
  destruct (requests rl !! client_id) as [times|]; cbn [default List.filter];
    destruct (_ >=? _); reflexivity.
Qed.

Lemma is_allowed_recorded (now : Z) (client_id : str) (rl : RateLimiter) :
  recorded client_id (snd (is_allowed now client_id rl))
  = List.filter (λ t, t >? now - time_window rl) (recorded client_id rl)
    ++ (if fst (is_allowed now client_id rl) then [now] else []).
Proof.
  rewrite is_allowed_unfold. cbn [fst snd]. unfold recorded at 1.
  cbn [requests]. rewrite lookup_insert_eq. cbn [default].
  destruct (negb _); [reflexivity | by rewrite app_nil_r].
Qed.

Lemma is_allowed_settings (now : Z) (client_id : str) (rl : RateLimiter) :
  max_requests (snd (is_allowed now client_id rl)) = max_requests rl
  ∧ time_window (snd (is_allowed now client_id rl)) = time_window rl.
Proof. rewrite is_allowed_unfold. split; reflexivity. Qed.

Lemma is_allowed_fst (now : Z) (client_id : str) (rl : RateLimiter) :
  fst (is_allowed now client_id rl)
  = negb (len (List.filter (λ t, t >? now - time_window rl)
                 (recorded client_id rl)) >=? max_requests rl).
Proof. rewrite is_allowed_unfold. reflexivity. Qed.

(** Checks that all fall in one window, on a client with room left, are
    all admitted and all recorded. *)
Lemma check_all_admitted (client_id : str) (t0 : Z) (ts : list Z) :
  ∀ rl,
    Forall (λ t, t0 ≤ t < t0 + time_window rl) (recorded client_id rl ++ ts) →
    len (recorded client_id rl) + len ts ≤ max_requests rl →
    fst (check_all ts client_id rl) = replicate (length ts) true
    ∧ recorded client_id (snd (check_all ts client_id rl))
      = recorded client_id rl ++ ts
    ∧ max_requests (snd (check_all ts client_id rl)) = max_requests rl
    ∧ time_window (snd (check_all ts client_id rl)) = time_window rl.
Proof.
  induction ts as [|now rest IH]; intros rl Hwin Hroom.
  - cbn [check_all fst snd replicate length]. rewrite app_nil_r. done.
  - cbn [check_all].
    destruct (is_allowed now client_id rl) as [ok rl1] eqn:E1.
    destruct (check_all rest client_id rl1) as [oks rl2] eqn:E2.
    cbn [fst snd length replicate].
    assert (Hkept : List.filter (λ t, t >? now - time_window rl)
                      (recorded client_id rl) = recorded client_id rl).
    { apply filter_all. apply Forall_app in Hwin as [Hpre Hts].
      apply Forall_cons in Hts as [Hnow _].
      eapply Forall_impl; [exact Hpre|]. cbn. intros t Ht. lia. }
    assert (Hok : ok = true).
    { change ok with (fst (ok, rl1)). rewrite <- E1, is_allowed_fst, Hkept.
      unfold len in *. cbn [length] in Hroom.
      destruct (Z.geb_spec (Z.of_nat (length (recorded client_id rl)))
                  (max_requests rl)); [lia | reflexivity]. }
    assert (Hrec : recorded client_id rl1 = recorded client_id rl ++ [now]).
    { change rl1 with (snd (ok, rl1)). rewrite <- E1, is_allowed_recorded, Hkept.
      rewrite E1. cbn [fst]. rewrite Hok. reflexivity. }
    destruct (is_allowed_settings now client_id rl) as [Hm Hw].
    rewrite E1 in Hm, Hw. cbn [snd] in Hm, Hw.
    destruct (IH rl1) as (Hoks & Hrecs & Hm2 & Hw2).
    { rewrite Hrec, Hw, <- app_assoc. exact Hwin. }
    { rewrite Hrec, Hm. unfold len in *. rewrite length_app.
      cbn [length] in *. lia. }
    rewrite E2 in Hoks, Hrecs, Hm2, Hw2. cbn [fst snd] in Hoks, Hrecs, Hm2, Hw2.
    rewrite Hok, Hoks, Hrecs, Hrec, <- app_assoc, Hm2, Hw2. done.
Qed.

(** C8.  With ceiling 10 and window 60, on a client with no recorded
    timestamp: ten checks whose readings lie in one window are all admitted
    and their timestamps are recorded; an eleventh check in that window is
    rejected and records nothing; a check made once the window has elapsed
    past those requests is admitted again.  And every check, on any
    limiter, first drops the client's timestamps that are not newer than
    [now - time_window], then appends [now] exactly when it admits. *)
Theorem rate_limiter_window
    (client_id : str) (rl : RateLimiter) (ts : list Z) (t0 t11 later : Z) :
  max_requests rl = 10 →
  time_window rl = 60 →
  recorded client_id rl = [] →
  length ts = 10%nat →
  Forall (λ t, t0 ≤ t < t0 + 60) (ts ++ [t11]) →
  Forall (λ t, t + 60 ≤ later) ts →
  let rl10 := snd (check_all ts client_id rl) in
  let rl11 := snd (is_allowed t11 client_id rl10) in
  fst (check_all ts client_id rl) = replicate 10 true
  ∧ recorded client_id rl10 = ts
  ∧ fst (is_allowed t11 client_id rl10) = false
  ∧ recorded client_id rl11 = ts
  ∧ fst (is_allowed later client_id rl11) = true
  ∧ recorded client_id (snd (is_allowed later client_id rl11)) = [later]
  ∧ ∀ (now : Z) (c : str) (r : RateLimiter),
      recorded c (snd (is_allowed now c r))
      = List.filter (λ t, t >? now - time_window r) (recorded c r)
        ++ (if fst (is_allowed now c r) then [now] else []).
Proof.
  intros Hmax Hwin Hfresh Hlen Hin Hlater rl10 rl11.
  apply Forall_app in Hin as [Hts H11]. apply Forall_cons in H11 as [H11 _].
  destruct (check_all_admitted client_id t0 ts rl) as (Hoks & Hrec & Hm & Hw).
  { rewrite Hfresh, Hwin. exact Hts. }
  { rewrite Hfresh, Hmax. unfold len. cbn [length]. lia. }
  rewrite Hfresh in Hrec. cbn [app] in Hrec. rewrite Hlen in Hoks.
  fold rl10 in Hrec, Hm, Hw. rewrite Hmax in Hm. rewrite Hwin in Hw.
  assert (Hkeep : List.filter (λ t, t >? t11 - time_window rl10)
                    (recorded client_id rl10) = ts).
  { rewrite Hrec, Hw. apply filter_all.
    eapply Forall_impl; [exact Hts|]. cbn. intros t Ht. lia. }
  assert (Hrej : fst (is_allowed t11 client_id rl10) = false).
  { rewrite is_allowed_fst, Hkeep, Hm. unfold len. rewrite Hlen. reflexivity. }
  assert (Hrec11 : recorded client_id rl11 = ts).
  { unfold rl11. rewrite is_allowed_recorded, Hkeep, Hrej. apply app_nil_r. }
  destruct (is_allowed_settings t11 client_id rl10) as [Hm11 Hw11].
  fold rl11 in Hm11, Hw11. rewrite Hm in Hm11. rewrite Hw in Hw11.
  assert (Hdrop : List.filter (λ t, t >? later - time_window rl11)
                    (recorded client_id rl11) = []).
  { rewrite Hrec11, Hw11. apply filter_none.
    eapply Forall_impl; [exact Hlater|]. cbn. intros t Ht. lia. }
  assert (Hadm : fst (is_allowed later client_id rl11) = true).
  { rewrite is_allowed_fst, Hdrop, Hm11. reflexivity. }
  repeat split; try assumption.
  - rewrite is_allowed_recorded, Hdrop, Hadm. reflexivity.
  - intros now c r. apply is_allowed_recorded.
Qed.

(** The statement at a fresh limiter: ten checks at 100..109, an eleventh at
    110, and one at 170. *)
Lemma rate_limiter_window_witness :
  let client_id := py "203.0.113.7" in
  let rl := RateLimiter_init 10 60 in
  let ts := [100; 101; 102; 103; 104; 105; 106; 107; 108; 109] in
  let rl10 := snd (check_all ts client_id rl) in
  let rl11 := snd (is_allowed 110 client_id rl10) in
  Forall (λ t, 100 ≤ t < 100 + 60) (ts ++ [110])
  ∧ Forall (λ t, t + 60 ≤ 170) ts
  ∧ fst (check_all ts client_id rl) = replicate 10 true
  ∧ recorded client_id rl10 = ts
  ∧ fst (is_allowed 110 client_id rl10) = false
  ∧ recorded client_id rl11 = ts
  ∧ fst (is_allowed 170 client_id rl11) = true
  ∧ recorded client_id (snd (is_allowed 170 client_id rl11)) = [170].
Proof.
  intros client_id rl ts rl10 rl11.
  assert (Hin : Forall (λ t, 100 ≤ t < 100 + 60) (ts ++ [110]))
    by (unfold ts; cbn [app]; repeat constructor; lia).
  assert (Hlater : Forall (λ t, t + 60 ≤ 170) ts)
    by (unfold ts; repeat constructor; lia).
  destruct (rate_limiter_window client_id rl ts 100 110 170
              eq_refl eq_refl eq_refl eq_refl Hin Hlater)
    as (H1 & H2 & H3 & H4 & H5 & H6 & _).
  repeat (split; [assumption|]). assumption.
Defined.

(** ** Substrings: [startswith], [in], [find], [rfind] *)

Lemma startswith_spec (p s : str) :
  startswith p s = true ↔ ∃ post, s = p ++ post.
Proof.
  revert s. induction p as [|a p IH]; intros s.
  - cbn. split; [intros _; by exists s | done].
  - destruct s as [|b s]; cbn.
    + split; [done | intros [post H]; discriminate].
    + rewrite andb_true_iff, N.eqb_eq, IH. split.
      * intros [-> [post ->]]. by exists post.
      * intros [post H]. injection H as -> ->. eauto.
Qed.

Lemma occurs_at_0 (needle s : str) :
  occurs_at needle s 0 ↔ startswith needle s = true.
Proof.
  rewrite startswith_spec. unfold occurs_at. split.
  - intros (pre & post & -> & Hlen). destruct pre; [|discriminate]. eauto.
  - intros [post ->]. by exists [], post.
Qed.

Lemma occurs_at_S (needle : str) (c : N) (s : str) (i : nat) :
  occurs_at needle (c :: s) (S i) ↔ occurs_at needle s i.
Proof.
  unfold occurs_at. split.
  - intros (pre & post & E & Hlen). destruct pre as [|c' pre]; [discriminate|].
    injection E as -> ->. injection Hlen as <-. eauto.
  - intros (pre & post & -> & <-). by exists (c :: pre), post.
Qed.

Lemma occurs_at_nil (needle : str) (i : nat) :
  occurs_at needle [] i → i = 0%nat.
Proof.
  intros (pre & post & E & <-). by destruct pre.
Qed.

Lemma occurs_at_bound (needle s : str) (i : nat) :
  occurs_at needle s i → (i + length needle ≤ length s)%nat.
Proof.
  intros (pre & post & -> & <-). rewrite !length_app. lia.
Qed.

Lemma contains_spec (needle s : str) :
  contains needle s = true ↔ ∃ i, occurs_at needle s i.
Proof.
  induction s as [|c s IH]; cbn [contains]; rewrite orb_true_iff.
  - rewrite <- occurs_at_0. split.
    + intros [H|H]; [eauto | discriminate].
    + intros [i Hi]. left. by rewrite (occurs_at_nil _ _ Hi) in Hi.
  - rewrite IH, <- occurs_at_0. split.
    + intros [H|[i Hi]]; [eauto|]. exists (S i). by apply occurs_at_S.
    + intros [[|i] Hi]; [by left|]. right. exists i. by apply occurs_at_S in Hi.
Qed.

Lemma contains_false (needle s : str) :
  contains needle s = false ↔ ∀ i, ¬ occurs_at needle s i.
Proof.
  rewrite <- not_true_iff_false, contains_spec. split.
  - intros H i Hi. apply H. by exists i.
  - intros H [i Hi]. exact (H i Hi).
Qed.

(** [find] answers -1 when there is no occurrence, and otherwise the lowest
    index of one. *)
Lemma find_from_spec (needle s : str) (k : Z) :
  (find_from needle s k = -1 ∧ ∀ i, ¬ occurs_at needle s i) ∨
  (∃ i, find_from needle s k = k + Z.of_nat i ∧ occurs_at needle s i
        ∧ ∀ j, occurs_at needle s j → (i ≤ j)%nat) ∨
  k < 0.
Proof.
  destruct (Z.ltb_spec k 0) as [Hk|Hk]; [by right; right|].
  revert k Hk. induction s as [|c s IH]; intros k Hk; cbn [find_from].
  - destruct (startswith needle []) eqn:E.
    + right. left. exists 0%nat. rewrite Z.add_0_r.
      split; [done|]. split; [by apply occurs_at_0 | lia].
    + left. split; [done|]. intros i Hi.
      rewrite (occurs_at_nil _ _ Hi) in Hi. apply occurs_at_0 in Hi. congruence.
  - destruct (startswith needle (c :: s)) eqn:E.
    + right. left. exists 0%nat. rewrite Z.add_0_r.
      split; [done|]. split; [by apply occurs_at_0 | lia].
    + destruct (IH (k + 1)) as [[Hf Hno]|[(i & Hf & Hocc & Hmin)|Hneg]]; [lia| | |lia].
      * left. split; [exact Hf|]. intros [|i] Hi.
        -- apply occurs_at_0 in Hi. congruence.
        -- apply occurs_at_S in Hi. by apply (Hno i).
      * right. left. exists (S i). split; [rewrite Hf; lia|].
        split; [by apply occurs_at_S|].
        intros [|j] Hj.
        -- apply occurs_at_0 in Hj. congruence.
        -- apply occurs_at_S in Hj. apply Hmin in Hj. lia.
Qed.

Lemma find_spec (needle s : str) :
  (find needle s = -1 ∧ ∀ i, ¬ occurs_at needle s i) ∨
  (∃ i, find needle s = Z.of_nat i ∧ occurs_at needle s i
        ∧ ∀ j, occurs_at needle s j → (i ≤ j)%nat).
Proof.
  unfold find.
  destruct (find_from_spec needle s 0) as [H|[H|H]]; [by left| by right | lia].
Qed.

(** [rfind] answers -1 when there is no occurrence, and otherwise the
    highest index of one. *)
Lemma rfind_from_spec (needle s : str) (k last : Z) :
  0 ≤ k →
  (rfind_from needle s k last = last ∧ ∀ i, ¬ occurs_at needle s i) ∨
  (∃ i, rfind_from needle s k last = k + Z.of_nat i ∧ occurs_at needle s i
        ∧ ∀ j, occurs_at needle s j → (j ≤ i)%nat).
Proof.
  revert k last. induction s as [|c s IH]; intros k last Hk; cbn [rfind_from].
  - destruct (startswith needle []) eqn:E.
    + right. exists 0%nat. rewrite Z.add_0_r. split; [done|].
      split; [by apply occurs_at_0|].
      intros j Hj. rewrite (occurs_at_nil _ _ Hj). lia.
    + left. split; [done|]. intros i Hi.
      rewrite (occurs_at_nil _ _ Hi) in Hi. apply occurs_at_0 in Hi. congruence.
  - destruct (startswith needle (c :: s)) eqn:E.
    + destruct (IH (k + 1) k) as [[Hf Hno]|(i & Hf & Hocc & Hmax)]; [lia| |].
      * right. exists 0%nat. rewrite Z.add_0_r. split; [exact Hf|].
        split; [by apply occurs_at_0|].
        intros [|j] Hj; [lia|]. apply occurs_at_S in Hj. exfalso. exact (Hno j Hj).
      * right. exists (S i). split; [rewrite Hf; lia|].
        split; [by apply occurs_at_S|].
        intros [|j] Hj; [lia|]. apply occurs_at_S in Hj. apply Hmax in Hj. lia.
    + destruct (IH (k + 1) last) as [[Hf Hno]|(i & Hf & Hocc & Hmax)]; [lia| |].
      * left. split; [exact Hf|]. intros [|i] Hi.
        -- apply occurs_at_0 in Hi. congruence.
        -- apply occurs_at_S in Hi. by apply (Hno i).
      * right. exists (S i). split; [rewrite Hf; lia|].
        split; [by apply occurs_at_S|].
        intros [|j] Hj.
        -- apply occurs_at_0 in Hj. congruence.
        -- apply occurs_at_S in Hj. apply Hmax in Hj. lia.
Qed.

Lemma rfind_spec (needle s : str) :
  (rfind needle s = -1 ∧ ∀ i, ¬ occurs_at needle s i) ∨
  (∃ i, rfind needle s = Z.of_nat i ∧ occurs_at needle s i
        ∧ ∀ j, occurs_at needle s j → (j ≤ i)%nat).
Proof.
  unfold rfind. destruct (rfind_from_spec needle s 0 (-1)) as [H|H]; [lia| |]; tauto.
Qed.

(** ** Direct HTML detection: the two boundary loops *)

(** The loop over the start markers keeps the lowest index found. *)
Lemma start_loop_spec (text : str) (markers : list str) :
  ∀ (seen : list str) (acc : Z),
    ((acc = -1 ∧ ∀ n i, n ∈ seen → ¬ occurs_at n text i)
     ∨ ∃ i, acc = Z.of_nat i ∧ earliest seen text i) →
    let r := fold_left (start_step text) markers acc in
    (r = -1 ∧ ∀ n i, n ∈ seen ++ markers → ¬ occurs_at n text i)
    ∨ ∃ i, r = Z.of_nat i ∧ earliest (seen ++ markers) text i.
Proof.
  induction markers as [|m markers IH]; intros seen acc Hacc; cbn [fold_left].
  - rewrite app_nil_r. exact Hacc.
  - replace (seen ++ m :: markers) with ((seen ++ [m]) ++ markers)
      by (by rewrite <- app_assoc).
    apply IH. unfold start_step.
    destruct (find_spec m text) as [[Hf Hno]|(i & Hf & Hocc & Hmin)]; rewrite Hf.
    + (* the marker does not occur *)
      cbn [Z.eqb negb andb].
      destruct Hacc as [[-> Hseen]|(a & -> & [Hex Hlow])].
      * left. split; [done|]. intros n j [Hn| ->%list_elem_of_singleton]%elem_of_app;
          [by apply Hseen | apply Hno].
      * right. exists a. split; [done|]. split.
        -- destruct Hex as (n & Hn & Ho). exists n. split; [apply elem_of_app; by left | done].
        -- intros n j [Hn| ->%list_elem_of_singleton]%elem_of_app Ho;
             [by apply (Hlow n) | by destruct (Hno j)].
    + (* the marker occurs, first at [i] *)
      replace (Z.of_nat i =? -1) with false by (symmetry; apply Z.eqb_neq; lia).
      cbn [negb andb].
      destruct Hacc as [[-> Hseen]|(a & -> & [Hex Hlow])].
      * cbn [Z.eqb orb]. right. exists i. split; [done|]. split.
        -- exists m. split; [apply elem_of_app; right; apply list_elem_of_here | done].
        -- intros n j [Hn| ->%list_elem_of_singleton]%elem_of_app Ho;
             [exfalso; exact (Hseen n j Hn Ho) | by apply Hmin].
      * replace (Z.of_nat a =? -1) with false by (symmetry; apply Z.eqb_neq; lia).
        cbn [orb]. destruct (Z.ltb_spec (Z.of_nat i) (Z.of_nat a)) as [Hlt|Hge].
        -- right. exists i. split; [done|]. split.
           ++ exists m. split; [apply elem_of_app; right; apply list_elem_of_here | done].
           ++ intros n j [Hn| ->%list_elem_of_singleton]%elem_of_app Ho;
                [apply (Hlow n) in Ho; [lia | done] | by apply Hmin].
        -- right. exists a. split; [done|]. split.
           ++ destruct Hex as (n & Hn & Ho). exists n. split; [apply elem_of_app; by left | done].
           ++ intros n j [Hn| ->%list_elem_of_singleton]%elem_of_app Ho;
                [by apply (Hlow n) | apply Hmin in Ho; lia].
Qed.

Lemma start_pos_earliest (text : str) (i : nat) :
  earliest start_markers text i →
  fold_left (start_step text) start_markers (-1) = Z.of_nat i.
Proof.
  intros [Hex Hlow].
  destruct (start_loop_spec text start_markers [] (-1)) as [[_ Hno]|(j & -> & [Hex' Hlow'])].
  { left. split; [done|]. intros n k Hn. by apply elem_of_nil in Hn. }
  - destruct Hex as (n & Hn & Ho). exfalso. exact (Hno n i Hn Ho).
  - cbn [app] in *. f_equal.
    destruct Hex as (n & Hn & Ho), Hex' as (n' & Hn' & Ho').
    apply (Hlow' n) in Ho; [|done]. apply (Hlow n') in Ho'; [|done]. lia.
Qed.

Lemma latest_singleton (needle text : str) (p : nat) :
  latest [needle] text p →
  rfind needle text = Z.of_nat p.
Proof.
  intros [(n & ->%list_elem_of_singleton & Ho) Hmax].
  destruct (rfind_spec needle text) as [[_ Hno]|(i & -> & Hocc & Hmax')].
  - by destruct (Hno p).
  - f_equal. apply Hmax' in Ho. apply (Hmax needle) in Hocc; [lia | apply list_elem_of_here].
Qed.


(** ** The matcher on the fenced patterns *)

Lemma eat_false_spec (l s s' : str) :
  eat false l s = Some s' ↔ s = l ++ s'.
Proof.
  revert s. induction l as [|p l IH]; intros s; cbn [eat app].
  - split; [by intros [= ->] | by intros ->].
  - destruct s as [|c s]; [split; discriminate|].
    unfold lit_char. destruct (N.eqb_spec p c) as [->|Hne].
    + rewrite IH. split; [by intros -> | by intros [= ->]].
    + split; [discriminate | intros [= -> _]; done].
Qed.

Lemma eat_false_app (l s : str) : eat false l (l ++ s) = Some s.
Proof. by apply eat_false_spec. Qed.

Lemma eat_false_none (l s : str) :
  eat false l s = None ↔ ∀ s', s ≠ l ++ s'.
Proof.
  split.
  - intros Hn s' ->. by rewrite eat_false_app in Hn.
  - intros Hno. destruct (eat false l s) as [s'|] eqn:E; [|done].
    apply eat_false_spec in E. by destruct (Hno s').
Qed.

Section lazy_dot.
Context {R : Type} (cont : str → option R).

(** [.*?] gives the continuation the shortest prefix it accepts. *)
Lemma lazy_dot_some (s : str) (r : R) :
  lazy Dot cont s = Some r →
  ∃ x s', s = x ++ s' ∧ cont s' = Some r
          ∧ ∀ x1 x2, x = x1 ++ x2 → x2 ≠ [] → cont (x2 ++ s') = None.
Proof.
  induction s as [|c s IH]; cbn [lazy cls_match]; intros H.
  - destruct (cont []) as [r'|] eqn:E; [|discriminate]. injection H as ->.
    exists [], []. split; [done|]. split; [done|].
    intros x1 x2 Hx Hne. symmetry in Hx. apply app_eq_nil in Hx as [_ ->]. done.
  - destruct (cont (c :: s)) as [r'|] eqn:E.
    + injection H as ->. exists [], (c :: s). split; [done|]. split; [done|].
      intros x1 x2 Hx Hne. symmetry in Hx. apply app_eq_nil in Hx as [_ ->]. done.
    + destruct (IH H) as (x & s' & -> & Hr & Hmin).
      exists (c :: x), s'. split; [done|]. split; [done|].
      intros [|c1 x1] x2 Hx Hne; cbn [app] in Hx.
      * subst x2. exact E.
      * injection Hx as -> ->. by apply (Hmin x1).
Qed.

Lemma lazy_dot_none (s : str) :
  lazy Dot cont s = None ↔ ∀ x s', s = x ++ s' → cont s' = None.
Proof.
  induction s as [|c s IH]; cbn [lazy cls_match].
  - destruct (cont []) as [r|] eqn:E; split; try done.
    + intros H. by rewrite (H [] []) in E.
    + intros _ x s' Hx. symmetry in Hx. apply app_eq_nil in Hx as [_ ->]. done.
  - destruct (cont (c :: s)) as [r|] eqn:E.
    + split; [done|]. intros H. by rewrite (H [] (c :: s)) in E.
    + rewrite IH. split.
      * intros H [|c1 x] s' Hx; cbn [app] in Hx; [by subst|].
        injection Hx as -> ->. by apply (H x).
      * intros H x s' ->. by apply (H (c :: x)).
Qed.
End lazy_dot.

Lemma shape_of_match (p : pattern) (sh : shape) :
  shape_of p = Some sh →
  ∀ opened caps s,
    re_match false p opened caps s
    = re_match false (shape_pattern sh) opened caps s.
Proof.
  intros Hs opened caps s. unfold shape_of in Hs.
  repeat match type of Hs with
         | context [match ?x with _ => _ end] => destruct x; try discriminate
         end.
  all: injection Hs as <-; reflexivity.
Qed.

(** What follows [.*?] in a shape: the tail of the capture, the end of the
    group and the closing fence. *)
Lemma shape_cont_some (sh : shape) (opened : str) (caps : list str)
    (s : str) (g : list str) (rest : str) :
  re_match false [Lit (sh_tail sh); Close; Lit (sh_close sh)] opened caps s
  = Some (g, rest)
  ↔ s = sh_tail sh ++ sh_close sh ++ rest
    ∧ g = caps ++ [take (length opened - length (sh_close sh ++ rest)) opened].
Proof.
  cbn [re_match].
  destruct (eat false (sh_tail sh) s) as [s4|] eqn:E4.
  - apply eat_false_spec in E4 as ->.
    destruct (eat false (sh_close sh) s4) as [s5|] eqn:E5.
    + apply eat_false_spec in E5 as ->. split.
      * intros [= <- <-]. done.
      * intros [E ->]. apply app_inv_head in E. apply app_inv_head in E.
        by subst.
    + split; [done|]. intros [E _]. apply app_inv_head in E.
      rewrite E, eat_false_app in E5. done.
  - split; [done|]. intros [-> _]. by rewrite eat_false_app in E4.
Qed.

Lemma shape_cont_none (sh : shape) (opened : str) (caps : list str) (s : str) :
  re_match false [Lit (sh_tail sh); Close; Lit (sh_close sh)] opened caps s = None
  ↔ ∀ rest, s ≠ sh_tail sh ++ sh_close sh ++ rest.
Proof.
  split.
  - intros Hn rest ->.
    assert (H : re_match false [Lit (sh_tail sh); Close; Lit (sh_close sh)]
                  opened caps (sh_tail sh ++ sh_close sh ++ rest)
                = Some (caps ++ [take (length opened - length (sh_close sh ++ rest)) opened], rest))
      by (by apply shape_cont_some).
    congruence.
  - intros Hno.
    destruct (re_match false _ opened caps s) as [[g rest]|] eqn:E; [|done].
    apply shape_cont_some in E as [-> _]. by destruct (Hno rest).
Qed.

(** A match of a shape at the head of [s]: the capture is the shortest
    that lets the rest of the pattern match. *)
Lemma re_match_shape_some (sh : shape) (opened : str) (caps : list str)
    (s : str) (g : list str) (rest : str) :
  re_match false (shape_pattern sh) opened caps s = Some (g, rest) →
  ∃ x,
    s = sh_open sh ++ sh_head sh ++ x ++ sh_tail sh ++ sh_close sh ++ rest
    ∧ g = caps ++ [sh_head sh ++ x ++ sh_tail sh]
    ∧ ∀ x1 x2 rest',
        x = x1 ++ x2 → x2 ≠ [] →
        x2 ++ sh_tail sh ++ sh_close sh ++ rest
        ≠ sh_tail sh ++ sh_close sh ++ rest'.
Proof.
  unfold shape_pattern.
  change (re_match false (Lit (sh_open sh) :: Open :: Lit (sh_head sh)
                            :: LazyStar Dot :: ?p) opened caps s)
    with (match eat false (sh_open sh) s with
          | Some s1 =>
            match eat false (sh_head sh) s1 with
            | Some s2 => lazy Dot (re_match false p s1 caps) s2
            | None => None
            end
          | None => None
          end).
  destruct (eat false (sh_open sh) s) as [s1|] eqn:E1; [|discriminate].
  apply eat_false_spec in E1 as ->.
  destruct (eat false (sh_head sh) s1) as [s2|] eqn:E2; [|discriminate].
  apply eat_false_spec in E2 as ->.
  intros H. apply lazy_dot_some in H as (x & s3 & -> & Hc & Hmin).
  apply shape_cont_some in Hc as [-> ->].
  exists x. split; [done|]. split.
  - f_equal. f_equal.
    replace (sh_head sh ++ x ++ sh_tail sh ++ sh_close sh ++ rest)
      with ((sh_head sh ++ x ++ sh_tail sh) ++ sh_close sh ++ rest)
      by (by rewrite <- !app_assoc).
    rewrite length_app.
    replace (length (sh_head sh ++ x ++ sh_tail sh) + length (sh_close sh ++ rest)
             - length (sh_close sh ++ rest))%nat
      with (length (sh_head sh ++ x ++ sh_tail sh)) by lia.
    by rewrite take_app_length.
  - intros x1 x2 rest' Hx Hne E.
    specialize (Hmin x1 x2 Hx Hne).
    exact (proj1 (shape_cont_none _ _ _ _) Hmin rest' E).
Qed.

Lemma re_match_shape_none (sh : shape) (opened : str) (caps : list str) (s : str) :
  re_match false (shape_pattern sh) opened caps s = None
  ↔ ∀ x rest,
      s ≠ sh_open sh ++ sh_head sh ++ x ++ sh_tail sh ++ sh_close sh ++ rest.
Proof.
  unfold shape_pattern.
  change (re_match false (Lit (sh_open sh) :: Open :: Lit (sh_head sh)
                            :: LazyStar Dot :: ?p) opened caps s)
    with (match eat false (sh_open sh) s with
          | Some s1 =>
            match eat false (sh_head sh) s1 with
            | Some s2 => lazy Dot (re_match false p s1 caps) s2
            | None => None
            end
          | None => None
          end).
  destruct (eat false (sh_open sh) s) as [s1|] eqn:E1.
  - apply eat_false_spec in E1 as ->.
    destruct (eat false (sh_head sh) s1) as [s2|] eqn:E2.
    + apply eat_false_spec in E2 as ->. rewrite lazy_dot_none. split.
      * intros H x rest E. apply app_inv_head in E. apply app_inv_head in E.
        specialize (H x _ E).
        exact (proj1 (shape_cont_none _ _ _ _) H rest eq_refl).
      * intros H x s3 ->. apply shape_cont_none. intros rest ->.
        by apply (H x rest).
    + split; [|done]. intros _ x rest E. apply app_inv_head in E.
      rewrite E, eat_false_app in E2. done.
  - split; [|done]. intros _ x rest ->. by rewrite eat_false_app in E1.
Qed.

(** [re.search] answers with the first suffix of the text at whose head
    the pattern matches. *)
Lemma re_search_some (ic : bool) (p : pattern) (s : str) (g : list str) :
  re_search ic p s = Some g →
  ∃ pre s' rest,
    s = pre ++ s' ∧ re_match ic p s' [] s' = Some (g, rest)
    ∧ ∀ pre1 pre2, pre = pre1 ++ pre2 → pre2 ≠ [] →
                   re_match ic p (pre2 ++ s') [] (pre2 ++ s') = None.
Proof.
  induction s as [|c s IH]; cbn [re_search]; intros H.
  - destruct (re_match ic p [] [] []) as [[g' rest]|] eqn:E; [|discriminate].
    injection H as ->. exists [], [], rest. split; [done|]. split; [done|].
    intros pre1 pre2 Hp Hne. symmetry in Hp. apply app_eq_nil in Hp as [_ ->]. done.
  - destruct (re_match ic p (c :: s) [] (c :: s)) as [[g' rest]|] eqn:E.
    + injection H as ->. exists [], (c :: s), rest. split; [done|]. split; [done|].
      intros pre1 pre2 Hp Hne. symmetry in Hp. apply app_eq_nil in Hp as [_ ->]. done.
    + destruct (IH H) as (pre & s' & rest & -> & Hm & Hmin).
      exists (c :: pre), s', rest. split; [done|]. split; [done|].
      intros [|c1 pre1] pre2 Hp Hne; cbn [app] in Hp.
      * subst pre2. exact E.
      * injection Hp as -> ->. by apply (Hmin pre1).
Qed.

Lemma re_search_none (ic : bool) (p : pattern) (s : str) :
  re_search ic p s = None ↔ ∀ pre s', s = pre ++ s' → re_match ic p s' [] s' = None.
Proof.
  induction s as [|c s IH]; cbn [re_search].
  - destruct (re_match ic p [] [] []) as [[g rest]|] eqn:E; split; try done.
    + intros H. by rewrite (H [] []) in E.
    + intros _ pre s' Hp. symmetry in Hp. apply app_eq_nil in Hp as [_ ->]. done.
  - destruct (re_match ic p (c :: s) [] (c :: s)) as [[g rest]|] eqn:E.
    + split; [done|]. intros H. by rewrite (H [] (c :: s)) in E.
    + rewrite IH. split.
      * intros H [|c1 pre] s' Hp; cbn [app] in Hp; [by subst|].
        injection Hp as -> ->. by apply (H pre).
      * intros H pre s' ->. by apply (H (c :: pre)).
Qed.

(** The search for a fenced pattern, in terms of the blocks of the text. *)
Lemma re_search_shape_none (p : pattern) (sh : shape) (text : str) :
  shape_of p = Some sh →
  re_search false p text = None ↔ ∀ i cap, ¬ block sh text i cap.
Proof.
  intros Hs. rewrite re_search_none. split.
  - intros H i cap (pre & x & post & -> & _ & _).
    specialize (H pre _ eq_refl). rewrite (shape_of_match _ _ Hs) in H.
    exact (proj1 (re_match_shape_none _ _ _ _) H x post eq_refl).
  - intros H pre s' ->. rewrite (shape_of_match _ _ Hs).
    apply re_match_shape_none. intros x rest ->.
    apply (H (length pre) (sh_head sh ++ x ++ sh_tail sh)).
    by exists pre, x, rest.
Qed.

Lemma re_search_shape_some (p : pattern) (sh : shape) (text : str) (g : list str) :
  shape_of p = Some sh →
  re_search false p text = Some g →
  ∃ i cap,
    g = [cap] ∧ block sh text i cap
    ∧ ∀ i' cap', block sh text i' cap' →
        (i ≤ i')%nat ∧ (i' = i → (length cap ≤ length cap')%nat).
Proof.
  intros Hs H.
  apply re_search_some in H as (pre & s' & rest & -> & Hm & Hleft).
  rewrite (shape_of_match _ _ Hs) in Hm.
  apply re_match_shape_some in Hm as (x & -> & -> & Hmin).
  exists (length pre), (sh_head sh ++ x ++ sh_tail sh).
  split; [done|]. split; [by exists pre, x, rest|].
  intros i' cap' (pre' & x' & post' & E & <- & ->).
  assert (Hle : (length pre ≤ length pre')%nat).
  { destruct (Nat.le_gt_cases (length pre) (length pre')) as [|Hlt]; [done|].
    exfalso.
    (* a block that starts earlier contradicts the leftmost search *)
    assert (Hsplit : pre = pre' ++ drop (length pre') pre).
    { rewrite <- (take_drop (length pre') pre) at 1. f_equal.
      apply (f_equal (take (length pre'))) in E.
      rewrite take_app_le in E by lia. rewrite take_app_length in E. done. }
    specialize (Hleft pre' (drop (length pre') pre) Hsplit).
    assert (Hne : drop (length pre') pre ≠ []).
    { intros Hd. apply (f_equal length) in Hd. rewrite length_drop in Hd.
      cbn in Hd. lia. }
    specialize (Hleft Hne). rewrite (shape_of_match _ _ Hs) in Hleft.
    apply (proj1 (re_match_shape_none _ _ _ _) Hleft x' post').
    rewrite Hsplit in E at 1. rewrite <- app_assoc in E.
    by apply app_inv_head in E. }
  split; [exact Hle|]. intros Hi.
  assert (pre' = pre) as ->.
  { apply (f_equal (take (length pre))) in E.
    rewrite take_app_length in E. rewrite <- Hi, take_app_length in E. done. }
  apply app_inv_head in E. apply app_inv_head in E. apply app_inv_head in E.
  rewrite !length_app.
  destruct (Nat.le_gt_cases (length x) (length x')) as [|Hlt]; [lia|].
  exfalso.
  assert (Hsplit : x = x' ++ drop (length x') x).
  { rewrite <- (take_drop (length x') x) at 1. f_equal.
    apply (f_equal (take (length x'))) in E.
    rewrite take_app_le in E by lia. rewrite take_app_length in E. done. }
  apply (Hmin x' (drop (length x') x) post' Hsplit).
  - intros Hd. apply (f_equal length) in Hd. rewrite length_drop in Hd.
    cbn in Hd. lia.
  - rewrite Hsplit in E at 1. rewrite <- app_assoc in E.
    by apply app_inv_head in E.
Qed.

(** ** Fenced blocks *)

Lemma first_pattern_none (ps : list pattern) (text : str) :
  Forall (λ p, re_search false p text = None) ps → first_pattern ps text = None.
Proof.
  induction 1 as [|p ps Hp _ IH]; [reflexivity|].
  cbn [first_pattern]. rewrite Hp. exact IH.
Qed.

(** The loop returns at the first pattern that matches. *)
Lemma first_pattern_at (text : str) (g : list str) (ps : list pattern) :
  ∀ (k : nat) (p : pattern),
    ps !! k = Some p →
    (∀ j q, (j < k)%nat → ps !! j = Some q → re_search false q text = None) →
    re_search false p text = Some g →
    first_pattern ps text = Some (strip (group 1 g)).
Proof.
  induction ps as [|q ps IH]; intros k p Hk Hbefore Hp; [done|].
  destruct k as [|k]; cbn [first_pattern].
  - injection Hk as ->. by rewrite Hp.
  - rewrite (Hbefore 0%nat q); [|lia|done].
    apply (IH k p); [done| |done].
    intros j q' Hj Hq'. apply (Hbefore (S j) q'); [lia|done].
Qed.

Lemma patterns_shapes :
  shape_of <$> patterns
  = [Some {| sh_open := fence ++ py "html" ++ nl; sh_head := [];
             sh_tail := []; sh_close := nl ++ fence |};
     Some {| sh_open := fence ++ py "html"; sh_head := [];
             sh_tail := []; sh_close := fence |};
     Some {| sh_open := fence ++ nl; sh_head := py "<!DOCTYPE";
             sh_tail := py "</html>"; sh_close := nl ++ fence |};
     Some {| sh_open := fence; sh_head := py "<!DOCTYPE";
             sh_tail := py "</html>"; sh_close := fence |}].
Proof. reflexivity. Qed.

(** Every fenced pattern has a shape, and its opening begins with the
    fence. *)
Lemma patterns_open_with_fence :
  Forall (λ p, ∃ sh o, shape_of p = Some sh ∧ sh_open sh = fence ++ o) patterns.
Proof.
  unfold patterns. repeat apply Forall_cons_2; [..|apply Forall_nil_2].
  - by eexists _, (py "html" ++ nl).
  - by eexists _, (py "html").
  - by eexists _, nl.
  - eexists _, []. split; [reflexivity|]. cbn [sh_open]. by rewrite app_nil_r.
Qed.

Lemma no_fence_no_match (text : str) :
  contains fence text = false →
  Forall (λ p, re_search false p text = None) patterns.
Proof.
  intros Hno. eapply Forall_impl; [exact patterns_open_with_fence|].
  cbn beta. intros p (sh & o & Hs & Ho).
  apply (re_search_shape_none p sh text Hs).
  intros i cap (pre & x & post & -> & _ & _).
  apply (proj1 (contains_false _ _) Hno (length pre)).
  exists pre, (o ++ sh_head sh ++ x ++ sh_tail sh ++ sh_close sh ++ post).
  split; [|done]. rewrite Ho, <- !app_assoc. done.
Qed.

Section fenced.
Context `{L : PyLower}.

(** C3, as the code has it.  The four fenced patterns are tried in their
    order.  A pattern is found when the text holds a block of its shape;
    the first pattern found wins: the search takes its leftmost block and,
    from that opening fence, the shortest capture (the quantifier is not
    greedy), and the capture trimmed is returned at once.  A text with no
    fence, no [<!DOCTYPE] and no [<html] in its lowered form gives [None]. *)
Theorem extract_html_fenced (text : str) :
  (∀ k p sh,
     patterns !! k = Some p → shape_of p = Some sh →
     (∀ j q sh', (j < k)%nat → patterns !! j = Some q → shape_of q = Some sh' →
                 ∀ i cap, ¬ block sh' text i cap) →
     (∃ i cap, block sh text i cap) →
     ∃ i cap,
       block sh text i cap
       ∧ (∀ i' cap', block sh text i' cap' →
            (i ≤ i')%nat ∧ (i' = i → (length cap ≤ length cap')%nat))
       ∧ extract_html_from_response text = Some (strip cap))
  ∧ (contains fence text = false →
     contains (py "<!DOCTYPE") text = false →
     contains (py "<html") (lower text) = false →
     extract_html_from_response text = None)
  ∧ Forall (λ p, is_Some (shape_of p)) patterns.
Proof.
  assert (Hall : Forall (λ p, is_Some (shape_of p)) patterns).
  { eapply Forall_impl; [exact patterns_open_with_fence|].
    cbn beta. intros p (sh & o & -> & _). eauto. }
  split; [|split; [|exact Hall]].
  - intros k p sh Hk Hs Hbefore [i0 [cap0 Hb0]].
    destruct (re_search false p text) as [g|] eqn:E.
    2:{ exfalso. exact (proj1 (re_search_shape_none p sh text Hs) E i0 cap0 Hb0). }
    destruct (re_search_shape_some p sh text g Hs E) as (i & cap & -> & Hb & Hmin).
    exists i, cap. split; [exact Hb|]. split; [exact Hmin|].
    unfold extract_html_from_response.
    rewrite (first_pattern_at text [cap] patterns k p Hk); [reflexivity| |exact E].
    intros j q Hj Hq.
    assert (Hsq : is_Some (shape_of q)).
    { rewrite Forall_forall in Hall. apply Hall.
      eapply list_elem_of_lookup_2. exact Hq. }
    destruct Hsq as [sh' Hsh'].
    apply (re_search_shape_none q sh' text Hsh').
    by apply (Hbefore j q sh').
  - intros Hf Hd Hh. unfold extract_html_from_response.
    rewrite (first_pattern_none _ _ (no_fence_no_match text Hf)), Hd, Hh.
    reflexivity.
Qed.
End fenced.

(** The statement at a text with one fenced block, and at a text with no
    markup. *)
Lemma extract_html_fenced_witness :
  let text := fence ++ py "html" ++ nl ++ py "<p>x</p>" ++ nl ++ fence in
  let sh := {| sh_open := fence ++ py "html" ++ nl; sh_head := [];
               sh_tail := []; sh_close := nl ++ fence |} in
  (∃ p, patterns !! 0%nat = Some p ∧ shape_of p = Some sh)
  ∧ block sh text 0 (py "<p>x</p>")
  ∧ (∃ i cap,
       block sh text i cap
       ∧ (∀ i' cap', block sh text i' cap' →
            (i ≤ i')%nat ∧ (i' = i → (length cap ≤ length cap')%nat))
       ∧ @extract_html_from_response ascii_lower text = Some (strip cap))
  ∧ contains fence (py "no markup here") = false
  ∧ contains (py "<!DOCTYPE") (py "no markup here") = false
  ∧ contains (py "<html") (@lower ascii_lower (py "no markup here")) = false
  ∧ @extract_html_from_response ascii_lower (py "no markup here") = None.
Proof.
  intros text sh.
  assert (Hb : block sh text 0 (py "<p>x</p>")).
  { exists [], (py "<p>x</p>"), []. repeat split; vm_compute; reflexivity. }
  split; [eexists; split; reflexivity|]. split; [exact Hb|].
  destruct (extract_html_fenced (L := ascii_lower) text) as (Hfirst & _ & _).
  split.
  - apply (Hfirst 0%nat _ sh eq_refl eq_refl).
    + intros j q sh' Hj. lia.
    + exists 0%nat, (py "<p>x</p>"). exact Hb.
  - destruct (extract_html_fenced (L := ascii_lower) (py "no markup here"))
      as (_ & Hnone & _).
    repeat (split; [vm_compute; reflexivity|]).
    apply Hnone; vm_compute; reflexivity.
Defined.

(** C3 as stated fails: the search is not maximal.  On a text with two
    fenced blocks the first pattern matches at index 0 and the code returns
    the inner text of the first block, although a longer capture of the
    same pattern from the same opening fence exists (up to the last closing
    fence). *)
Lemma fenced_search_not_maximal :
  let sh := {| sh_open := fence ++ py "html" ++ nl; sh_head := [];
               sh_tail := []; sh_close := nl ++ fence |} in
  (∃ p, patterns !! 0%nat = Some p ∧ shape_of p = Some sh)
  ∧ @extract_html_from_response ascii_lower two_blocks = Some (py "A")
  ∧ block sh two_blocks 0 (py "A")
  ∧ ∃ longer,
      block sh two_blocks 0 longer
      ∧ (length (py "A") < length longer)%nat.
Proof.
  intros sh. split; [eexists; split; reflexivity|].
  split; [vm_compute; reflexivity|]. split.
  - exists [], (py "A"), (nl ++ fence ++ py "html" ++ nl ++ py "B" ++ nl ++ fence).
    repeat split; vm_compute; reflexivity.
  - exists (py "A" ++ nl ++ fence ++ nl ++ fence ++ py "html" ++ nl ++ py "B").
    split; [|vm_compute; lia].
    exists [], (py "A" ++ nl ++ fence ++ nl ++ fence ++ py "html" ++ nl ++ py "B"), [].
    repeat split; vm_compute; reflexivity.
Qed.

Section detection.
Context `{L : PyLower}.

(** C4, as the code has it.  When none of the fenced patterns matches and
    the guard on the markers holds, the start boundary is the lowest index
    at which one of [<!DOCTYPE], [<html], [<HTML] occurs; the end boundary
    is the end of the last occurrence of [</html>], and the end of the last
    occurrence of [</HTML>] only when [</html>] occurs nowhere; when both
    exist the result is the slice [text[start:end]], trimmed (the slice is
    empty when the end boundary lies before the start). *)
Theorem extract_html_direct_detection (text : str) (s p : nat) :
  Forall (λ pat, re_search false pat text = None) patterns →
  contains (py "<!DOCTYPE") text || contains (py "<html") (lower text) = true →
  earliest start_markers text s →
  (latest [py "</html>"] text p
   ∨ ((∀ j, ¬ occurs_at (py "</html>") text j) ∧ latest [py "</HTML>"] text p)) →
  extract_html_from_response text
  = Some (strip (slice text (Z.of_nat s) (Z.of_nat p + 7))).
Proof.
  intros Hpat Hguard Hstart Hend.
  unfold extract_html_from_response.
  rewrite (first_pattern_none _ _ Hpat), Hguard.
  rewrite (start_pos_earliest _ _ Hstart). cbv zeta.
  replace (Z.of_nat s =? -1) with false by (symmetry; apply Z.eqb_neq; lia).
  cbn [negb]. unfold end_markers. cbn [end_loop].
  destruct Hend as [Hlow|[Hno Hup]].
  - rewrite (latest_singleton _ _ _ Hlow).
    replace (Z.of_nat p =? -1) with false by (symmetry; apply Z.eqb_neq; lia).
    cbn [negb].
    replace (Z.of_nat p + len (py "</html>") =? -1) with false
      by (symmetry; apply Z.eqb_neq; unfold len; lia).
    reflexivity.
  - destruct (rfind_spec (py "</html>") text) as [[-> _]|(i & _ & Hocc & _)];
      [|by destruct (Hno i)].
    rewrite Z.eqb_refl. cbn [negb]. rewrite (latest_singleton _ _ _ Hup).
    replace (Z.of_nat p =? -1) with false by (symmetry; apply Z.eqb_neq; lia).
    cbn [negb].
    replace (Z.of_nat p + len (py "</HTML>") =? -1) with false
      by (symmetry; apply Z.eqb_neq; unfold len; lia).
    reflexivity.
Qed.
End detection.

Lemma occurs_at_drop (needle s : str) (i : nat) :
  (i ≤ length s)%nat → startswith needle (drop i s) = true →
  occurs_at needle s i.
Proof.
  intros Hi [post Hp]%startswith_spec.
  exists (take i s), post. split.
  - by rewrite <- Hp, take_drop.
  - rewrite length_take. lia.
Qed.

Lemma occurs_at_startswith (needle s : str) (i : nat) :
  occurs_at needle s i → startswith needle (drop i s) = true.
Proof.
  intros (pre & post & -> & <-). rewrite drop_app_length.
  apply startswith_spec. eauto.
Qed.

(** Boundaries of a given text, established by evaluation. *)
Lemma earliest_by_check (needles : list str) (s : str) (i : nat) (n : str) :
  n ∈ needles → (i ≤ length s)%nat → startswith n (drop i s) = true →
  forallb (λ m, forallb (λ j, negb (startswith m (drop j s))) (seq 0 i))
          needles = true →
  earliest needles s i.
Proof.
  intros Hn Hi Hs Hcheck. split.
  - exists n. split; [exact Hn|]. by apply occurs_at_drop.
  - intros m j Hm Hocc.
    destruct (Nat.le_gt_cases i j) as [|Hlt]; [assumption|]. exfalso.
    rewrite forallb_forall in Hcheck.
    specialize (Hcheck m (proj1 (list_elem_of_In _ _) Hm)).
    rewrite forallb_forall in Hcheck.
    specialize (Hcheck j). rewrite in_seq in Hcheck.
    rewrite (occurs_at_startswith _ _ _ Hocc) in Hcheck.
    assert (negb true = true) by (apply Hcheck; lia). discriminate.
Qed.

Lemma latest_by_check (needles : list str) (s : str) (i : nat) (n : str) :
  n ∈ needles → (i ≤ length s)%nat → startswith n (drop i s) = true →
  forallb (λ m, forallb (λ j, negb (startswith m (drop j s)))
                        (seq (S i) (length s - i)))
          needles = true →
  latest needles s i.
Proof.
  intros Hn Hi Hs Hcheck. split.
  - exists n. split; [exact Hn|]. by apply occurs_at_drop.
  - intros m j Hm Hocc.
    destruct (Nat.le_gt_cases j i) as [|Hlt]; [assumption|]. exfalso.
    pose proof (occurs_at_bound _ _ _ Hocc) as Hb.
    rewrite forallb_forall in Hcheck.
    specialize (Hcheck m (proj1 (list_elem_of_In _ _) Hm)).
    rewrite forallb_forall in Hcheck.
    specialize (Hcheck j). rewrite in_seq in Hcheck.
    rewrite (occurs_at_startswith _ _ _ Hocc) in Hcheck.
    assert (negb true = true) by (apply Hcheck; lia). discriminate.
Qed.

(** The statement at a document with text before and after it. *)
Lemma extract_html_direct_detection_witness :
  let text := py "Here it is: <html><body>Hi</body></html> Bye" in
  Forall (λ pat, re_search false pat text = None) patterns
  ∧ contains (py "<!DOCTYPE") text
    || contains (py "<html") (@lower ascii_lower text) = true
  ∧ earliest start_markers text 12
  ∧ latest [py "</html>"] text 33
  ∧ @extract_html_from_response ascii_lower text
    = Some (strip (slice text 12 (33 + 7))).
Proof.
  intros text.
  assert (Hpat : Forall (λ pat, re_search false pat text = None) patterns)
    by (repeat constructor; vm_compute; reflexivity).
  assert (Hguard : contains (py "<!DOCTYPE") text
                   || contains (py "<html") (@lower ascii_lower text) = true)
    by (vm_compute; reflexivity).
  assert (Hstart : earliest start_markers text 12).
  { apply (earliest_by_check _ _ _ (py "<html"));
      [apply list_elem_of_further, list_elem_of_here
      | vm_compute; lia | vm_compute; reflexivity..]. }
  assert (Hend : latest [py "</html>"] text 33).
  { apply (latest_by_check _ _ _ (py "</html>"));
      [apply list_elem_of_here | vm_compute; lia | vm_compute; reflexivity..]. }
  repeat (split; [assumption|]).
  apply (extract_html_direct_detection (L := ascii_lower) text 12 33
           Hpat Hguard Hstart (or_introl Hend)).
Defined.

(** C4 as stated fails on the end boundary.  In a document closed by
    [</html>] and later again by [</HTML>] the last occurrence of either
    marker is the upper-case one, at index 15; the loop over the end
    markers stops at [</html>], so what is returned ends at index 14 and
    not at index 22. *)
Lemma direct_detection_end_boundary_counterexample :
  Forall (λ pat, re_search false pat mixed_closers = None) patterns
  ∧ contains (py "<!DOCTYPE") mixed_closers
    || contains (py "<html") (@lower ascii_lower mixed_closers) = true
  ∧ earliest start_markers mixed_closers 0
  ∧ latest end_markers mixed_closers 15
  ∧ strip (slice mixed_closers 0 (15 + 7)) = py "<html>a</html>b</HTML>"
  ∧ @extract_html_from_response ascii_lower mixed_closers
    = Some (py "<html>a</html>")
  ∧ @extract_html_from_response ascii_lower mixed_closers
    ≠ Some (strip (slice mixed_closers 0 (15 + 7))).
Proof.
  split; [repeat constructor; vm_compute; reflexivity|].
  split; [vm_compute; reflexivity|]. split; [|split; [|split; [|split]]].
  - apply (earliest_by_check _ _ _ (py "<html"));
      [apply list_elem_of_further, list_elem_of_here
      | vm_compute; lia | vm_compute; reflexivity..].
  - apply (latest_by_check _ _ _ (py "</HTML>"));
      [apply list_elem_of_further, list_elem_of_here
      | vm_compute; lia | vm_compute; reflexivity..].
  - vm_compute. reflexivity.
  - vm_compute. reflexivity.
  - vm_compute. discriminate.
Qed.

(** ** Email components *)

Lemma first_search_none (ic : bool) (ps : list pattern) (text : str) :
  first_search ic ps text = None
  ↔ Forall (λ p, re_search ic p text = None) ps.
Proof.
  induction ps as [|p ps IH]; cbn [first_search].
  - split; [intros _; apply Forall_nil_2 | done].
  - rewrite Forall_cons. destruct (re_search ic p text) as [m|]; [|tauto].
    split; [done | intros [? _]; done].
Qed.

Lemma pick_sender_generic (mappings : list (list str * str * str)) (content : str) :
  Forall (λ m, Forall (λ word, contains word content = false) m.1.1) mappings →
  pick_sender mappings content
  = (py "Support Team", py "support@fake-secureservices.net").
Proof.
  induction 1 as [|[[keywords name] email] mappings Hk _ IH]; [reflexivity|].
  cbn [pick_sender]. cbn [fst] in Hk.
  replace (existsb (λ word, contains word content) keywords) with false; [exact IH|].
  symmetry. clear -Hk. induction Hk as [|w ws Hw _ IHw]; [reflexivity|].
  cbn [existsb]. by rewrite Hw, IHw.
Qed.

Section components.
Context `{L : PyLower}.

(** The sender of the result, from what the sender patterns found. *)
Lemma extract_email_components_sender (html name email : str) :
  pick_sender industry_mappings (lower html) = (name, email) →
  let c := extract_email_components html in
  match first_search false sender_patterns html with
  | Some m =>
    if bool_decide (strip (group 2 m) = py "security@example.com")
    then c !! "sender_name" = Some name ∧ c !! "sender_email" = Some email
    else c !! "sender_name" = Some (strip (group 1 m))
         ∧ c !! "sender_email" = Some (strip (group 2 m))
  | None => c !! "sender_name" = Some name ∧ c !! "sender_email" = Some email
  end.
Proof.
  intros Hpick. cbv zeta.
  unfold extract_email_components, _generate_realistic_sender. rewrite Hpick.
  destruct (first_search false sender_patterns html) as [m|].
  - rewrite lookup_insert_eq.
    destruct (bool_decide (Some (strip (group 2 m))
                           = Some (py "security@example.com"))) eqn:Hd;
      [apply bool_decide_eq_true in Hd | apply bool_decide_eq_false in Hd].
    + rewrite bool_decide_eq_true_2 by congruence. cbv iota.
      rewrite lookup_insert_eq, lookup_insert_ne, lookup_insert_eq by discriminate.
      split; reflexivity.
    + rewrite bool_decide_eq_false_2 by congruence. cbv iota.
      rewrite lookup_insert_eq, lookup_insert_ne, lookup_insert_eq by discriminate.
      split; reflexivity.
  - destruct (first_search true subject_patterns html) as [ms|].
    + rewrite bool_decide_eq_true_2.
      2:{ rewrite !lookup_insert_ne by discriminate. apply lookup_singleton_eq. }
      cbv iota.
      rewrite lookup_insert_eq, lookup_insert_ne, lookup_insert_eq by discriminate.
      split; reflexivity.
    + rewrite bool_decide_eq_true_2.
      2:{ rewrite !lookup_insert_ne by discriminate. apply lookup_singleton_eq. }
      cbv iota.
      rewrite lookup_insert_eq, lookup_insert_ne, lookup_insert_eq by discriminate.
      split; reflexivity.
Qed.

Lemma extract_email_components_default_subject (html : str) :
  first_search true subject_patterns html = None →
  extract_email_components html !! "subject"
  = Some (py "Generated Phishing Email").
Proof.
  intros Hs. unfold extract_email_components, _generate_realistic_sender.
  rewrite Hs.
  destruct (pick_sender industry_mappings (lower html)) as [name email].
  destruct (first_search false sender_patterns html) as [m|];
    destruct (bool_decide _); rewrite ?lookup_insert_ne by discriminate;
    apply lookup_insert_eq.
Qed.

(** C5.  For every text, [extract_email_components] returns (it is a total
    function: nothing in it raises) a dictionary that holds exactly the
    three keys [subject], [sender_name] and [sender_email]; the subject is
    ["Generated Phishing Email"] when none of the three subject sources
    matches; and when no sender pattern matches and no keyword of any
    industry group occurs in the lowered text, the sender is the generic
    pair ["Support Team"], ["support@fake-secureservices.net"]. *)
Theorem extract_email_components_populated (html : str) :
  let c := extract_email_components html in
  dom c = ({["subject"; "sender_name"; "sender_email"]} : gset string)
  ∧ (∃ subject sender_name sender_email,
       c !! "subject" = Some subject
       ∧ c !! "sender_name" = Some sender_name
       ∧ c !! "sender_email" = Some sender_email)
  ∧ (Forall (λ p, re_search true p html = None) subject_patterns →
     c !! "subject" = Some (py "Generated Phishing Email"))
  ∧ (Forall (λ p, re_search false p html = None) sender_patterns →
     Forall (λ m, Forall (λ word, contains word (lower html) = false) m.1.1)
            industry_mappings →
     c !! "sender_name" = Some (py "Support Team")
     ∧ c !! "sender_email" = Some (py "support@fake-secureservices.net")).
Proof.
  cbv zeta. split; [apply extract_email_components_dom|]. split; [|split].
  - destruct (extract_email_components_lookup html "subject") as [s Hs];
      [set_solver|].
    destruct (extract_email_components_lookup html "sender_name") as [n Hn];
      [set_solver|].
    destruct (extract_email_components_lookup html "sender_email") as [e He];
      [set_solver|].
    by exists s, n, e.
  - intros Hs. apply extract_email_components_default_subject.
    by apply first_search_none.
  - intros Hs Hk. apply first_search_none in Hs.
    pose proof (extract_email_components_sender html _ _
                  (pick_sender_generic _ _ Hk)) as H.
    cbv zeta in H. rewrite Hs in H. exact H.
Qed.

(** C10.  The inference is gated on the address, not on whether a sender
    pattern matched.  When the first sender pattern that matches yields,
    once trimmed, the address [security@example.com], the matched name and
    address are dropped and the sender is the pair chosen by the industry
    keywords (the generic pair when no keyword occurs); with any other
    address the matched name and address are kept. *)
Theorem inference_gated_on_default_address
    (html : str) (m : list str) (name email : str) :
  first_search false sender_patterns html = Some m →
  pick_sender industry_mappings (lower html) = (name, email) →
  let c := extract_email_components html in
  (strip (group 2 m) = py "security@example.com" →
   c !! "sender_name" = Some name ∧ c !! "sender_email" = Some email)
  ∧ (strip (group 2 m) ≠ py "security@example.com" →
     c !! "sender_name" = Some (strip (group 1 m))
     ∧ c !! "sender_email" = Some (strip (group 2 m))).
Proof.
  intros Hm Hp. cbv zeta.
  pose proof (extract_email_components_sender html name email Hp) as H.
  cbv zeta in H. rewrite Hm in H. split; intros Hg.
  - rewrite bool_decide_eq_true_2 in H by exact Hg. exact H.
  - rewrite bool_decide_eq_false_2 in H by exact Hg. exact H.
Qed.
End components.

(** The statement at a text with no subject, no sender and no keyword. *)
Lemma extract_email_components_populated_witness :
  let html := py "<p>Hello there</p>" in
  let c := @extract_email_components ascii_lower html in
  Forall (λ p, re_search true p html = None) subject_patterns
  ∧ Forall (λ p, re_search false p html = None) sender_patterns
  ∧ Forall (λ m, Forall (λ word, contains word (@lower ascii_lower html) = false)
                        m.1.1) industry_mappings
  ∧ dom c = ({["subject"; "sender_name"; "sender_email"]} : gset string)
  ∧ c !! "subject" = Some (py "Generated Phishing Email")
  ∧ c !! "sender_name" = Some (py "Support Team")
  ∧ c !! "sender_email" = Some (py "support@fake-secureservices.net").
Proof.
  intros html c.
  assert (Hsub : Forall (λ p, re_search true p html = None) subject_patterns)
    by (repeat constructor; vm_compute; reflexivity).
  assert (Hsen : Forall (λ p, re_search false p html = None) sender_patterns)
    by (repeat constructor; vm_compute; reflexivity).
  assert (Hkey : Forall (λ m, Forall (λ word,
                     contains word (@lower ascii_lower html) = false) m.1.1)
                   industry_mappings)
    by (repeat constructor; vm_compute; reflexivity).
  destruct (extract_email_components_populated (L := ascii_lower) html)
    as (Hdom & _ & Hsubject & Hsender).
  repeat (split; [assumption|]).
  split; [exact (Hsubject Hsub)|]. exact (Hsender Hsen Hkey).
Defined.

(** The statement at a sender comment with the default address: the name
    [Jane Doe] is matched and dropped. *)
Lemma inference_gated_on_default_address_witness :
  let m := [py "Jane Doe "; py "security@example.com"] in
  let c := @extract_email_components ascii_lower default_address_comment in
  first_search false sender_patterns default_address_comment = Some m
  ∧ strip (group 1 m) = py "Jane Doe"
  ∧ strip (group 2 m) = py "security@example.com"
  ∧ pick_sender industry_mappings (@lower ascii_lower default_address_comment)
    = (py "Support Team", py "support@fake-secureservices.net")
  ∧ c !! "sender_name" = Some (py "Support Team")
  ∧ c !! "sender_email" = Some (py "support@fake-secureservices.net").
Proof.
  intros m c.
  assert (Hm : first_search false sender_patterns default_address_comment = Some m)
    by (vm_compute; reflexivity).
  assert (Hg : strip (group 2 m) = py "security@example.com")
    by (vm_compute; reflexivity).
  assert (Hp : pick_sender industry_mappings
                 (@lower ascii_lower default_address_comment)
               = (py "Support Team", py "support@fake-secureservices.net"))
    by (vm_compute; reflexivity).
  split; [exact Hm|]. split; [vm_compute; reflexivity|].
  split; [exact Hg|]. split; [exact Hp|].
  exact (proj1 (inference_gated_on_default_address (L := ascii_lower)
                  default_address_comment m _ _ Hm Hp) Hg).
Defined.

(** An evaluation: a sender comment with another address is taken as it
    is. *)
Example extract_sender_comment :
  let c := @extract_email_components ascii_lower
             (py "<!-- From: Jane Doe <jane@fake-bank.com> -->") in
  c !! "sender_name" = Some (py "Jane Doe")
  ∧ c !! "sender_email" = Some (py "jane@fake-bank.com").
Proof. vm_compute. split; reflexivity. Qed.

(** Two evaluations of the matcher where it has to backtrack as [re] does:
    the greedy [\s*] after [From:] gives a space back to the name group,
    whose trimmed text is then empty; and the tags inside a title are
    removed from the subject. *)
Example extract_backtracking :
  let c := @extract_email_components ascii_lower
             (py "<!-- From:  <a@b> --><title>x<b>y</b></title>") in
  c !! "sender_name" = Some []
  ∧ c !! "sender_email" = Some (py "a@b")
  ∧ c !! "subject" = Some (py "xy").
Proof. vm_compute. repeat split. Qed.

(** ** The fallback document *)

(** The functions that lower a text depend on [lower] only through the
    texts they lower. *)
Lemma create_fallback_template_ext (L1 L2 : PyLower)
    (request_data : gmap string str) :
  @lower L1 (default (py "Technology") (request_data !! "target_industry"))
  = @lower L2 (default (py "Technology") (request_data !! "target_industry")) →
  @create_fallback_template L1 request_data
  = @create_fallback_template L2 request_data.
Proof.
  intros H. unfold create_fallback_template. rewrite H. reflexivity.
Qed.

Lemma extract_html_from_response_ext (L1 L2 : PyLower) (text : str) :
  contains (py "<!DOCTYPE") text = true →
  @extract_html_from_response L1 text = @extract_html_from_response L2 text.
Proof.
  intros H. unfold extract_html_from_response. rewrite H. reflexivity.
Qed.

Lemma extract_email_components_ext (L1 L2 : PyLower) (html : str) :
  @lower L1 html = @lower L2 html →
  @extract_email_components L1 html = @extract_email_components L2 html.
Proof.
  intros H. unfold extract_email_components, _generate_realistic_sender.
  rewrite H. reflexivity.
Qed.

Lemma validate_html_safety_ext (L1 L2 : PyLower) (html : str) :
  @lower L1 html = @lower L2 html →
  Forall (λ url, @lower L1 url = @lower L2 url) (urls_of html) →
  @validate_html_safety L1 html = @validate_html_safety L2 html.
Proof.
  intros Hh Hu. unfold validate_html_safety. rewrite Hh.
  fold (urls_of html).
  rewrite (List.filter_ext_in
             (λ url, negb (existsb (λ fake, contains fake (@lower L1 url)) fake_markers))
             (λ url, negb (existsb (λ fake, contains fake (@lower L2 url)) fake_markers))
             (urls_of html)).
  - reflexivity.
  - intros url Hin. rewrite Forall_forall in Hu.
    rewrite (Hu url); [reflexivity|]. by apply list_elem_of_In.
Qed.

Lemma safe_check (r : bool * list issue) :
  match r with
  | (true, []) => true
  | _ => false
  end = true →
  r = (true, []).
Proof. destruct r as [[|] [|? ?]]; done. Qed.

(** The check holds for every request: one evaluation for each scenario
    and industry (the document does not depend on the urgency or the
    tone). *)
Lemma round_trip_check_all (s : ScenarioType) (i : TargetIndustry)
    (u : UrgencyLevel) (t : ToneStyle) :
  round_trip_check
    {[ "scenario_type" := value s; "target_industry" := value i;
       "urgency_level" := value u; "tone_style" := value t ]} (value i) = true.
Proof. destruct s, i; vm_compute; reflexivity. Qed.

(** C2.  For every scenario, industry, urgency and tone, and for a
    [str.lower()] that folds ASCII on plain text: the fallback document
    holds the comment [<!-- From: Name <address> -->] with the name and
    address of the industry's table entry; HTML extraction returns the
    document; component extraction on it yields exactly that name and
    address; and the safety validation of the document answers safe, with
    an empty issue list. *)
Theorem fallback_round_trip (L : PyLower) (s : ScenarioType)
    (i : TargetIndustry) (u : UrgencyLevel) (t : ToneStyle) :
  folds_ascii L →
  let request_data : gmap string str :=
    {[ "scenario_type" := value s; "target_industry" := value i;
       "urgency_level" := value u; "tone_style" := value t ]} in
  let html := @create_fallback_template L request_data in
  let sender := get_fallback_sender_info (value i) in
  contains (py "<!-- From: " ++ sender.1 ++ py " <" ++ sender.2 ++ py "> -->")
           html = true
  ∧ ∃ doc,
      @extract_html_from_response L html = Some doc
      ∧ doc = html
      ∧ @extract_email_components L doc !! "sender_name" = Some sender.1
      ∧ @extract_email_components L doc !! "sender_email" = Some sender.2
      ∧ @validate_html_safety L doc = (true, []).
Proof.
  intros Hfold request_data html sender.
  pose proof (round_trip_check_all s i u t) as Hc.
  unfold round_trip_check in Hc. cbv zeta in Hc.
  fold request_data in Hc. fold sender in Hc.
  set (html_a := @create_fallback_template ascii_lower request_data) in Hc.
  repeat (apply andb_prop in Hc as [Hc ?]).
  apply bool_decide_eq_true in Hc.
  repeat match goal with
         | H : bool_decide _ = true |- _ => apply bool_decide_eq_true in H
         end.
  assert (Hhtml : html = html_a).
  { apply create_fallback_template_ext. unfold request_data.
    rewrite lookup_insert_ne, lookup_insert_eq by discriminate.
    cbn [default]. by apply Hfold. }
  assert (Hlow : @lower L html_a = @lower ascii_lower html_a) by (by apply Hfold).
  assert (Hurls : Forall (λ url, @lower L url = @lower ascii_lower url)
                         (urls_of html_a)).
  { apply Forall_forall. intros url Hin. apply Hfold.
    match goal with
    | H : forallb plainb (urls_of html_a) = true |- _ =>
      rewrite forallb_forall in H; apply H
    end.
    by apply list_elem_of_In. }
  rewrite Hhtml. split; [assumption|].
  exists html_a.
  rewrite (extract_html_from_response_ext L ascii_lower) by assumption.
  rewrite (extract_email_components_ext L ascii_lower) by assumption.
  rewrite (validate_html_safety_ext L ascii_lower) by assumption.
  split; [assumption|]. split; [reflexivity|].
  split; [assumption|]. split; [assumption|].
  by apply safe_check.
Qed.

(** ASCII folding folds ASCII. *)
Lemma folds_ascii_ascii_lower : folds_ascii ascii_lower.
Proof. intros s _. reflexivity. Qed.

(** The statement at a sample request, with ASCII folding for [lower]. *)
Lemma fallback_round_trip_witness :
  let html := @create_fallback_template ascii_lower sample_request_data in
  let sender := get_fallback_sender_info (value BANKING) in
  folds_ascii ascii_lower
  ∧ contains (py "<!-- From: " ++ sender.1 ++ py " <" ++ sender.2 ++ py "> -->")
             html = true
  ∧ ∃ doc,
      @extract_html_from_response ascii_lower html = Some doc
      ∧ doc = html
      ∧ @extract_email_components ascii_lower doc !! "sender_name" = Some sender.1
      ∧ @extract_email_components ascii_lower doc !! "sender_email" = Some sender.2
      ∧ @validate_html_safety ascii_lower doc = (true, []).
Proof.
  intros html sender. split; [exact folds_ascii_ascii_lower|].
  exact (fallback_round_trip ascii_lower PASSWORD_RESET BANKING HIGH URGENT
           folds_ascii_ascii_lower).
Defined.

(** * Further properties *)

(** ** Enumerations: values and members *)

Lemma of_value_sound `{PyEnum A} (v : str) (m : A) :
  of_value v = Some m → value m = v.
Proof.
  unfold of_value. intros Hf. apply find_some in Hf as [_ Hb].
  by apply bool_decide_eq_true in Hb.
Qed.

Lemma of_value_scenario (m : ScenarioType) : of_value (value m) = Some m.
Proof. destruct m; vm_compute; reflexivity. Qed.

Lemma of_value_industry (m : TargetIndustry) : of_value (value m) = Some m.
Proof. destruct m; vm_compute; reflexivity. Qed.

Lemma of_value_urgency (m : UrgencyLevel) : of_value (value m) = Some m.
Proof. destruct m; vm_compute; reflexivity. Qed.

Lemma of_value_tone (m : ToneStyle) : of_value (value m) = Some m.
Proof. destruct m; vm_compute; reflexivity. Qed.

Lemma of_value_language (m : Language) : of_value (value m) = Some m.
Proof. destruct m; vm_compute; reflexivity. Qed.

Lemma of_value_tactic (m : PhishingTactic) : of_value (value m) = Some m.
Proof. destruct m; vm_compute; reflexivity. Qed.

(** X1.  The six enumerations round-trip through their string values:
    looking a member's value up gives that member back (the values of an
    enumeration are pairwise distinct), and whatever a lookup finds has the
    value looked up. *)
Theorem enum_value_round_trip :
  (∀ m : ScenarioType, of_value (value m) = Some m)
  ∧ (∀ m : TargetIndustry, of_value (value m) = Some m)
  ∧ (∀ m : UrgencyLevel, of_value (value m) = Some m)
  ∧ (∀ m : ToneStyle, of_value (value m) = Some m)
  ∧ (∀ m : Language, of_value (value m) = Some m)
  ∧ (∀ m : PhishingTactic, of_value (value m) = Some m)
  ∧ (∀ (A : Type) (E : PyEnum A) (v : str) (m : A),
       of_value v = Some m ↔ (value m = v ∧ of_value (value m) = Some m)).
Proof.
  repeat (split; [first [exact of_value_scenario | exact of_value_industry
                        | exact of_value_urgency | exact of_value_tone
                        | exact of_value_language | exact of_value_tactic]|]).
  intros A E v m. split.
  - intros Hf. pose proof (of_value_sound v m Hf) as Hv. split; [exact Hv|].
    by rewrite Hv.
  - intros [<- Hf]. exact Hf.
Qed.

(** ** The monad *)

Lemma bind_ret_l {A B : Type} (a : A) (f : A → M B) : bind (ret a) f = f a.
Proof. reflexivity. Qed.

Lemma bind_raise_l {A B : Type} (e : str) (f : A → M B) :
  bind (raise e) f = raise e.
Proof. reflexivity. Qed.

Lemma parse_value_some `{PyEnum A} (v : str) (m : A) :
  of_value v = Some m → parse v = ret m.
Proof. unfold parse. by intros ->. Qed.

Lemma parse_value_none `{E : PyEnum A} (v : str) :
  of_value (A := A) v = None →
  parse (A := A) v = raise (py "'" ++ v ++ py "' is not a valid " ++ enum_name).
Proof. unfold parse. by intros ->. Qed.

(** ** The store *)

(** X2.  [delete_template] on an identifier of the store answers [True],
    removes that entry and no other (the store has one template less) and
    leaves the history alone; on any other identifier it answers [False]
    and changes nothing. *)
Theorem delete_template_removes_one (template_id : str) (ts : TemplateService) :
  let r := delete_template template_id ts in
  generation_history (snd r) = generation_history ts
  ∧ get_template template_id (snd r) = None
  ∧ (∀ k, k ≠ template_id → get_template k (snd r) = get_template k ts)
  ∧ match get_template template_id ts with
    | Some _ => fst r = true
                ∧ S (size (templates (snd r))) = size (templates ts)
    | None => fst r = false ∧ snd r = ts
    end.
Proof.
  cbv zeta. unfold delete_template, get_template.
  destruct (templates ts !! template_id) as [t|] eqn:E; cbn [fst snd].
  - cbn [templates generation_history]. split; [reflexivity|].
    split; [apply lookup_delete_eq|]. split.
    + intros k Hk. by apply lookup_delete_ne.
    + split; [reflexivity|].
      rewrite map_size_delete, E.
      assert (size (templates ts) ≠ 0%nat); [|lia].
      intros Hz. apply map_size_empty_inv in Hz. rewrite Hz in E. done.
  - repeat split. exact E.
Qed.

(** ** One attempt, path by path *)

Section service.
Context `{L : PyLower}.

Lemma make_template_built env request html w :
  ∃ t,
    make_template env request (uuid4 env) (extract_email_components html)
      html (end_clock env - start_clock env) (calculate_word_count html) w
    = (Return t, w)
    ∧ built_from env request html t.
Proof.
  destruct (extract_email_components_lookup html "subject") as [s Hs];
    [set_solver|].
  destruct (extract_email_components_lookup html "sender_name") as [n Hn];
    [set_solver|].
  destruct (extract_email_components_lookup html "sender_email") as [e He];
    [set_solver|].
  unfold make_template, bind, getitem. rewrite Hs, Hn, He. unfold ret.
  eexists. split; [reflexivity|].
  unfold built_from, echoes.
  rewrite Hs, Hn, He.
  repeat (split; [reflexivity|]).
  split; [|reflexivity].
  change (EmailTemplate.phishing_tactic _) with
    (match PhishingRequest.phishing_tactic request with
     | Some tactic => if truthy (value tactic) then Some (value tactic) else None
     | None => None
     end).
  destruct (PhishingRequest.phishing_tactic request) as [t|]; [|reflexivity].
  rewrite truthy_value_tactic. reflexivity.
Qed.

Lemma built_template_run env request html w :
  ∃ t,
    (template <- make_template env request (uuid4 env)
                   (extract_email_components html) html
                   (end_clock env - start_clock env)
                   (calculate_word_count html) ;;
     _ <- store_template (uuid4 env) template ;;
     _ <- _record_generation_history env request (Some (uuid4 env)) true None
            (end_clock env - start_clock env) ;;
     ret (success_response template (end_clock env - start_clock env))) w
    = (Return (success_response t (end_clock env - start_clock env)),
       after_success env request t w)
    ∧ built_from env request html t.
Proof.
  destruct (make_template_built env request html w) as (t & Ht & Hb).
  unfold bind at 1. rewrite Ht.
  unfold bind, store_template, _record_generation_history, ret. cbn.
  rewrite cap_drop.
  exists t. split; [reflexivity|exact Hb].
Qed.

Lemma _handle_fallback_generation_run env request w :
  ∃ t,
    _handle_fallback_generation env request (uuid4 env) (start_clock env) w
    = (Return (success_response t (end_clock env - start_clock env)),
       after_success env request t w)
    ∧ built_from env request (create_fallback_template (request_dict request)) t.
Proof.
  unfold _handle_fallback_generation, try_except.
  destruct (built_template_run env request
              (create_fallback_template (request_dict request)) w)
    as (t & Hrun & Hb).
  cbv zeta. unfold request_dict in Hrun. rewrite Hrun.
  exists t. split; [reflexivity|exact Hb].
Qed.

(** The document an attempt works with: the one extracted from the
    client's answer when it is not empty, the synthesized one otherwise. *)
Lemma generate_template_unavailable env request w :
  client (anthropic_service env) = None →
  generate_template env request w
  = _handle_fallback_generation env request (uuid4 env) (start_clock env) w.
Proof.
  intros Hc.
  unfold generate_template, try_except. cbv zeta.
  unfold bind at 1. unfold _validate_request.
  rewrite truthy_value_scenario, truthy_value_industry. cbn [negb orb ret].
  unfold is_available. rewrite Hc. cbn [negb].
  destruct (_handle_fallback_generation_run env request w) as (t & -> & _).
  reflexivity.
Qed.

Lemma generate_template_raised env request complete e w :
  client (anthropic_service env) = Some complete →
  complete request = Raise e →
  generate_template env request w
  = (Return (failure_response (py "Failed to generate template: " ++ e)
               (end_clock env - start_clock env)),
     after_failure env request (py "Failed to generate template: " ++ e)
       (consulted request w)).
Proof.
  intros Hc He.
  unfold generate_template, try_except. cbv zeta.
  unfold bind at 1. unfold _validate_request.
  rewrite truthy_value_scenario, truthy_value_industry. cbn [negb orb ret].
  unfold is_available. rewrite Hc. cbn [negb].
  unfold bind at 1. unfold generate_content. rewrite Hc, He.
  unfold bind, _record_generation_history, ret. cbn. rewrite cap_drop.
  reflexivity.
Qed.

Lemma generate_template_unusable env request complete text w :
  client (anthropic_service env) = Some complete →
  complete request = Return text →
  (extract_html_from_response text = None
   ∨ extract_html_from_response text = Some []) →
  generate_template env request w
  = _handle_fallback_generation env request (uuid4 env) (start_clock env)
      (consulted request w).
Proof.
  intros Hc He Hx.
  unfold generate_template, try_except. cbv zeta.
  unfold bind at 1. unfold _validate_request.
  rewrite truthy_value_scenario, truthy_value_industry. cbn [negb orb ret].
  unfold is_available. rewrite Hc. cbn [negb].
  unfold bind at 1. unfold generate_content. rewrite Hc, He.
  fold (consulted request w).
  destruct (_handle_fallback_generation_run env request (consulted request w))
    as (t & Hrun & _).
  destruct Hx as [-> | ->]; rewrite Hrun; reflexivity.
Qed.

Lemma generate_template_usable env request complete text html w :
  client (anthropic_service env) = Some complete →
  complete request = Return text →
  extract_html_from_response text = Some html →
  html ≠ [] →
  ∃ t,
    generate_template env request w
    = (Return (success_response t (end_clock env - start_clock env)),
       after_success env request t (consulted request w))
    ∧ built_from env request html t.
Proof.
  intros Hc He Hx Hne.
  unfold generate_template, try_except. cbv zeta.
  unfold bind at 1. unfold _validate_request.
  rewrite truthy_value_scenario, truthy_value_industry. cbn [negb orb ret].
  unfold is_available. rewrite Hc. cbn [negb].
  unfold bind at 1. unfold generate_content. rewrite Hc, He.
  fold (consulted request w). rewrite Hx.
  destruct html as [|c html]; [done|].
  destruct (validate_html_safety (c :: html)) as [is_safe issues].
  destruct (built_template_run env request (c :: html) (consulted request w))
    as (t & Hrun & Hb).
  rewrite Hrun. exists t. split; [reflexivity|exact Hb].
Qed.

Lemma generate_template_cases env request w :
  ∃ w0, (w0 = w ∨ w0 = consulted request w)
    ∧ ((∃ t html,
          generate_template env request w
          = (Return (success_response t (end_clock env - start_clock env)),
             after_success env request t w0)
          ∧ built_from env request html t)
       ∨ (∃ msg,
            generate_template env request w
            = (Return (failure_response msg (end_clock env - start_clock env)),
               after_failure env request msg w0))).
Proof.
  destruct (client (anthropic_service env)) as [complete|] eqn:Hc.
  2:{ exists w. split; [by left|]. left.
      rewrite (generate_template_unavailable env request w Hc).
      destruct (_handle_fallback_generation_run env request w) as (t & Hr & Hb).
      eauto. }
  exists (consulted request w). split; [by right|].
  destruct (complete request) as [e|text] eqn:He.
  { right. eexists. exact (generate_template_raised env request complete e w Hc He). }
  left.
  destruct (extract_html_from_response text) as [[|c html]|] eqn:Hx.
  - rewrite (generate_template_unusable env request complete text w Hc He);
      [|by right].
    destruct (_handle_fallback_generation_run env request (consulted request w))
      as (t & Hr & Hb). eauto.
  - destruct (generate_template_usable env request complete text (c :: html) w
                Hc He Hx) as (t & Hr & Hb); [done|]. eauto.
  - rewrite (generate_template_unusable env request complete text w Hc He);
      [|by left].
    destruct (_handle_fallback_generation_run env request (consulted request w))
      as (t & Hr & Hb). eauto.
Qed.

(** X3.  When the client is available and raises, [generate_template]
    returns a failure whose message is "Failed to generate template: "
    followed by the exception's text.  Nothing is stored, the failure is
    recorded in the history, and the synthesized fallback document is not
    used on this path. *)
Theorem generate_template_client_error
    (env : Env) (request : PhishingRequest.t)
    (complete : PhishingRequest.t → result str) (e : str) (w : World) :
  client (anthropic_service env) = Some complete →
  complete request = Raise e →
  let msg := py "Failed to generate template: " ++ e in
  generate_template env request w
  = (Return (failure_response msg (end_clock env - start_clock env)),
     after_failure env request msg (consulted request w))
  ∧ store_of (snd (generate_template env request w)) = store_of w.
Proof.
  intros Hc He msg.
  rewrite (generate_template_raised env request complete e w Hc He).
  split; reflexivity.
Qed.


(** X4.  When the client is not available, or its answer holds no
    document (none found, or an empty one), [generate_template] succeeds
    with the synthesized document: the template stored and returned is
    built from [create_fallback_template] on the request's four values,
    with the components extracted from that document. *)
Theorem generate_template_fallback_document
    (env : Env) (request : PhishingRequest.t) (w : World) :
  (client (anthropic_service env) = None
   ∨ ∃ complete text,
       client (anthropic_service env) = Some complete
       ∧ complete request = Return text
       ∧ (extract_html_from_response text = None
          ∨ extract_html_from_response text = Some [])) →
  ∃ t,
    generate_template env request w
    = (Return (success_response t (end_clock env - start_clock env)),
       after_success env request t
         (if is_available (anthropic_service env)
          then consulted request w else w))
    ∧ built_from env request (create_fallback_template (request_dict request)) t.
Proof.
  unfold is_available.
  intros [Hc | (complete & text & Hc & He & Hx)]; rewrite Hc.
  - rewrite (generate_template_unavailable env request w Hc).
    apply _handle_fallback_generation_run.
  - rewrite (generate_template_unusable env request complete text w Hc He Hx).
    apply _handle_fallback_generation_run.
Qed.


(** X5.  When the client's answer holds a document that is not empty, the
    template stored and returned carries exactly that document, with the
    components extracted from it.  The safety validation has no part in
    this: a document with safety issues is stored like any other. *)
Theorem generate_template_keeps_extracted_document
    (env : Env) (request : PhishingRequest.t)
    (complete : PhishingRequest.t → result str) (text html : str) (w : World) :
  client (anthropic_service env) = Some complete →
  complete request = Return text →
  extract_html_from_response text = Some html →
  html ≠ [] →
  ∃ t,
    generate_template env request w
    = (Return (success_response t (end_clock env - start_clock env)),
       after_success env request t (consulted request w))
    ∧ built_from env request html t
    ∧ get_template (uuid4 env)
        (template_service (snd (generate_template env request w))) = Some t
    ∧ EmailTemplate.html_content t = html.
Proof.
  intros Hc He Hx Hne.
  destruct (generate_template_usable env request complete text html w
              Hc He Hx Hne) as (t & Hr & Hb).
  exists t. rewrite Hr. split; [reflexivity|]. split; [exact Hb|].
  split.
  - unfold get_template, after_success. cbn [snd template_service templates].
    apply lookup_insert_eq.
  - apply Hb.
Qed.


(** X6.  One call of [generate_template] consults the client exactly once,
    with the request it was given, when the client is available, and not at
    all when it is not; earlier consultations stay on record. *)
Theorem generate_template_consults_client_once
    (env : Env) (request : PhishingRequest.t) (w : World) :
  model_calls (snd (generate_template env request w))
  = model_calls w
    ++ (if is_available (anthropic_service env) then [request] else []).
Proof.
  unfold is_available.
  destruct (client (anthropic_service env)) as [complete|] eqn:Hc.
  - destruct (complete request) as [e|text] eqn:He.
    { rewrite (generate_template_raised env request complete e w Hc He).
      reflexivity. }
    destruct (extract_html_from_response text) as [[|c html]|] eqn:Hx.
    + rewrite (generate_template_unusable env request complete text w Hc He);
        [|by right].
      destruct (_handle_fallback_generation_run env request
                  (consulted request w)) as (t & -> & _). reflexivity.
    + destruct (generate_template_usable env request complete text (c :: html)
                  w Hc He Hx) as (t & -> & _); [done|]. reflexivity.
    + rewrite (generate_template_unusable env request complete text w Hc He);
        [|by left].
      destruct (_handle_fallback_generation_run env request
                  (consulted request w)) as (t & -> & _). reflexivity.
  - rewrite (generate_template_unavailable env request w Hc).
    destruct (_handle_fallback_generation_run env request w) as (t & -> & _).
    rewrite app_nil_r. reflexivity.
Qed.

(** X7.  After [generate_template], looking the drawn identifier up with
    [get_template] gives the template of a successful result, which is also
    among [get_all_templates]; every other identifier answers as before.
    After a failed result every identifier answers as before. *)
Theorem get_template_after_generate
    (env : Env) (request : PhishingRequest.t) (w : World) :
  let r := generate_template env request w in
  ∃ resp, fst r = Return resp
    ∧ (∀ k, k ≠ uuid4 env →
         get_template k (template_service (snd r))
         = get_template k (template_service w))
    ∧ match GenerationResponse.template resp with
      | Some t =>
        GenerationResponse.success resp = true
        ∧ get_template (uuid4 env) (template_service (snd r)) = Some t
        ∧ t ∈ get_all_templates (template_service (snd r))
      | None =>
        GenerationResponse.success resp = false
        ∧ get_template (uuid4 env) (template_service (snd r))
          = get_template (uuid4 env) (template_service w)
      end.
Proof.
  cbv zeta.
  destruct (generate_template_cases env request w)
    as (w0 & Hw0 & [(t & html & -> & Hb) | (msg & ->)]);
    assert (Hs : store_of w0 = store_of w) by (by destruct Hw0 as [-> | ->]);
    eexists; (split; [reflexivity|]);
    unfold get_template, after_success, after_failure;
    cbn [fst snd template_service templates GenerationResponse.template
         GenerationResponse.success success_response failure_response].
  - split.
    + intros k Hk. rewrite lookup_insert_ne by done. by rewrite Hs.
    + split; [reflexivity|]. split; [apply lookup_insert_eq|].
      unfold get_all_templates. cbn [templates].
      apply list_elem_of_fmap. exists (uuid4 env, t). split; [reflexivity|].
      apply elem_of_map_to_list. apply lookup_insert_eq.
  - rewrite Hs. split; [reflexivity|]. split; reflexivity.
Qed.

(** ** Regeneration *)

Lemma generate_template_returns env request w :
  ∃ resp w', generate_template env request w = (Return resp, w').
Proof.
  destruct (generate_template_cases env request w)
    as (w0 & _ & [(t & html & -> & _) | (msg & ->)]); eauto.
Qed.

Lemma regenerate_template_echo env template_id t r w :
  store_of w !! template_id = Some t →
  echoes t r →
  regenerate_template env template_id w = generate_template env r w.
Proof.
  intros Hl (H1 & H2 & H3 & H4 & H5 & H6 & H7).
  unfold regenerate_template, get_template. fold (store_of w). rewrite Hl.
  rewrite H1, H2, H3, H4, H5, H6, H7.
  rewrite (parse_value_some _ _ (of_value_scenario _)), bind_ret_l.
  rewrite (parse_value_some _ _ (of_value_industry _)), bind_ret_l.
  rewrite (parse_value_some _ _ (of_value_urgency _)), bind_ret_l.
  rewrite (parse_value_some _ _ (of_value_tone _)), bind_ret_l.
  rewrite (parse_value_some _ _ (of_value_language _)), bind_ret_l.
  destruct r as [sc ind urg tone lang tac adv].
  cbn [PhishingRequest.scenario_type PhishingRequest.target_industry
       PhishingRequest.urgency_level PhishingRequest.tone_style
       PhishingRequest.language PhishingRequest.phishing_tactic
       PhishingRequest.advanced_mode].
  destruct tac as [tac|]; cbn [fmap option_fmap option_map].
  - rewrite truthy_value_tactic.
    rewrite (parse_value_some _ _ (of_value_tactic _)), !bind_ret_l.
    unfold try_except.
    destruct (generate_template_returns env
                (PhishingRequest.Build_t sc ind urg tone lang (Some tac) adv) w)
      as (resp & w' & ->). reflexivity.
  - rewrite bind_ret_l. unfold try_except.
    destruct (generate_template_returns env
                (PhishingRequest.Build_t sc ind urg tone lang None adv) w)
      as (resp & w' & ->). reflexivity.
Qed.

(** The stored strings from which [regenerate_template] cannot rebuild a
    request: the first one, in the order of the conversions, that is no
    member's value, with the name of its enumeration. *)
Lemma regenerate_template_parse env template_id t w :
  store_of w !! template_id = Some t →
  (∃ r, regenerate_template env template_id w = generate_template env r w)
  ∨ (∃ v name,
       regenerate_template env template_id w
       = (Return (failure_response
                    (py "Error regenerating template: " ++ py "'" ++ v
                     ++ py "' is not a valid " ++ name) 0), w)
       ∧ ((v = EmailTemplate.scenario_type t
           ∧ of_value (A := ScenarioType) v = None)
          ∨ (v = EmailTemplate.target_industry t
             ∧ of_value (A := TargetIndustry) v = None)
          ∨ (v = EmailTemplate.urgency_level t
             ∧ of_value (A := UrgencyLevel) v = None)
          ∨ (v = EmailTemplate.tone_style t
             ∧ of_value (A := ToneStyle) v = None)
          ∨ (v = EmailTemplate.language t
             ∧ of_value (A := Language) v = None)
          ∨ (EmailTemplate.phishing_tactic t = Some v ∧ v ≠ []
             ∧ of_value (A := PhishingTactic) v = None))).
Proof.
  intros Hl.
  unfold regenerate_template, get_template. fold (store_of w). rewrite Hl.
  destruct (of_value (A := ScenarioType) (EmailTemplate.scenario_type t))
    as [sc|] eqn:E1.
  2:{ right. rewrite (parse_value_none _ E1), bind_raise_l.
      eexists _, _. split; [reflexivity|]. left. by split. }
  rewrite (parse_value_some _ _ E1), bind_ret_l.
  destruct (of_value (A := TargetIndustry) (EmailTemplate.target_industry t))
    as [ind|] eqn:E2.
  2:{ right. rewrite (parse_value_none _ E2), bind_raise_l.
      eexists _, _. split; [reflexivity|]. right; left. by split. }
  rewrite (parse_value_some _ _ E2), bind_ret_l.
  destruct (of_value (A := UrgencyLevel) (EmailTemplate.urgency_level t))
    as [urg|] eqn:E3.
  2:{ right. rewrite (parse_value_none _ E3), bind_raise_l.
      eexists _, _. split; [reflexivity|]. do 2 right; left. by split. }
  rewrite (parse_value_some _ _ E3), bind_ret_l.
  destruct (of_value (A := ToneStyle) (EmailTemplate.tone_style t))
    as [tone|] eqn:E4.
  2:{ right. rewrite (parse_value_none _ E4), bind_raise_l.
      eexists _, _. split; [reflexivity|]. do 3 right; left. by split. }
  rewrite (parse_value_some _ _ E4), bind_ret_l.
  destruct (of_value (A := Language) (EmailTemplate.language t))
    as [lang|] eqn:E5.
  2:{ right. rewrite (parse_value_none _ E5), bind_raise_l.
      eexists _, _. split; [reflexivity|]. do 4 right; left. by split. }
  rewrite (parse_value_some _ _ E5), bind_ret_l.
  assert (Hgen : ∀ tac,
    ∃ r, try_except
           (generate_template env
              (PhishingRequest.Build_t sc ind urg tone lang tac
                 (EmailTemplate.advanced_mode t)))
           (fun e => ret (failure_response
                            (py "Error regenerating template: " ++ e) 0)) w
         = generate_template env r w).
  { intros tac.
    exists (PhishingRequest.Build_t sc ind urg tone lang tac
              (EmailTemplate.advanced_mode t)).
    unfold try_except.
    destruct (generate_template_returns env
                (PhishingRequest.Build_t sc ind urg tone lang tac
                   (EmailTemplate.advanced_mode t)) w)
      as (resp & w' & ->). reflexivity. }
  destruct (EmailTemplate.phishing_tactic t) as [v|] eqn:E6.
  2:{ left. rewrite bind_ret_l. apply Hgen. }
  destruct v as [|c v]; cbn [truthy].
  { left. rewrite bind_ret_l. apply Hgen. }
  destruct (of_value (A := PhishingTactic) (c :: v)) as [tac|] eqn:E7.
  - left. rewrite (parse_value_some _ _ E7), !bind_ret_l. apply Hgen.
  - right. rewrite (parse_value_none _ E7), !bind_raise_l.
    eexists _, _. split; [reflexivity|]. do 5 right. by split.
Qed.

(** X8.  Regenerating a stored template that carries the parameters of a
    request is the same as a generation for that request: same result, same
    effect on the store, the history and the client, under a new
    identifier. *)
Theorem regenerate_template_is_generate
    (env : Env) (template_id : str) (t : EmailTemplate.t)
    (r : PhishingRequest.t) (w : World) :
  get_template template_id (template_service w) = Some t →
  echoes t r →
  regenerate_template env template_id w = generate_template env r w.
Proof. apply regenerate_template_echo. Qed.


(** ** Reachable states *)

Lemma appended_length h e : (length (appended h e) ≤ 1000)%nat.
Proof. unfold appended. rewrite length_drop. lia. Qed.

Lemma well_formed_generate env request w :
  well_formed w → well_formed (snd (generate_template env request w)).
Proof.
  intros [Hst Hh].
  destruct (generate_template_cases env request w)
    as (w0 & Hw0 & [(t & html & -> & Hb) | (msg & ->)]);
    assert (Hs : store_of w0 = store_of w) by (by destruct Hw0 as [-> | ->]);
    cbn [snd]; split;
    unfold after_success, after_failure, store_of, history_of;
    cbn [template_service templates generation_history];
    try apply appended_length.
  - intros k t' Hk. fold (store_of w0) in Hk. rewrite Hs in Hk.
    destruct (decide (k = uuid4 env)) as [->|Hne].
    + rewrite lookup_insert_eq in Hk. injection Hk as <-.
      destruct Hb as (Hid & _ & _ & _ & _ & _ & _ & _ & He).
      split; [exact Hid|]. by exists request.
    + rewrite lookup_insert_ne in Hk by done. by apply Hst.
  - intros k t' Hk. fold (store_of w0) in Hk. rewrite Hs in Hk. by apply Hst.
Qed.

Lemma well_formed_regenerate env template_id w :
  well_formed w → well_formed (snd (regenerate_template env template_id w)).
Proof.
  intros Hw.
  destruct (store_of w !! template_id) as [t|] eqn:Hl.
  - destruct (regenerate_template_parse env template_id t w Hl)
      as [(r & ->) | (v & name & -> & _)].
    + by apply well_formed_generate.
    + exact Hw.
  - unfold regenerate_template, get_template. fold (store_of w).
    rewrite Hl. exact Hw.
Qed.

Lemma well_formed_delete template_id w :
  well_formed w →
  well_formed
    {| template_service := snd (delete_template template_id (template_service w));
       model_calls := model_calls w |}.
Proof.
  intros [Hst Hh]. unfold delete_template. fold (store_of w).
  destruct (store_of w !! template_id) as [t|] eqn:Hl; cbn [snd].
  - split; unfold store_of, history_of;
      cbn [template_service templates generation_history]; [|exact Hh].
    intros k t' Hk. apply lookup_delete_Some in Hk as [_ Hk]. by apply Hst.
  - split; [exact Hst|exact Hh].
Qed.

Lemma well_formed_run os w :
  well_formed w → well_formed (run_operations os w).
Proof.
  unfold run_operations. revert w.
  induction os as [|o os IH]; intros w Hw; [exact Hw|].
  cbn [fold_left]. apply IH.
  destruct o as [env request|env template_id|template_id]; cbn [run_operation].
  - by apply well_formed_generate.
  - by apply well_formed_regenerate.
  - by apply well_formed_delete.
Qed.

(** X10.  Starting from a well-formed state (the empty service is one),
    any sequence of generations, regenerations and deletions leads to a
    well-formed state: every stored template sits under its own identifier
    and carries the parameters of some request, and the history holds at
    most 1000 entries.  So in every such state a regeneration of a stored
    template runs a generation; it never fails to convert a stored
    string. *)
Theorem service_states_well_formed (os : list operation) (w0 : World) :
  well_formed w0 →
  let w := run_operations os w0 in
  well_formed w
  ∧ ∀ env template_id t,
      get_template template_id (template_service w) = Some t →
      ∃ r, echoes t r
           ∧ regenerate_template env template_id w = generate_template env r w.
Proof.
  intros Hw0 w.
  assert (Hw : well_formed w) by (by apply well_formed_run).
  split; [exact Hw|].
  intros env template_id t Hl.
  destruct Hw as [Hst _]. destruct (Hst template_id t Hl) as (_ & r & Hr).
  exists r. split; [exact Hr|].
  exact (regenerate_template_echo env template_id t r w Hl Hr).
Qed.

End service.

Lemma generate_template_client_error_witness :
  @generate_template ascii_lower (env_with (Raise (py "overloaded")))
    sample_request empty_world
  = (Return (failure_response (py "Failed to generate template: overloaded") 2),
     after_failure (env_with (Raise (py "overloaded"))) sample_request
       (py "Failed to generate template: overloaded")
       (consulted sample_request empty_world)).
Proof.
  exact (proj1 (generate_template_client_error (L := ascii_lower)
                  (env_with (Raise (py "overloaded"))) sample_request
                  (fun _ => Raise (py "overloaded")) (py "overloaded")
                  empty_world eq_refl eq_refl)).
Defined.

Lemma generate_template_fallback_document_witness :
  ∃ t,
    @generate_template ascii_lower
      (env_with (Return (py "I cannot help with that."))) sample_request
      empty_world
    = (Return (success_response t 2),
       after_success (env_with (Return (py "I cannot help with that.")))
         sample_request t (consulted sample_request empty_world))
    ∧ @built_from ascii_lower
        (env_with (Return (py "I cannot help with that."))) sample_request
        (@create_fallback_template ascii_lower (request_dict sample_request)) t.
Proof.
  apply (generate_template_fallback_document (L := ascii_lower)
           (env_with (Return (py "I cannot help with that."))) sample_request
           empty_world).
  right. exists (fun _ => Return (py "I cannot help with that.")),
    (py "I cannot help with that.").
  split; [reflexivity|]. split; [reflexivity|].
  left. vm_compute. reflexivity.
Defined.

Lemma generate_template_keeps_extracted_document_witness :
  fst (@validate_html_safety ascii_lower unsafe_document) = false
  ∧ ∃ t,
      @generate_template ascii_lower (env_with (Return unsafe_document))
        sample_request empty_world
      = (Return (success_response t 2),
         after_success (env_with (Return unsafe_document)) sample_request t
           (consulted sample_request empty_world))
      ∧ @built_from ascii_lower (env_with (Return unsafe_document))
          sample_request unsafe_document t
      ∧ get_template (uuid4 (env_with (Return unsafe_document)))
          (template_service
             (snd (@generate_template ascii_lower
                     (env_with (Return unsafe_document)) sample_request
                     empty_world))) = Some t
      ∧ EmailTemplate.html_content t = unsafe_document.
Proof.
  split; [vm_compute; reflexivity|].
  apply (generate_template_keeps_extracted_document (L := ascii_lower)
           (env_with (Return unsafe_document)) sample_request
           (fun _ => Return unsafe_document) unsafe_document unsafe_document
           empty_world eq_refl eq_refl).
  - vm_compute. reflexivity.
  - discriminate.
Defined.

Lemma regenerate_template_is_generate_witness :
  @regenerate_template ascii_lower sample_env (py "t2") kept_world
  = @generate_template ascii_lower sample_env sample_request kept_world.
Proof.
  apply (regenerate_template_is_generate (L := ascii_lower) sample_env
           (py "t2") kept_template sample_request kept_world).
  - vm_compute. reflexivity.
  - vm_compute. repeat split.
Defined.


Lemma service_states_well_formed_witness :
  well_formed (@run_operations ascii_lower sample_operations empty_world)
  ∧ ∀ env template_id t,
      get_template template_id
        (template_service
           (@run_operations ascii_lower sample_operations empty_world))
      = Some t →
      ∃ r, echoes t r
           ∧ @regenerate_template ascii_lower env template_id
               (@run_operations ascii_lower sample_operations empty_world)
             = @generate_template ascii_lower env r
                 (@run_operations ascii_lower sample_operations empty_world).
Proof.
  apply (service_states_well_formed (L := ascii_lower) sample_operations
           empty_world).
  split.
  - intros k t Hk. unfold store_of, empty_world, TemplateService_init in Hk.
    cbn [template_service templates] in Hk.
    rewrite lookup_empty in Hk. discriminate.
  - cbn. lia.
Defined.

(** ** The rate limiter: several clients, and the window it enforces *)

Lemma is_allowed_other (now : Z) (c c' : str) (rl : RateLimiter) :
  c' ≠ c →
  requests (snd (is_allowed now c rl)) !! c' = requests rl !! c'.
Proof.
  intros Hne. rewrite is_allowed_unfold. cbn [snd requests].
  by rewrite lookup_insert_ne.
Qed.

Lemma recorded_other (now : Z) (c c' : str) (rl : RateLimiter) :
  c' ≠ c →
  recorded c' (snd (is_allowed now c rl)) = recorded c' rl.
Proof. intros Hne. unfold recorded. by rewrite is_allowed_other. Qed.

(** The checks of a client depend on the limiter only through its two
    settings and the timestamps recorded for that client. *)
Lemma check_all_ext (c : str) (ts : list Z) :
  ∀ rl rl',
    max_requests rl = max_requests rl' →
    time_window rl = time_window rl' →
    recorded c rl = recorded c rl' →
    fst (check_all ts c rl) = fst (check_all ts c rl')
    ∧ recorded c (snd (check_all ts c rl))
      = recorded c (snd (check_all ts c rl')).
Proof.
  induction ts as [|now ts IH]; intros rl rl' Hm Hw Hr; [by split|].
  cbn [check_all].
  assert (Hf : fst (is_allowed now c rl) = fst (is_allowed now c rl'))
    by (by rewrite !is_allowed_fst, Hm, Hw, Hr).
  assert (Hr1 : recorded c (snd (is_allowed now c rl))
                = recorded c (snd (is_allowed now c rl')))
    by (by rewrite !is_allowed_recorded, Hf, Hw, Hr).
  destruct (is_allowed_settings now c rl) as [Hm1 Hw1].
  destruct (is_allowed_settings now c rl') as [Hm1' Hw1'].
  destruct (is_allowed now c rl) as [ok rl1].
  destruct (is_allowed now c rl') as [ok' rl1'].
  cbn [fst snd] in *. subst ok'.
  destruct (IH rl1 rl1') as [IH1 IH2]; [congruence..|].
  destruct (check_all ts c rl1) as [oks rl2].
  destruct (check_all ts c rl1') as [oks' rl2'].
  cbn [fst snd] in *. by subst oks'.
Qed.

(** X11.  Clients do not affect one another: in any interleaving of
    checks, the answers a client gets and the timestamps recorded for it
    are those it would get if its own checks were the only ones. *)
Theorem rate_limiter_clients_independent
    (client_id : str) (calls : list (Z * str)) (rl : RateLimiter) :
  answers_for client_id calls (fst (serve calls rl))
  = fst (check_all (times_for client_id calls) client_id rl)
  ∧ recorded client_id (snd (serve calls rl))
    = recorded client_id
        (snd (check_all (times_for client_id calls) client_id rl)).
Proof.
  revert rl. induction calls as [|[now c] calls IH]; intros rl; [by split|].
  cbn [serve times_for].
  destruct (IH (snd (is_allowed now c rl))) as [IH1 IH2].
  case_bool_decide as Hc.
  - subst c. cbn [app check_all].
    destruct (is_allowed now client_id rl) as [ok rl1]. cbn [snd] in *.
    destruct (serve calls rl1) as [oks rl2].
    destruct (check_all (times_for client_id calls) client_id rl1)
      as [oks' rl2'].
    cbn [fst snd answers_for] in *.
    rewrite bool_decide_eq_true_2 by done. cbn [app]. by rewrite IH1.
  - cbn [app].
    destruct (is_allowed_settings now c rl) as [Hm Hw].
    pose proof (recorded_other now c client_id rl) as Hr.
    destruct (is_allowed now c rl) as [ok rl1]. cbn [snd] in *.
    destruct (check_all_ext client_id (times_for client_id calls) rl1 rl)
      as [E1 E2]; [done|done|by apply Hr; congruence|].
    destruct (serve calls rl1) as [oks rl2].
    cbn [fst snd answers_for] in *.
    rewrite bool_decide_eq_false_2 by done. cbn [app].
    by rewrite IH1, IH2, E1, E2.
Qed.

Lemma length_filter_le {A : Type} (p : A → bool) (l : list A) :
  (length (List.filter p l) ≤ length l)%nat.
Proof.
  induction l as [|x l IH]; [done|]. cbn [List.filter].
  destruct (p x); cbn [length]; lia.
Qed.

Lemma is_allowed_bounded (now : Z) (c c' : str) (rl : RateLimiter) :
  0 ≤ max_requests rl →
  len (recorded c' rl) ≤ max_requests rl →
  len (recorded c' (snd (is_allowed now c rl))) ≤ max_requests rl.
Proof.
  intros Hm Hb.
  destruct (decide (c' = c)) as [->|Hne]; [|by rewrite recorded_other].
  rewrite is_allowed_recorded, is_allowed_fst. unfold len in *.
  pose proof (length_filter_le (λ t, t >? now - time_window rl)
                (recorded c rl)) as Hle.
  destruct (Z.geb_spec
              (Z.of_nat (length (List.filter (λ t, t >? now - time_window rl)
                                   (recorded c rl))))
              (max_requests rl)) as [Hge|Hlt]; cbn [negb].
  - rewrite app_nil_r. lia.
  - rewrite length_app. cbn [length]. lia.
Qed.

(** X12.  With a limit that is not negative, no client ever has more
    timestamps on record than the limit, whatever the clients, the order of
    their checks and the clock readings; and the limiter keeps an entry for
    every client that ever asked, admitted or not. *)
Theorem rate_limiter_records_bounded
    (calls : list (Z * str)) (rl : RateLimiter) :
  0 ≤ max_requests rl →
  (∀ c, len (recorded c rl) ≤ max_requests rl) →
  let rl' := snd (serve calls rl) in
  max_requests rl' = max_requests rl
  ∧ (∀ c, len (recorded c rl') ≤ max_requests rl)
  ∧ dom (requests rl') = dom (requests rl) ∪ list_to_set calls.*2.
Proof.
  cbv zeta. revert rl.
  induction calls as [|[now c] calls IH]; intros rl Hm Hb.
  - cbn [serve snd fmap list_fmap list_to_set]. split; [done|].
    split; [done|]. by rewrite union_empty_r_L.
  - cbn [serve].
    destruct (is_allowed_settings now c rl) as [Hm1 _].
    assert (Hb1 : ∀ c', len (recorded c' (snd (is_allowed now c rl)))
                        ≤ max_requests rl)
      by (intros c'; by apply is_allowed_bounded).
    assert (Hd : dom (requests (snd (is_allowed now c rl)))
                 = {[c]} ∪ dom (requests rl)).
    { rewrite is_allowed_unfold. cbn [snd requests]. by rewrite dom_insert_L. }
    destruct (is_allowed now c rl) as [ok rl1]. cbn [snd] in *.
    destruct (IH rl1) as (IH1 & IH2 & IH3);
      [by rewrite Hm1|by intros c'; rewrite Hm1|].
    destruct (serve calls rl1) as [oks rl2]. cbn [snd] in *.
    split; [congruence|]. split; [by intros c'; rewrite <- Hm1|].
    rewrite IH3, Hd. cbn [fmap list_fmap list_to_set snd].
    by rewrite (union_comm_L {[c]} (dom (requests rl))), (assoc_L (∪)).
Qed.

(** X13.  A limiter whose limit is zero or negative rejects every check of
    every client and records no timestamp. *)
Theorem rate_limiter_no_quota
    (calls : list (Z * str)) (rl : RateLimiter) :
  max_requests rl ≤ 0 →
  fst (serve calls rl) = replicate (length calls) false
  ∧ ∀ c, (length (recorded c (snd (serve calls rl)))
          ≤ length (recorded c rl))%nat.
Proof.
  revert rl. induction calls as [|[now c] calls IH]; intros rl Hm.
  - cbn [serve fst snd length replicate]. split; [done|]. intros c; lia.
  - cbn [serve].
    assert (Hf : fst (is_allowed now c rl) = false).
    { rewrite is_allowed_fst. unfold len.
      destruct (Z.geb_spec
        (Z.of_nat (length (List.filter (λ t, t >? now - time_window rl)
                             (recorded c rl)))) (max_requests rl));
        [reflexivity|lia]. }
    assert (Hr : ∀ c', (length (recorded c' (snd (is_allowed now c rl)))
                        ≤ length (recorded c' rl))%nat).
    { intros c'. destruct (decide (c' = c)) as [->|Hne];
        [|by rewrite recorded_other].
      rewrite is_allowed_recorded, Hf, app_nil_r. apply length_filter_le. }
    destruct (is_allowed_settings now c rl) as [Hm1 _].
    destruct (is_allowed now c rl) as [ok rl1]. cbn [fst snd] in *. subst ok.
    destruct (IH rl1) as [IH1 IH2]; [by rewrite Hm1|].
    destruct (serve calls rl1) as [oks rl2]. cbn [fst snd] in *.
    cbn [length replicate]. rewrite IH1. split; [done|].
    intros c'. specialize (IH2 c'). specialize (Hr c'). lia.
Qed.

Lemma filter_filter_imp {A : Type} (p q : A → bool) (l : list A) :
  (∀ x, q x = true → p x = true) →
  List.filter q (List.filter p l) = List.filter q l.
Proof.
  intros Himp. induction l as [|x l IH]; [reflexivity|].
  cbn [List.filter]. destruct (p x) eqn:Hp.
  - cbn [List.filter]. by rewrite IH.
  - destruct (q x) eqn:Hq; [|exact IH].
    apply Himp in Hq. congruence.
Qed.

Lemma length_filter_imp {A : Type} (p q : A → bool) (l : list A) :
  Forall (λ x, p x = true → q x = true) l →
  (length (List.filter p l) ≤ length (List.filter q l))%nat.
Proof.
  induction 1 as [|x l Hx _ IH]; [done|]. cbn [List.filter].
  destruct (p x); [rewrite Hx by done|destruct (q x)]; cbn [length]; lia.
Qed.

Lemma nondecreasing_tail (t : Z) (ts : list Z) :
  nondecreasing (t :: ts) → nondecreasing ts.
Proof. intros [_ H]. exact H. Qed.

(** The invariant behind the window: the timestamps on record are the
    admitted ones that the latest window still covers. *)
Lemma check_all_window (c : str) (ts : list Z) :
  ∀ (rl : RateLimiter) (A : list Z) (p : Z),
    0 < time_window rl →
    nondecreasing (p :: ts) →
    recorded c rl = List.filter (λ t, t >? p - time_window rl) A →
    Forall (λ t, t ≤ p) A →
    (∀ x, len (List.filter (in_window (time_window rl) x) A)
          ≤ max_requests rl) →
    ∀ x, len (List.filter (in_window (time_window rl) x)
                (A ++ accepted ts (fst (check_all ts c rl))))
         ≤ max_requests rl.
Proof.
  induction ts as [|now ts IH]; intros rl A p Htw Hnd Hrec Hle HW x.
  { cbn [check_all fst accepted]. rewrite app_nil_r. apply HW. }
  destruct Hnd as [Hp Hnd]. cbn [check_all].
  pose proof (is_allowed_recorded now c rl) as Hr1.
  pose proof (is_allowed_fst now c rl) as Hf.
  destruct (is_allowed_settings now c rl) as [Hm1 Hw1].
  rewrite Hrec in Hr1, Hf.
  rewrite filter_filter_imp in Hr1, Hf
    by (intros t Ht; apply Z.gtb_lt in Ht; apply Z.gtb_lt; lia).
  destruct (is_allowed now c rl) as [ok rl1]. cbn [fst snd] in *.
  specialize (IH rl1).
  destruct (check_all ts c rl1) as [oks rl2] eqn:Hca.
  cbn [fst snd accepted] in *. rewrite Hm1, Hw1 in IH.
  destruct ok; cbn [app].
  - (* admitted: fewer than the limit were still in the window *)
    replace (A ++ now :: accepted ts oks)
      with ((A ++ [now]) ++ accepted ts oks) by (by rewrite <- app_assoc).
    apply (IH (A ++ [now]) now); [done|done| | |].
    + rewrite Hr1, List.filter_app. cbn [List.filter].
      by replace (now >? now - time_window rl) with true
        by (symmetry; apply Z.gtb_lt; lia).
    + apply Forall_app. split; [|by repeat constructor].
      eapply Forall_impl; [exact Hle|]. intros t Ht. cbn beta in *. lia.
    + intros y. rewrite List.filter_app. cbn [List.filter].
      destruct (in_window (time_window rl) y now) eqn:Hin;
        [|rewrite app_nil_r; apply HW].
      apply andb_prop in Hin as [Hy1 Hy2].
      apply Z.ltb_lt in Hy1. apply Z.leb_le in Hy2.
      symmetry in Hf. apply negb_true_iff in Hf.
      rewrite Z.geb_leb in Hf. apply Z.leb_gt in Hf.
      pose proof (length_filter_imp (in_window (time_window rl) y)
                    (λ t, t >? now - time_window rl) A) as Hsub.
      unfold len in *. rewrite length_app. cbn [length].
      enough (length (List.filter (in_window (time_window rl) y) A)
              ≤ length (List.filter (λ t, t >? now - time_window rl) A))%nat
        by lia.
      apply Hsub. apply Forall_forall. intros t _ Ht.
      apply andb_prop in Ht as [Ht1 _]. apply Z.ltb_lt in Ht1.
      apply Z.gtb_lt. lia.
  - apply (IH A now); [done|done| | |done].
    + by rewrite Hr1, app_nil_r.
    + eapply Forall_impl; [exact Hle|]. intros t Ht. cbn beta in *. lia.
Qed.

(** X14.  The guarantee of the limiter.  For a client with nothing on
    record, a limit that is not negative and clock readings that never go
    back, the checks admitted within any window of [time_window] seconds
    (open at its start, closed at its end) number at most
    [max_requests]. *)
Theorem rate_limiter_sliding_window
    (client_id : str) (rl : RateLimiter) (ts : list Z) (x : Z) :
  0 ≤ max_requests rl →
  recorded client_id rl = [] →
  nondecreasing ts →
  len (List.filter (in_window (time_window rl) x)
         (accepted ts (fst (check_all ts client_id rl))))
  ≤ max_requests rl.
Proof.
  intros Hm Hrec Hnd.
  destruct (Z.lt_ge_cases 0 (time_window rl)) as [Htw|Htw].
  - destruct ts as [|t ts]; [done|].
    apply (check_all_window client_id (t :: ts) rl [] t Htw).
    + split; [lia|exact Hnd].
    + exact Hrec.
    + constructor.
    + intros y. exact Hm.
  - rewrite filter_none; [exact Hm|].
    apply Forall_forall. intros t _. unfold in_window.
    apply andb_false_iff.
    destruct (Z.ltb_spec (x - time_window rl) t); [|by left].
    right. apply Z.leb_gt. lia.
Qed.

Lemma rate_limiter_records_bounded_witness :
  max_requests (snd (serve sample_calls (RateLimiter_init 2 60))) = 2
  ∧ (∀ c, len (recorded c (snd (serve sample_calls (RateLimiter_init 2 60))))
          ≤ 2)
  ∧ dom (requests (snd (serve sample_calls (RateLimiter_init 2 60))))
    = dom (requests (RateLimiter_init 2 60)) ∪ list_to_set sample_calls.*2.
Proof.
  apply (rate_limiter_records_bounded sample_calls (RateLimiter_init 2 60)).
  - cbn. lia.
  - intros c. unfold recorded, RateLimiter_init. cbn [requests max_requests].
    rewrite lookup_empty. unfold len. cbn. lia.
Defined.

Lemma rate_limiter_no_quota_witness :
  fst (serve sample_calls (RateLimiter_init 0 60))
  = replicate (length sample_calls) false
  ∧ ∀ c, (length (recorded c (snd (serve sample_calls (RateLimiter_init 0 60))))
          ≤ length (recorded c (RateLimiter_init 0 60)))%nat.
Proof.
  apply (rate_limiter_no_quota sample_calls (RateLimiter_init 0 60)).
  cbn. lia.
Defined.

Lemma rate_limiter_sliding_window_witness :
  len (List.filter (in_window 60 75)
         (accepted [0; 10; 20; 70; 75]
            (fst (check_all [0; 10; 20; 70; 75] (py "10.0.0.1")
                    (RateLimiter_init 2 60)))))
  ≤ 2.
Proof.
  apply (rate_limiter_sliding_window (py "10.0.0.1") (RateLimiter_init 2 60)
           [0; 10; 20; 70; 75] 75).
  - cbn. lia.
  - vm_compute. reflexivity.
  - cbn [nondecreasing]. repeat split; lia.
Defined.

(** ** Sanitizing and validating input *)

Lemma re_sub_from_sublist (p : pattern) (s : str) :
  ∀ skip, re_sub_from p [] skip s `sublist_of` s.
Proof.
  induction s as [|c s IH]; intros [|n]; cbn [re_sub_from];
    [constructor|constructor| |apply sublist_cons, IH].
  destruct (re_match false p (c :: s) [] (c :: s)) as [[g rest]|].
  - cbn [app]. apply sublist_cons, IH.
  - apply sublist_skip, IH.
Qed.

Lemma re_sub_one (k : cls) (s : str) :
  re_sub [One k] [] s = List.filter (λ c, negb (cls_match k c)) s.
Proof.
  unfold re_sub. induction s as [|c s IH]; [reflexivity|].
  cbn [re_sub_from re_match List.filter].
  destruct (cls_match k c); cbn [negb app].
  - replace (length (c :: s) - length s - 1)%nat with 0%nat
      by (cbn [length]; lia).
    exact IH.
  - by rewrite IH.
Qed.

Lemma lstrip_drop (s : str) : ∃ n, lstrip s = drop n s.
Proof.
  induction s as [|c s [n IH]]; [by exists 0%nat|]. cbn [lstrip].
  destruct (isspace c); [by exists (S n)|by exists 0%nat].
Qed.

Lemma rstrip_take (s : str) : ∃ n, rstrip s = take n s.
Proof.
  induction s as [|c s [n IH]]; [by exists 0%nat|]. cbn [rstrip].
  destruct (rstrip s) as [|d r].
  - destruct (isspace c); [by exists 0%nat|]. exists 1%nat.
    cbn [take]. by destruct s.
  - exists (S n). cbn [take]. by rewrite IH.
Qed.

Lemma strip_sublist (s : str) : strip s `sublist_of` s.
Proof.
  unfold strip.
  destruct (lstrip_drop s) as [n ->].
  destruct (rstrip_take (drop n s)) as [m ->].
  etrans; [apply sublist_take|apply sublist_drop].
Qed.

Lemma rstrip_idem (s : str) : rstrip (rstrip s) = rstrip s.
Proof.
  induction s as [|c s IH]; [reflexivity|]. cbn [rstrip].
  destruct (rstrip s) as [|d r] eqn:E.
  - destruct (isspace c) eqn:Hc; [reflexivity|]. cbn [rstrip]. by rewrite Hc.
  - change (rstrip (c :: d :: r)) with
      (match rstrip (d :: r) with
       | [] => if isspace c then [] else [c]
       | r' => c :: r'
       end).
    by rewrite IH.
Qed.

(** What [rstrip] leaves starts as the text did. *)
Lemma rstrip_head (s : str) (c : N) (r : str) :
  rstrip s = c :: r → ∃ s', s = c :: s'.
Proof.
  destruct s as [|d s]; [discriminate|]. cbn [rstrip].
  destruct (rstrip s); [destruct (isspace d)|]; intros [= <- _]; eauto.
Qed.

Lemma lstrip_head (s : str) (c : N) (r : str) :
  lstrip s = c :: r → isspace c = false.
Proof.
  induction s as [|d s IH]; [discriminate|]. cbn [lstrip].
  destruct (isspace d) eqn:Hd; [exact IH|]. by intros [= <- _].
Qed.

Lemma strip_idem (s : str) : strip (strip s) = strip s.
Proof.
  unfold strip.
  destruct (rstrip (lstrip s)) as [|c r] eqn:E; [reflexivity|].
  destruct (rstrip_head _ _ _ E) as [s' Hs'].
  pose proof (lstrip_head _ _ _ Hs') as Hc.
  cbn [lstrip]. rewrite Hc, <- E. apply rstrip_idem.
Qed.

Lemma sublist_clean (P : N → Prop) (l1 l2 : str) :
  l1 `sublist_of` l2 → Forall P l2 → Forall P l1.
Proof.
  induction 1 as [|x l1 l2 _ IH|x l1 l2 _ IH]; intros HF; [constructor|..].
  - inversion_clear HF. constructor; auto.
  - inversion_clear HF. auto.
Qed.

Lemma prefix_sublist (s : str) (n : Z) : prefix s n `sublist_of` s.
Proof. unfold prefix. destruct (n <? 0); apply sublist_take. Qed.

Lemma sanitize_input_facts (text : str) (max_length : Z) :
  let r := sanitize_input text max_length in
  r `sublist_of` text
  ∧ Forall (λ c, inb c special_chars = false) r
  ∧ strip r = r.
Proof.
  cbv zeta. unfold sanitize_input.
  destruct text as [|c text]; cbn [truthy negb].
  { split; [constructor|]. split; [constructor|reflexivity]. }
  set (t := c :: text).
  split; [|split].
  - etrans; [apply strip_sublist|]. etrans; [apply prefix_sublist|].
    etrans; apply re_sub_from_sublist.
  - eapply sublist_clean.
    { etrans; [apply strip_sublist|apply prefix_sublist]. }
    rewrite re_sub_one. apply Forall_forall. intros x Hx.
    apply list_elem_of_In, filter_In in Hx as [_ Hx].
    by apply negb_true_iff in Hx.
  - apply strip_idem.
Qed.

(** X15.  [sanitize_input] only deletes characters: its result is a
    subsequence of the text, holds none of the five characters
    [<], [>], [&], the double quote and the single quote, and has no
    whitespace at either end, for every text and every [max_length]. *)
Theorem sanitize_input_clean (text : str) (max_length : Z) :
  let r := sanitize_input text max_length in
  r `sublist_of` text
  ∧ Forall (λ c, inb c special_chars = false) r
  ∧ strip r = r.
Proof. apply sanitize_input_facts. Qed.

Lemma tag_pattern_unfold :
  tag_pattern
  = [Lit [60%N]; One (NoneOf (py ">")); Star (NoneOf (py ">")); Lit (py ">")].
Proof. vm_compute. reflexivity. Qed.

Lemma inb_special_lt (c : N) : inb c special_chars = false → (60 =? c)%N = false.
Proof.
  intros H. destruct (N.eqb_spec 60 c) as [<-|]; [|reflexivity].
  vm_compute in H. discriminate.
Qed.

Lemma re_sub_tag_clean (s : str) :
  Forall (λ c, inb c special_chars = false) s →
  re_sub tag_pattern [] s = s.
Proof.
  unfold re_sub. rewrite tag_pattern_unfold.
  induction 1 as [|c s Hc _ IH]; [reflexivity|].
  cbn [re_sub_from re_match eat]. unfold lit_char.
  rewrite (inb_special_lt c Hc). by rewrite IH.
Qed.

(** X16.  With a [max_length] that is not negative (the default is 500),
    the result of [sanitize_input] is at most [max_length] characters long,
    and sanitizing it again changes nothing. *)
Theorem sanitize_input_idempotent (text : str) (max_length : Z) :
  0 ≤ max_length →
  len (sanitize_input text max_length) ≤ max_length
  ∧ sanitize_input (sanitize_input text max_length) max_length
    = sanitize_input text max_length.
Proof.
  intros Hm.
  destruct (sanitize_input_facts text max_length) as (_ & Hclean & Hstrip).
  assert (Hlen : len (sanitize_input text max_length) ≤ max_length).
  { unfold sanitize_input.
    destruct text as [|c text]; cbn [truthy negb]; [unfold len; cbn; lia|].
    pose proof (sublist_length _ _
      (strip_sublist
         (prefix (re_sub [One (AnyOf special_chars)] []
                    (re_sub tag_pattern [] (c :: text))) max_length))) as Hl.
    unfold prefix in *. destruct (Z.ltb_spec max_length 0) as [|_]; [lia|].
    rewrite length_take in Hl. unfold len. lia. }
  split; [exact Hlen|].
  set (r := sanitize_input text max_length) in *.
  unfold sanitize_input at 1.
  destruct r as [|c r'] eqn:Er; [reflexivity|]. cbn [truthy negb]. cbv zeta.
  rewrite (re_sub_tag_clean _ Hclean), re_sub_one.
  rewrite filter_all.
  2:{ eapply Forall_impl; [exact Hclean|]. intros x Hx. cbn beta.
      unfold cls_match. by rewrite Hx. }
  unfold prefix. destruct (Z.ltb_spec max_length 0) as [|_]; [lia|].
  rewrite take_ge by (unfold len in Hlen; lia).
  exact Hstrip.
Qed.

Lemma sanitize_input_idempotent_witness :
  len (sanitize_input (py "  <b>Tom & Jerry</b> 'quoted'  ") 500) ≤ 500
  ∧ sanitize_input (sanitize_input (py "  <b>Tom & Jerry</b> 'quoted'  ") 500)
      500
    = sanitize_input (py "  <b>Tom & Jerry</b> 'quoted'  ") 500.
Proof.
  apply (sanitize_input_idempotent (py "  <b>Tom & Jerry</b> 'quoted'  ") 500).
  lia.
Defined.

(** ** The greedy star *)

Lemma greedy_sound {R : Type} (k : cls) (cont : str → option R) (s : str) (r : R) :
  greedy k cont s = Some r →
  ∃ pre post, s = pre ++ post
    ∧ Forall (λ c, cls_match k c = true) pre ∧ cont post = Some r.
Proof.
  induction s as [|c s IH]; cbn [greedy].
  - intros H. exists [], []. by repeat split.
  - destruct (cls_match k c) eqn:Hc.
    + destruct (greedy k cont s) as [r'|] eqn:Hg.
      * intros [= ->]. destruct (IH eq_refl) as (pre & post & -> & Hpre & Hk).
        exists (c :: pre), post. repeat split; [by constructor|exact Hk].
      * intros H. exists [], (c :: s). by repeat split.
    + intros H. exists [], (c :: s). by repeat split.
Qed.

Lemma greedy_complete {R : Type} (k : cls) (cont : str → option R)
    (pre post : str) :
  Forall (λ c, cls_match k c = true) pre →
  is_Some (cont post) →
  is_Some (greedy k cont (pre ++ post)).
Proof.
  intros Hpre Hk. induction Hpre as [|c pre Hc _ IH]; cbn [app].
  - destruct post as [|c post]; cbn [greedy]; [exact Hk|].
    destruct (cls_match k c); [|exact Hk].
    destruct (greedy k cont post); [by eexists|exact Hk].
  - cbn [greedy]. rewrite Hc. destruct IH as [r ->]. by eexists.
Qed.

Lemma email_pattern_unfold :
  email_pattern
  = [One (AnyOf local_chars); Star (AnyOf local_chars); Lit [64%N];
     One (AnyOf domain_chars); Star (AnyOf domain_chars); Lit [46%N];
     One (AnyOf alpha); One (AnyOf alpha); Star (AnyOf alpha)].
Proof. vm_compute. reflexivity. Qed.

(** A text matched from its start by [k1+ a k2+ b k3 k3 k3*]. *)
Lemma cls_match_AnyOf (cs : str) (c : N) : cls_match (AnyOf cs) c = inb c cs.
Proof. reflexivity. Qed.

Lemma re_match_address (k1 k2 k3 : cls) (P1 P2 P3 : N → bool) (a b : N)
    (email : str) :
  (∀ c, cls_match k1 c = P1 c) →
  (∀ c, cls_match k2 c = P2 c) →
  (∀ c, cls_match k3 c = P3 c) →
  is_Some (re_match false
             [One k1; Star k1; Lit [a]; One k2; Star k2; Lit [b];
              One k3; One k3; Star k3] email [] email)
  ↔ ∃ l d tld rest,
      email = l ++ [a] ++ d ++ [b] ++ tld ++ rest
      ∧ l ≠ [] ∧ Forall (λ c, P1 c = true) l
      ∧ d ≠ [] ∧ Forall (λ c, P2 c = true) d
      ∧ (2 ≤ length tld)%nat ∧ Forall (λ c, P3 c = true) tld.
Proof.
  intros E1 E2 E3.
  assert (F1 : ∀ l, Forall (λ c, cls_match k1 c = true) l
                    ↔ Forall (λ c, P1 c = true) l)
    by (intros l; apply Forall_proper; [intros c; by rewrite E1|done]).
  assert (F2 : ∀ l, Forall (λ c, cls_match k2 c = true) l
                    ↔ Forall (λ c, P2 c = true) l)
    by (intros l; apply Forall_proper; [intros c; by rewrite E2|done]).
  assert (F3 : ∀ l, Forall (λ c, cls_match k3 c = true) l
                    ↔ Forall (λ c, P3 c = true) l)
    by (intros l; apply Forall_proper; [intros c; by rewrite E3|done]).
  split.
  - intros [[g rest] Hm].
    cbn [re_match] in Hm.
    destruct email as [|c1 s1]; [discriminate|].
    destruct (cls_match k1 c1) eqn:H1; [|discriminate].
    apply greedy_sound in Hm as (l & s2 & -> & Hl & Hm).
    cbn [re_match eat] in Hm. unfold lit_char in Hm.
    destruct s2 as [|a' s2]; [discriminate|].
    destruct (N.eqb_spec a a') as [<-|]; [|discriminate].
    destruct s2 as [|c2 s3]; [discriminate|].
    destruct (cls_match k2 c2) eqn:H2; [|discriminate].
    apply greedy_sound in Hm as (d & s4 & -> & Hd & Hm).
    cbn [re_match eat] in Hm. unfold lit_char in Hm.
    destruct s4 as [|b' s4]; [discriminate|].
    destruct (N.eqb_spec b b') as [<-|]; [|discriminate].
    destruct s4 as [|a1 s5]; [discriminate|].
    destruct (cls_match k3 a1) eqn:H3; [|discriminate].
    destruct s5 as [|a2 s6]; [discriminate|].
    destruct (cls_match k3 a2) eqn:H4; [|discriminate].
    apply greedy_sound in Hm as (t & post & -> & Ht & _).
    exists (c1 :: l), (c2 :: d), (a1 :: a2 :: t), post.
    split; [reflexivity|]. split; [discriminate|].
    split; [apply F1; constructor; [exact H1|exact Hl]|].
    split; [discriminate|].
    split; [apply F2; constructor; [exact H2|exact Hd]|].
    split; [cbn [length]; lia|].
    apply F3. constructor; [exact H3|]. constructor; [exact H4|exact Ht].
  - intros (l & d & tld & rest & -> & Hl0 & Hl & Hd0 & Hd & Ht2 & Ht).
    apply F1 in Hl. apply F2 in Hd. apply F3 in Ht.
    destruct l as [|c1 l]; [congruence|]. destruct d as [|c2 d]; [congruence|].
    destruct tld as [|a1 [|a2 t]]; [cbn [length] in Ht2; lia..|].
    inversion_clear Hl as [|? ? H1 Hl']. inversion_clear Hd as [|? ? H2 Hd'].
    inversion_clear Ht as [|? ? H3 Ht']. inversion_clear Ht' as [|? ? H4 Ht''].
    cbn [re_match app]. rewrite H1.
    apply greedy_complete; [exact Hl'|].
    cbn [re_match eat app]. unfold lit_char. rewrite N.eqb_refl, H2.
    apply greedy_complete; [exact Hd'|].
    cbn [re_match eat app]. unfold lit_char. rewrite N.eqb_refl, H3, H4.
    apply greedy_complete; [exact Ht''|]. cbn [re_match]. eexists. reflexivity.
Qed.

(** X17.  [validate_email_format] accepts exactly the texts that start
    with one or more local characters, an at sign, one or more domain
    characters, a dot and two or more letters.  Nothing anchors the end: what
    follows the letters is not looked at. *)
Theorem validate_email_format_prefix (email : str) :
  validate_email_format email = true
  ↔ ∃ l d tld rest,
      email = l ++ [64%N] ++ d ++ [46%N] ++ tld ++ rest
      ∧ l ≠ [] ∧ Forall (λ c, inb c local_chars = true) l
      ∧ d ≠ [] ∧ Forall (λ c, inb c domain_chars = true) d
      ∧ (2 ≤ length tld)%nat ∧ Forall (λ c, inb c alpha = true) tld.
Proof.
  unfold validate_email_format. rewrite email_pattern_unfold.
  rewrite <- (re_match_address (AnyOf local_chars) (AnyOf domain_chars)
                (AnyOf alpha) (λ c, inb c local_chars)
                (λ c, inb c domain_chars) (λ c, inb c alpha) 64 46 email
                (cls_match_AnyOf local_chars) (cls_match_AnyOf domain_chars)
                (cls_match_AnyOf alpha)).
  destruct (re_match _ _ _ _ _) as [x|]; split; intros H.
  - eexists. reflexivity.
  - reflexivity.
  - discriminate.
  - destruct H as [? H]. discriminate.
Qed.

(** ** The safety validation *)

Section safety.
Context `{L : PyLower}.

Lemma fold_left_issues {A B : Type} (f : A → bool) (g : A → B) (l : list A) :
  ∀ init,
    fold_left (λ acc x, if f x then acc ++ [g x] else acc) l init
    = init ++ map g (List.filter f l).
Proof.
  induction l as [|x l IH]; intros init; cbn [fold_left List.filter map].
  - by rewrite app_nil_r.
  - rewrite IH. destruct (f x); [|reflexivity].
    cbn [map]. by rewrite <- app_assoc.
Qed.

(** The issues, in the order in which the three checks add them. *)
Lemma validate_html_safety_issues (html_content : str) :
  snd (validate_html_safety html_content)
  = (if contains (py "For training only") html_content
     then [] else [Missing_training_disclaimer])
    ++ match List.filter
               (λ url, negb (existsb (λ fake, contains fake (lower url))
                               fake_markers))
               (urls_of html_content) with
       | [] => []
       | real_domains => [Contains_potentially_real_URLs real_domains]
       end
    ++ map Contains_reference_to_real_company
         (List.filter (λ company, contains company (lower html_content))
            real_companies).
Proof.
  unfold validate_html_safety. cbv zeta. cbn [snd].
  rewrite (fold_left_issues
             (λ company, contains company (lower html_content))
             Contains_reference_to_real_company real_companies).
  fold (urls_of html_content).
  destruct (contains (py "For training only") html_content); cbn [negb app];
    destruct (List.filter _ (urls_of html_content)); cbn [app];
    rewrite <- ?app_assoc; reflexivity.
Qed.

Lemma filter_nil_iff {A : Type} (p : A → bool) (l : list A) :
  List.filter p l = [] ↔ Forall (λ x, p x = false) l.
Proof.
  split; [|apply filter_none].
  induction l as [|x l IH]; [constructor|]. cbn [List.filter].
  destruct (p x) eqn:Hp; [discriminate|]. intros H. constructor; auto.
Qed.

(** X18.  [validate_html_safety] reports a document as safe exactly when
    it holds the text "For training only", every address found in an
    [href] attribute holds (once lowered) one of the markers [fake-],
    [phishing-], [test-], [training-], and its lowered text names none of
    the five listed companies; and it is safe exactly when the list of
    issues is empty. *)
Theorem validate_html_safety_safe_iff (html_content : str) :
  (fst (validate_html_safety html_content) = true
   ↔ contains (py "For training only") html_content = true
     ∧ Forall (λ url, existsb (λ fake, contains fake (lower url)) fake_markers
                      = true) (urls_of html_content)
     ∧ Forall (λ company, contains company (lower html_content) = false)
         real_companies)
  ∧ (fst (validate_html_safety html_content) = true
     ↔ snd (validate_html_safety html_content) = []).
Proof.
  assert (Hfs : fst (validate_html_safety html_content) = true
                ↔ snd (validate_html_safety html_content) = []).
  { unfold validate_html_safety. cbv zeta. cbn [fst snd].
    rewrite bool_decide_eq_true. apply length_zero_iff_nil. }
  split; [|exact Hfs].
  rewrite Hfs, validate_html_safety_issues.
  rewrite <- (filter_nil_iff (λ company, contains company (lower html_content))
                real_companies).
  assert (Hurls :
    Forall (λ url, existsb (λ fake, contains fake (lower url)) fake_markers
                   = true) (urls_of html_content)
    ↔ List.filter
        (λ url, negb (existsb (λ fake, contains fake (lower url)) fake_markers))
        (urls_of html_content) = []).
  { rewrite filter_nil_iff. apply Forall_proper; [|done].
    intros url. by rewrite negb_false_iff. }
  rewrite Hurls.
  destruct (contains (py "For training only") html_content);
    destruct (List.filter _ (urls_of html_content));
    destruct (List.filter _ real_companies); cbn [app map];
    split; try discriminate; try tauto;
    intros (? & ? & ?); discriminate.
Qed.

End safety.

(** ** Made-up senders *)

Lemma pick_sender_check (f : str * str → bool)
    (mappings : list (list str * str * str)) (content : str) :
  f (py "Support Team", py "support@fake-secureservices.net") = true →
  forallb (λ m, f (m.1.2, m.2)) mappings = true →
  f (pick_sender mappings content) = true.
Proof.
  intros Hg. induction mappings as [|[[kw name] email] ms IH];
    cbn [pick_sender forallb]; [done|].
  intros [Hm Hms]%andb_prop.
  destruct (existsb _ kw); [exact Hm|by apply IH].
Qed.

Lemma pick_sender_made_up (content : str) :
  made_up (pick_sender industry_mappings content) = true.
Proof. apply pick_sender_check; vm_compute; reflexivity. Qed.

Lemma industry_senders_made_up :
  forallb (λ kp : str * (str * str), made_up kp.2)
    [(py "Banking", (py "Security Department", py "security@fake-firstnational-alerts.com"));
     (py "Healthcare", (py "Patient Services", py "admin@fake-healthpartners.org"));
     (py "Online Retail", (py "Customer Service", py "orders@fake-ecommerce-orders.com"));
     (py "Technology", (py "Account Security", py "noreply@fake-techsupport.com"));
     (py "Government", (py "Official Notice", py "notifications@fake-government-alerts.gov"));
     (py "Education", (py "IT Services", py "support@fake-university-systems.edu"));
     (py "Insurance", (py "Claims Department", py "claims@fake-insurance-services.com"));
     (py "Retail", (py "Customer Support", py "service@fake-retailsupport.net"));
     (py "Cloud Service", (py "Security Team", py "alerts@fake-cloudsecurity.org"));
     (py "Social Media", (py "Account Safety", py "security@fake-socialmedia.com"));
     (py "Shipping Company", (py "Delivery Notice", py "tracking@fake-shipping.com"))]
  = true.
Proof. vm_compute. reflexivity. Qed.

(** X19.  Every sender the code makes up has an address that holds the
    marker [fake-], passes [validate_email_format] and is not the built-in
    default: the pair of [get_fallback_sender_info] for any industry text,
    known or not, and the pair [pick_sender] infers from any text.  Each of
    the eleven industries has an entry of its own in the table. *)
Theorem made_up_senders_marked :
  (∀ industry, made_up (get_fallback_sender_info industry) = true)
  ∧ (∀ content, made_up (pick_sender industry_mappings content) = true)
  ∧ (∀ i : TargetIndustry, is_Some (industry_senders !! value i)).
Proof.
  split; [|split].
  - intros industry. unfold get_fallback_sender_info.
    destruct (industry_senders !! industry) as [p|] eqn:E; cbn [default];
      [|vm_compute; reflexivity].
    unfold industry_senders in E. apply elem_of_list_to_map_2 in E.
    pose proof industry_senders_made_up as Hall.
    rewrite forallb_forall in Hall.
    apply (Hall (industry, p)). by apply list_elem_of_In.
  - exact pick_sender_made_up.
  - intros i. destruct i; vm_compute; eexists; reflexivity.
Qed.

Section components_more.
Context `{L : PyLower}.

Lemma extract_email_components_subject (html : str) (m : list str) :
  first_search true subject_patterns html = Some m →
  extract_email_components html !! "subject"
  = Some (take 100 (re_sub tag_pattern [] (strip (group 1 m)))).
Proof.
  intros Hs. unfold extract_email_components, _generate_realistic_sender.
  rewrite Hs.
  destruct (pick_sender industry_mappings (lower html)) as [name email].
  destruct (first_search false sender_patterns html) as [ms|];
    destruct (bool_decide _); rewrite ?lookup_insert_ne by discriminate;
    apply lookup_insert_eq.
Qed.

(** X20.  For every text, the subject that [extract_email_components]
    returns is at most 100 characters long, and the sender address it
    returns is never the built-in default [security@example.com]: where the
    default would stand, the address inferred from the text stands
    instead, and that one holds the marker [fake-]. *)
Theorem extract_email_components_bounds (html : str) :
  ∃ subject sender_email,
    extract_email_components html !! "subject" = Some subject
    ∧ extract_email_components html !! "sender_email" = Some sender_email
    ∧ (length subject ≤ 100)%nat
    ∧ sender_email ≠ py "security@example.com"
    ∧ (first_search false sender_patterns html = None →
       contains (py "fake-") sender_email = true).
Proof.
  assert (Hsub : ∃ subject,
            extract_email_components html !! "subject" = Some subject
            ∧ (length subject ≤ 100)%nat).
  { destruct (first_search true subject_patterns html) as [m|] eqn:Hs.
    - eexists. split; [by apply extract_email_components_subject|].
      rewrite length_take. lia.
    - eexists. split; [by apply extract_email_components_default_subject|].
      vm_compute. lia. }
  destruct Hsub as (subject & Hsubject & Hlen).
  destruct (pick_sender industry_mappings (lower html)) as [name email] eqn:Hp.
  pose proof (pick_sender_made_up (lower html)) as Hmade.
  rewrite Hp in Hmade. unfold made_up in Hmade. cbn [snd] in Hmade.
  apply andb_prop in Hmade as [[Hfake Hnd]%andb_prop _].
  apply negb_true_iff, bool_decide_eq_false in Hnd.
  pose proof (extract_email_components_sender html name email Hp) as H.
  cbv zeta in H.
  destruct (first_search false sender_patterns html) as [m|].
  - destruct (bool_decide (strip (group 2 m) = py "security@example.com"))
      eqn:Hd.
    + destruct H as [_ He]. exists subject, email.
      repeat (split; [assumption|]). discriminate.
    + apply bool_decide_eq_false in Hd. destruct H as [_ He].
      exists subject, (strip (group 2 m)).
      repeat (split; [assumption|]). discriminate.
  - destruct H as [_ He]. exists subject, email.
    repeat (split; [assumption|]). intros _. exact Hfake.
Qed.

End components_more.

(** ** Extraction returns a piece of the text *)

Lemma strip_infix (s : str) : ∃ pre post, s = pre ++ strip s ++ post.
Proof.
  unfold strip.
  destruct (lstrip_drop s) as [n Hn].
  destruct (rstrip_take (lstrip s)) as [m Hm].
  exists (take n s), (drop m (lstrip s)).
  rewrite Hm, take_drop, Hn, take_drop. reflexivity.
Qed.

Lemma slice_infix (s : str) (a b : Z) : ∃ pre post, s = pre ++ slice s a b ++ post.
Proof.
  unfold slice.
  exists (take (Z.to_nat a) s),
    (drop (Z.to_nat b - Z.to_nat a) (drop (Z.to_nat a) s)).
  by rewrite !take_drop.
Qed.

Lemma first_pattern_some (ps : list pattern) (text r : str) :
  first_pattern ps text = Some r →
  ∃ p g, p ∈ ps ∧ re_search false p text = Some g ∧ r = strip (group 1 g).
Proof.
  induction ps as [|p ps IH]; cbn [first_pattern]; [discriminate|].
  destruct (re_search false p text) as [g|] eqn:E.
  - intros [= <-]. exists p, g. split; [apply list_elem_of_here|]. by split.
  - intros H. destruct (IH H) as (q & g & Hq & Hg & Hr).
    exists q, g. split; [by apply list_elem_of_further|]. by split.
Qed.

Section extraction.
Context `{L : PyLower}.

(** X21.  Whatever [extract_html_from_response] returns is a piece of the
    text it was given: a contiguous part of it, with the whitespace at its
    two ends removed.  It never returns text that the response does not
    hold. *)
Theorem extract_html_is_trimmed_piece (text html : str) :
  extract_html_from_response text = Some html →
  strip html = html ∧ ∃ pre post piece, text = pre ++ piece ++ post
                                        ∧ html = strip piece.
Proof.
  unfold extract_html_from_response.
  destruct (first_pattern patterns text) as [r|] eqn:Hf.
  - intros [= <-].
    apply first_pattern_some in Hf as (p & g & Hp & Hg & ->).
    split; [apply strip_idem|].
    pose proof patterns_open_with_fence as Hsh.
    rewrite Forall_forall in Hsh.
    destruct (Hsh p Hp) as (sh & o & Hs & _).
    destruct (re_search_shape_some p sh text g Hs Hg)
      as (i & cap & -> & (pre & x & post & -> & _ & ->) & _).
    exists (pre ++ sh_open sh), (sh_close sh ++ post),
      (sh_head sh ++ x ++ sh_tail sh).
    split; [by rewrite <- !app_assoc|reflexivity].
  - destruct (_ || _); [|discriminate].
    destruct (negb _); [|discriminate].
    destruct (negb _); [|discriminate].
    intros [= <-]. split; [apply strip_idem|].
    destruct (slice_infix text
                (fold_left (start_step text) start_markers (-1))
                (end_loop text end_markers)) as (pre & post & E).
    by exists pre, post, (slice text
                (fold_left (start_step text) start_markers (-1))
                (end_loop text end_markers)).
Qed.

End extraction.

Lemma extract_html_is_trimmed_piece_witness :
  strip (py "<html><body>Hi</body></html>") = py "<html><body>Hi</body></html>"
  ∧ ∃ pre post piece,
      py "Here you go: <html><body>Hi</body></html> Enjoy."
      = pre ++ piece ++ post
      ∧ py "<html><body>Hi</body></html>" = strip piece.
Proof.
  apply (extract_html_is_trimmed_piece (L := ascii_lower)
           (py "Here you go: <html><body>Hi</body></html> Enjoy.")
           (py "<html><body>Hi</body></html>")).
  vm_compute. reflexivity.
Defined.

(** ** The client of a request *)

Lemma unseen_client_fresh (rl : RateLimiter) :
  requests rl !! unseen_client rl = None.
Proof.
  unfold unseen_client.
  assert (H : ∀ k v, requests rl !! k = Some v →
                (length k
                 ≤ map_fold (λ k _ n, Nat.max (length k) n) 0%nat (requests rl))%nat).
  { apply (map_fold_weak_ind
             (λ n (m : gmap str (list Z)),
                ∀ k v, m !! k = Some v → (length k ≤ n)%nat)).
    - intros k v Hk. rewrite lookup_empty in Hk. discriminate.
    - intros i x m r Hi IH k v Hk.
      destruct (decide (k = i)) as [->|Hne]; [lia|].
      rewrite lookup_insert_ne in Hk by done. specialize (IH k v Hk). lia. }
  destruct (requests rl !! replicate _ 97%N) as [v|] eqn:E; [|reflexivity].
  apply H in E. rewrite length_replicate in E. lia.
Qed.

Lemma before_comma_plain (s : str) :
  Forall (λ c, c = 97%N) s → before_comma s = s.
Proof.
  induction 1 as [|c s -> _ IH]; [reflexivity|].
  cbn [before_comma]. change (97 =? 44)%N with false. by rewrite IH.
Qed.

Lemma rstrip_plain (s : str) : Forall (λ c, c = 97%N) s → rstrip s = s.
Proof.
  induction 1 as [|c s -> _ IH]; [reflexivity|].
  cbn [rstrip]. rewrite IH. destruct s; reflexivity.
Qed.

Lemma strip_plain (s : str) : Forall (λ c, c = 97%N) s → strip s = s.
Proof.
  intros H. unfold strip.
  assert (Hl : lstrip s = s) by (destruct H as [|c s ->]; reflexivity).
  rewrite Hl. by apply rstrip_plain.
Qed.

(** X22.  The client of a request is whatever its [X-Forwarded-For]
    header says: with a header that is not empty, [get_client_ip] is the
    trimmed text before the first comma and the peer's host plays no part.
    Since the limiter counts per client, a request can always be admitted by
    naming a client the limiter has not seen: for every state of a limiter
    whose limit is positive, and every clock reading, there is a header with
    which [check_rate_limit] admits the request. *)
Theorem forwarded_header_names_the_client
    (rl : RateLimiter) (now : Z) (client_host : option str) :
  0 < max_requests rl →
  (∀ f host1 host2, f ≠ [] →
     get_client_ip (Some f) host1 = get_client_ip (Some f) host2
     ∧ get_client_ip (Some f) host1 = strip (before_comma f))
  ∧ ∃ forwarded,
      fst (check_rate_limit now (get_client_ip (Some forwarded) client_host) rl)
      = Return (get_client_ip (Some forwarded) client_host).
Proof.
  intros Hm. split.
  - intros [|c f] host1 host2 Hf; [done|]. by split.
  - exists (unseen_client rl).
    assert (Hplain : Forall (λ c, c = 97%N) (unseen_client rl))
      by (apply Forall_replicate; reflexivity).
    assert (Hid : get_client_ip (Some (unseen_client rl)) client_host
                  = unseen_client rl).
    { unfold get_client_ip.
      destruct (unseen_client rl) as [|c f] eqn:E; [discriminate|].
      by rewrite before_comma_plain, strip_plain. }
    rewrite Hid. unfold check_rate_limit.
    pose proof (is_allowed_fst now (unseen_client rl) rl) as Hf.
    unfold recorded in Hf. rewrite unseen_client_fresh in Hf.
    cbn [default List.filter] in Hf.
    destruct (is_allowed now (unseen_client rl) rl) as [ok rl'].
    cbn [fst] in Hf. subst ok.
    destruct (Z.geb_spec (len (@nil Z)) (max_requests rl)) as [Hge|_];
      [unfold len in Hge; cbn [length] in Hge; lia|].
    reflexivity.
Qed.

Lemma forwarded_header_names_the_client_witness :
  (∀ f host1 host2, f ≠ [] →
     get_client_ip (Some f) host1 = get_client_ip (Some f) host2
     ∧ get_client_ip (Some f) host1 = strip (before_comma f))
  ∧ ∃ forwarded,
      fst (check_rate_limit 3
             (get_client_ip (Some forwarded) (Some (py "10.0.0.1")))
             (snd (serve sample_calls (RateLimiter_init 2 60))))
      = Return (get_client_ip (Some forwarded) (Some (py "10.0.0.1"))).
Proof.
  apply (forwarded_header_names_the_client
           (snd (serve sample_calls (RateLimiter_init 2 60))) 3
           (Some (py "10.0.0.1"))).
  vm_compute. reflexivity.
Defined.

(** ** The candidate models *)

Lemma try_models_spec (create : str → result str) (models : list str) :
  ∀ last_error,
    let '(r, asked) := try_models create models last_error in
    ∃ later, models = asked ++ later
      ∧ match r with
        | Return text =>
          ∃ before model,
            asked = before ++ [model]
            ∧ create model = Return text
            ∧ Forall (λ m, ∃ e, create m = Raise e) before
        | Raise msg =>
          later = []
          ∧ Forall (λ m, ∃ e, create m = Raise e) models
          ∧ ∃ e, msg = py "All models failed. Last error: " ++ e
                 ∧ match last models with
                   | Some m => create m = Raise e
                   | None => e = default (py "None") last_error
                   end
        end.
Proof.
  induction models as [|model rest IH]; intros last_error; cbn [try_models].
  - exists []. split; [reflexivity|]. split; [reflexivity|].
    split; [constructor|]. by eexists.
  - destruct (create model) as [e|text] eqn:Hc.
    + specialize (IH (Some e)).
      destruct (try_models create rest (Some e)) as [[msg|text] asked].
      * destruct IH as (later & -> & -> & Hall & e' & -> & Hlast).
        exists []. split; [reflexivity|]. split; [reflexivity|].
        rewrite app_nil_r in *.
        split; [constructor; [by eexists|exact Hall]|].
        exists e'. split; [reflexivity|].
        destruct asked as [|m asked]; cbn [last] in *.
        -- cbn [default] in Hlast. by subst e'.
        -- destruct (proj2 (last_is_Some (m :: asked))) as [m' Hm'];
             [discriminate|].
           rewrite Hm' in *. exact Hlast.
      * destruct IH as (later & -> & before & m & -> & Hm & Hbefore).
        exists later. split; [reflexivity|].
        exists (model :: before), m. split; [reflexivity|].
        split; [exact Hm|]. constructor; [by eexists|exact Hbefore].
    + exists rest. split; [reflexivity|].
      exists [], model. split; [reflexivity|]. split; [exact Hc|constructor].
Qed.

Section models.
Context `{L : PyLower}.

(** X23.  The loop of [generate_content] asks the three candidate models
    in order and stops at the first that answers: the models asked are a
    prefix of the list, the answer is that of the last one asked, and every
    model asked before it raised.  It raises only when all three raised, and
    then with "All models failed. Last error: " and the text of the third
    model's exception; [generate_template] turns that into a failure,
    without a fallback document. *)
Theorem generate_content_first_answer
    (create : PhishingRequest.t → str → result str)
    (env : Env) (request : PhishingRequest.t) (w : World) :
  anthropic_service env = looping_client create →
  let r := try_models (create request) models_to_try None in
  (∃ later, models_to_try = snd r ++ later)
  ∧ match fst r with
    | Return text =>
      ∃ before model,
        snd r = before ++ [model]
        ∧ create request model = Return text
        ∧ Forall (λ m, ∃ e, create request m = Raise e) before
    | Raise msg =>
      snd r = models_to_try
      ∧ Forall (λ m, ∃ e, create request m = Raise e) models_to_try
      ∧ ∃ e, create request (py "claude-3-5-sonnet-20241022") = Raise e
             ∧ msg = py "All models failed. Last error: " ++ e
             ∧ fst (generate_template env request w)
               = Return (failure_response
                           (py "Failed to generate template: " ++ msg)
                           (end_clock env - start_clock env))
    end.
Proof.
  intros Henv. cbv zeta.
  pose proof (try_models_spec (create request) models_to_try None) as H.
  destruct (try_models (create request) models_to_try None) as [r asked] eqn:E.
  destruct H as (later & Hasked & H). cbn [fst snd].
  split; [by exists later|].
  destruct r as [msg|text]; [|exact H].
  destruct H as (-> & Hall & e & -> & Hlast).
  rewrite app_nil_r in Hasked. split; [done|]. split; [exact Hall|].
  exists e. split; [exact Hlast|]. split; [reflexivity|].
  rewrite (generate_template_raised env request
             (λ request, fst (try_models (create request) models_to_try None))
             (py "All models failed. Last error: " ++ e) w).
  - reflexivity.
  - rewrite Henv. reflexivity.
  - cbn beta. rewrite E. reflexivity.
Qed.

End models.

Lemma generate_content_first_answer_witness :
  let create : PhishingRequest.t → str → result str :=
    λ _ _, Raise (py "overloaded") in
  let env :=
    {| anthropic_service := looping_client create;
       uuid4 := py "6fa459ea-ee8a-3ca4-894e-db77e160355e";
       start_clock := 2000; end_clock := 2002;
       created_now := 2002; history_now := 2003 |} in
  fst (@generate_template ascii_lower env sample_request empty_world)
  = Return (failure_response
              (py "Failed to generate template: "
               ++ py "All models failed. Last error: " ++ py "overloaded") 2).
Proof.
  cbv zeta.
  destruct (generate_content_first_answer (L := ascii_lower)
              (λ _ _, Raise (py "overloaded"))
              {| anthropic_service := looping_client (λ _ _, Raise (py "overloaded"));
                 uuid4 := py "6fa459ea-ee8a-3ca4-894e-db77e160355e";
                 start_clock := 2000; end_clock := 2002;
                 created_now := 2002; history_now := 2003 |}
              sample_request empty_world eq_refl) as [_ H].
  cbn [try_models models_to_try fst snd] in H.
  destruct H as (_ & _ & e & He & _ & Hg).
  injection He as <-. exact Hg.
Defined.

(** ** Counting words *)

Lemma count_words_cons (b : bool) (c : N) (s : str) :
  count_words b (c :: s)
  = if isspace c then count_words false s
    else if b then count_words true s else S (count_words true s).
Proof. reflexivity. Qed.

Lemma count_words_rstrip (s : str) :
  ∀ b, count_words b (rstrip s) = count_words b s.
Proof.
  induction s as [|c s IH]; intros b; [reflexivity|].
  rewrite (count_words_cons b c s), <- !IH.
  cbn [rstrip]. destruct (rstrip s) as [|d r].
  - cbn [count_words]. destruct (isspace c) eqn:Hc; [reflexivity|].
    cbn [count_words]. rewrite Hc. reflexivity.
  - apply count_words_cons.
Qed.

Lemma count_words_lstrip (s : str) :
  count_words false (lstrip s) = count_words false s.
Proof.
  induction s as [|c s IH]; [reflexivity|]. cbn [lstrip].
  destruct (isspace c) eqn:Hc; [|reflexivity].
  cbn [count_words]. by rewrite Hc.
Qed.

Lemma count_words_strip (s : str) :
  count_words false (strip s) = count_words false s.
Proof. unfold strip. by rewrite count_words_rstrip, count_words_lstrip. Qed.

(** A run of whitespace is matched whole. *)
Lemma greedy_space_all {R : Type} (f : str → R) (s : str) :
  greedy Space (λ s, Some (f s)) s = Some (f (lstrip s)).
Proof.
  induction s as [|c s IH]; [reflexivity|].
  cbn [greedy lstrip cls_match]. destruct (isspace c); [|reflexivity].
  by rewrite IH.
Qed.

Lemma re_sub_from_skip (p : pattern) (repl : str) (s : str) :
  ∀ skip, re_sub_from p repl skip s = re_sub_from p repl 0 (drop skip s).
Proof.
  induction s as [|c s IH]; intros [|n]; try reflexivity.
  cbn [re_sub_from drop]. apply IH.
Qed.

Lemma lstrip_length_drop (s : str) :
  drop (length s - length (lstrip s)) s = lstrip s.
Proof.
  induction s as [|c s IH]; [reflexivity|]. cbn [lstrip].
  destruct (isspace c).
  - destruct (lstrip_drop s) as [n Hn].
    assert (length (lstrip s) ≤ length s)%nat
      by (rewrite Hn, length_drop; lia).
    replace (length (c :: s) - length (lstrip s))%nat
      with (S (length s - length (lstrip s))) by (cbn [length]; lia).
    exact IH.
  - by rewrite Nat.sub_diag.
Qed.

(** One step of the substitution that collapses whitespace. *)
Lemma re_sub_spaces_cons (repl : str) (c : N) (s : str) :
  re_sub_from (Plus Space) repl 0 (c :: s)
  = if isspace c then repl ++ re_sub_from (Plus Space) repl 0 (lstrip s)
    else c :: re_sub_from (Plus Space) repl 0 s.
Proof.
  cbn [re_sub_from Plus re_match cls_match].
  destruct (isspace c); [|reflexivity].
  change (re_match false [] (c :: s) []) with (λ t : str, Some (@nil str, t)).
  rewrite (greedy_space_all (λ t, (@nil str, t))).
  rewrite re_sub_from_skip. do 2 f_equal.
  replace (length (c :: s) - length (lstrip s) - 1)%nat
    with (length s - length (lstrip s))%nat by (cbn [length]; lia).
  apply lstrip_length_drop.
Qed.

Lemma count_words_collapse (n : nat) :
  ∀ (s : str) (b : bool),
    (length s ≤ n)%nat →
    count_words b (re_sub_from (Plus Space) [32%N] 0 s) = count_words b s.
Proof.
  induction n as [|n IH]; intros [|c s] b Hn; try reflexivity;
    [cbn [length] in Hn; lia|].
  rewrite re_sub_spaces_cons. cbn [count_words].
  destruct (isspace c) eqn:Hc.
  - cbn [app count_words]. change (isspace 32) with true. cbv iota.
    rewrite IH, count_words_lstrip; [reflexivity|].
    destruct (lstrip_drop s) as [k ->]. rewrite length_drop.
    cbn [length] in Hn. lia.
  - cbn [count_words]. rewrite Hc.
    rewrite !IH by (cbn [length] in Hn; lia). reflexivity.
Qed.

Lemma re_sub_tag_plain (repl s : str) :
  Forall (λ c, c ≠ 60%N) s → re_sub tag_pattern repl s = s.
Proof.
  unfold re_sub. rewrite tag_pattern_unfold.
  induction 1 as [|c s Hc _ IH]; [reflexivity|].
  cbn [re_sub_from re_match eat]. unfold lit_char.
  destruct (N.eqb_spec 60 c) as [E|_]; [by destruct Hc|]. by rewrite IH.
Qed.

Lemma space_literal : py " " = [32%N].
Proof. vm_compute. reflexivity. Qed.

(** X24.  The whitespace handling of [calculate_word_count] does not
    change the count: the result is the number of words of the text in
    which every tag stands as one blank.  A text without [<] holds no tag,
    and its count is the number of its words, the maximal runs of
    characters that are not whitespace. *)
Theorem calculate_word_count_words (html_content : str) :
  calculate_word_count html_content
  = count_words false (re_sub tag_pattern (py " ") html_content)
  ∧ (Forall (λ c, c ≠ 60%N) html_content →
     calculate_word_count html_content = count_words false html_content).
Proof.
  assert (H : calculate_word_count html_content
              = count_words false (re_sub tag_pattern (py " ") html_content)).
  { unfold calculate_word_count. cbv zeta.
    rewrite count_words_strip. unfold re_sub at 1. rewrite space_literal.
    by apply (count_words_collapse
                (length (re_sub tag_pattern [32%N] html_content))). }
  split; [exact H|].
  intros Hplain. rewrite H. by rewrite re_sub_tag_plain.
Qed.

(** ** Indicators *)

Lemma startswith_app_l (a b s : str) :
  startswith (a ++ b) s = true → startswith a s = true.
Proof.
  revert s. induction a as [|x a IH]; intros s; [reflexivity|].
  destruct s as [|y s]; cbn [app startswith]; [done|].
  intros [Hxy Hs]%andb_prop. rewrite Hxy. cbn [andb]. by apply IH.
Qed.

Lemma contains_app_l (a b s : str) :
  contains (a ++ b) s = true → contains a s = true.
Proof.
  induction s as [|c s IH]; cbn [contains].
  - rewrite !orb_false_r. apply startswith_app_l.
  - intros [H|H]%orb_prop.
    + by rewrite (startswith_app_l a b _ H).
    + rewrite (IH H). apply orb_true_r.
Qed.

Lemma filter_full {A : Type} (p : A → bool) (l : list A) :
  length (List.filter p l) = length l → Forall (λ x, p x = true) l.
Proof.
  induction l as [|x l IH]; [constructor|]. cbn [List.filter].
  pose proof (length_filter_le p l) as Hle.
  destruct (p x) eqn:Hp; cbn [length]; intros H; [|lia].
  constructor; [exact Hp|]. apply IH. lia.
Qed.

Lemma limited_time_split : py "limited time" = py "limited" ++ py " time".
Proof. vm_compute. reflexivity. Qed.

Section indicators.
Context `{L : PyLower}.

(** X25.  [analyze_phishing_indicators] reports four counts.  The word
    counts are at most the lengths of their lists (6, 5 and 5) and the link
    count at most the number of [href] addresses.  The lists overlap:
    [expires] is on two of them and [limited time] holds [limited], so a text
    with all six urgency words scores at least 2 for scarcity. *)
Theorem analyze_phishing_indicators_counts (html_content : str) :
  ∃ urgency links authority scarcity,
    analyze_phishing_indicators html_content
    = {[ "urgency_words" := urgency; "suspicious_links" := links;
         "authority_claims" := authority; "scarcity_language" := scarcity ]}
    ∧ (urgency ≤ 6)%nat ∧ (authority ≤ 5)%nat ∧ (scarcity ≤ 5)%nat
    ∧ (links ≤ length (urls_of html_content))%nat
    ∧ (urgency = 6%nat → (2 ≤ scarcity)%nat).
Proof.
  unfold analyze_phishing_indicators. cbv zeta.
  eexists _, _, _, _. split; [reflexivity|].
  unfold count_present.
  split; [apply (length_filter_le _ urgency_words)|].
  split; [apply (length_filter_le _ authority_words)|].
  split; [apply (length_filter_le _ scarcity_words)|].
  split; [apply length_filter_le|].
  intros Hall.
  apply (filter_full _ urgency_words) in Hall.
  unfold urgency_words in Hall.
  inversion_clear Hall as [|? ? _ H1]. inversion_clear H1 as [|? ? _ H2].
  inversion_clear H2 as [|? ? _ H3]. inversion_clear H3 as [|? ? Hexp H4].
  inversion_clear H4 as [|? ? _ H5]. inversion_clear H5 as [|? ? Hlim _].
  rewrite limited_time_split in Hlim. apply contains_app_l in Hlim.
  unfold scarcity_words. cbn [List.filter]. rewrite Hlim, Hexp.
  repeat match goal with
         | |- context [if ?b then _ else _] => destruct b
         end; cbn [length]; lia.
Qed.

End indicators.

(** ** Timers *)

Lemma end_timer_running (now start : Z) (operation : str)
    (data : gmap string Z) (metrics : Metrics) :
  metrics !! operation = Some data →
  data !! "start" = Some start →
  end_timer now operation metrics
  = (now - start,
     <[operation := <["duration" := now - start]> data]> metrics).
Proof. intros Hm Hd. unfold end_timer. by rewrite Hm, Hd. Qed.

Lemma get_metrics_lookup (operation : str) (metrics : Metrics) :
  get_metrics metrics !! operation
  = (λ data : gmap string Z, default 0 (data !! "duration"))
      <$> metrics !! operation.
Proof. unfold get_metrics. apply lookup_fmap. Qed.

(** X26.  [PerformanceMonitor]: ending a timer gives the time since it was
    started, records it, and [get_metrics] reports it; ending it again
    measures from the same start.  Ending a timer that was never started
    gives 0 and changes nothing.  Starting a timer again forgets the
    duration recorded before: [get_metrics] reports 0 for it until it is
    ended.  Other operations are not affected. *)
Theorem performance_monitor_timers
    (t0 t1 t2 : Z) (operation : str) (metrics : Metrics) :
  let started := start_timer t0 operation metrics in
  let ended := snd (end_timer t1 operation started) in
  fst (end_timer t1 operation started) = t1 - t0
  ∧ get_metrics ended !! operation = Some (t1 - t0)
  ∧ fst (end_timer t2 operation ended) = t2 - t0
  ∧ get_metrics (start_timer t2 operation ended) !! operation = Some 0
  ∧ (metrics !! operation = None →
     end_timer t1 operation metrics = (0, metrics))
  ∧ (∀ other, other ≠ operation →
       get_metrics ended !! other = get_metrics metrics !! other).
Proof.
  cbv zeta.
  rewrite (end_timer_running t1 t0 operation {[ "start" := t0 ]}
             (start_timer t0 operation metrics));
    [|apply lookup_insert_eq|apply lookup_singleton_eq].
  cbn [fst snd].
  rewrite (end_timer_running t2 t0 operation
             (<["duration" := t1 - t0]> {[ "start" := t0 ]}));
    [|apply lookup_insert_eq
     |by rewrite lookup_insert_ne, lookup_singleton_eq by discriminate].
  cbn [fst].
  split; [reflexivity|]. split.
  { rewrite get_metrics_lookup, lookup_insert_eq. cbn [fmap option_fmap option_map].
    by rewrite lookup_insert_eq. }
  split; [reflexivity|]. split.
  { rewrite get_metrics_lookup. unfold start_timer.
    rewrite lookup_insert_eq. cbn [fmap option_fmap option_map].
    by rewrite lookup_singleton_ne by discriminate. }
  split.
  - intros Hn. unfold end_timer. by rewrite Hn.
  - intros other Hne. rewrite !get_metrics_lookup. unfold start_timer.
    by rewrite !lookup_insert_ne.
Qed.
